(** * WSL route configuration utilities: a shallow embedding

    This development embeds the two Python scripts of the repository,
    [net/configure_wsl_network.py] and [net/wsl_get_ip.py], and proves
    properties of their route reconciliation logic.

    Modelling conventions.
    - Python text is a [string] of code points below 256.
    - The host (the external commands reached through [subprocess.run]
      and the terminal read by [input]) is an abstract world with two
      operations; every call and every [print] is appended to a log, so
      that a statement about the log is a statement about what the
      script did to the host.
    - A Python call either returns a value or raises; [result] keeps the
      raised exception so that [try]/[except] clauses can be written out. *)

From Stdlib Require Import ZArith List String Ascii Bool Lia.
From Stdlib Require Import DecimalString DecimalZ DecimalPos.
Import ListNotations.

Local Open Scope string_scope.
Local Open Scope Z_scope.

Set Implicit Arguments.

(* ===================================================================== *)
(** ** Python builtins used by the scripts *)
(* ===================================================================== *)

Module Py.

Definition code (c : ascii) : N := N_of_ascii c.

(** The line feed, written [\n] in the scripts' literals. *)
Definition LF : ascii := ascii_of_N 10.
Definition CR : ascii := ascii_of_N 13.
Definition nl : string := String LF EmptyString.

(** [str.isspace] on one code point below 256. *)
Definition isspace (c : ascii) : bool :=
  let n := code c in
  ((9 <=? n)%N && (n <=? 13)%N) || ((28 <=? n)%N && (n <=? 32)%N)
  || (n =? 133)%N || (n =? 160)%N.

(** The line boundaries of [str.splitlines] below 256. *)
Definition is_linebreak (c : ascii) : bool :=
  let n := code c in
  ((10 <=? n)%N && (n <=? 13)%N) || ((28 <=? n)%N && (n <=? 30)%N)
  || (n =? 133)%N.

(** [s.splitlines()]: a CR immediately followed by LF is one boundary;
    no empty last line is produced after a final boundary. *)
Fixpoint splitlines_from (after_cr : bool) (s : string) : list string :=
  match s with
  | EmptyString => []
  | String c s' =>
      if after_cr && Ascii.eqb c LF then splitlines_from false s'
      else if is_linebreak c then
        EmptyString :: splitlines_from (Ascii.eqb c CR) s'
      else
        match splitlines_from false s' with
        | [] => [String c EmptyString]
        | l :: ls => String c l :: ls
        end
  end.

Definition splitlines (s : string) : list string := splitlines_from false s.

(** [sub in s] for two strings. *)
Fixpoint str_in (sub s : string) : bool :=
  String.prefix sub s ||
  match s with
  | EmptyString => false
  | String _ s' => str_in sub s'
  end.

(** [s.lstrip()], [s.rstrip()] and [s.strip()] without argument. *)
Fixpoint lstrip (s : string) : string :=
  match s with
  | EmptyString => EmptyString
  | String c s' => if isspace c then lstrip s' else s
  end.

Fixpoint rstrip (s : string) : string :=
  match s with
  | EmptyString => EmptyString
  | String c s' =>
      match rstrip s' with
      | EmptyString => if isspace c then EmptyString else String c EmptyString
      | r => String c r
      end
  end.

Definition strip (s : string) : string := rstrip (lstrip s).

(** [s.split()] without argument: the maximal runs of non-space
    characters, in order. *)
Fixpoint split (s : string) : list string :=
  match s with
  | EmptyString => []
  | String c s' =>
      if isspace c then split s'
      else
        match s' with
        | EmptyString => [String c EmptyString]
        | String c' _ =>
            if isspace c' then String c EmptyString :: split s'
            else
              match split s' with
              | t :: ts => String c t :: ts
              | [] => [String c EmptyString]
              end
        end
  end.

(** [s.split(sep)] for a one-character separator: never empty. *)
Fixpoint split_on (sep : ascii) (s : string) : list string :=
  match s with
  | EmptyString => [EmptyString]
  | String c s' =>
      if Ascii.eqb c sep then EmptyString :: split_on sep s'
      else
        match split_on sep s' with
        | t :: ts => String c t :: ts
        | [] => [String c EmptyString]
        end
  end.

(** [sep.join(l)]. *)
Definition join (sep : string) (l : list string) : string :=
  String.concat sep l.

(** [str(n)] for an integer.  (Beyond the interpreter's digit limit,
    4300 digits, [str] raises [ValueError]; an integer that the scripts
    got from [int] is within the limit.) *)
Definition str (n : Z) : string := NilZero.string_of_int (Z.to_int n).

Definition is_ascii_digit (c : ascii) : bool :=
  let n := code c in (48 <=? n)%N && (n <=? 57)%N.

Definition digit_value (c : ascii) : Z := Z.of_N (code c) - 48.

Fixpoint all_chars (p : ascii -> bool) (s : string) : bool :=
  match s with
  | EmptyString => true
  | String c s' => p c && all_chars p s'
  end.

(** [s.isascii() and s.isdigit()]: non-empty and made of 0-9 only. *)
Definition isascii_isdigit (s : string) : bool :=
  match s with
  | EmptyString => false
  | _ => all_chars is_ascii_digit s
  end.

(** The value of a string of decimal digits, most significant first. *)
Fixpoint decimal_from (acc : Z) (s : string) : Z :=
  match s with
  | EmptyString => acc
  | String c s' => decimal_from (10 * acc + digit_value c) s'
  end.

Definition decimal (s : string) : Z := decimal_from 0 s.

(** White space that [int] skips around a literal: the C locale's
    [isspace] on ASCII, and the spaces above 127, which [int] first
    turns into blanks.  The separators 28-31, white space for
    [str.strip], are not skipped. *)
Definition int_space (c : ascii) : bool :=
  let n := code c in
  ((9 <=? n)%N && (n <=? 13)%N) || (n =? 32)%N || (n =? 133)%N || (n =? 160)%N.

Fixpoint int_lstrip (s : string) : string :=
  match s with
  | EmptyString => EmptyString
  | String c s' => if int_space c then int_lstrip s' else s
  end.

Fixpoint int_rstrip (s : string) : string :=
  match s with
  | EmptyString => EmptyString
  | String c s' =>
      match int_rstrip s' with
      | EmptyString => if int_space c then EmptyString else String c EmptyString
      | r => String c r
      end
  end.

(** [sys.get_int_max_str_digits()], as the interpreter starts. *)
Definition int_max_str_digits : Z := 4300.

(** The two ways in which [int] refuses a string; both raise
    [ValueError]. *)
Inductive int_error : Type :=
| InvalidLiteral
| TooManyDigits (digits : Z).

(** The digits of an [int] literal: single underscores are allowed
    between digits, nowhere else.  [prev_digit] tells whether the
    previous character was a digit, [digits] counts the digits read.
    The count is checked where the run of digits and underscores ends,
    before what follows is looked at. *)
Fixpoint int_digits (prev_digit : bool) (digits : Z) (acc : Z) (s : string)
  : int_error + Z :=
  match s with
  | EmptyString =>
      if prev_digit then
        if int_max_str_digits <? digits then inl (TooManyDigits digits)
        else inr acc
      else inl InvalidLiteral
  | String c s' =>
      if is_ascii_digit c then
        int_digits true (digits + 1) (10 * acc + digit_value c) s'
      else if Ascii.eqb c "_" then
        if prev_digit then int_digits false digits acc s' else inl InvalidLiteral
      else if prev_digit && (int_max_str_digits <? digits) then
        inl (TooManyDigits digits)
      else inl InvalidLiteral
  end.

Definition opp_value (r : int_error + Z) : int_error + Z :=
  match r with
  | inl e => inl e
  | inr n => inr (- n)
  end.

(** [int(s)] for a string, base ten: surrounding white space and one
    sign are accepted. *)
Definition int (s : string) : int_error + Z :=
  match int_rstrip (int_lstrip s) with
  | String "-" r => opp_value (int_digits false 0 0 r)
  | String "+" r => int_digits false 0 0 r
  | r => int_digits false 0 0 r
  end.

Definition backslash : ascii := ascii_of_N 92.
Definition apostrophe : ascii := ascii_of_N 39.
Definition double_quote : ascii := ascii_of_N 34.

(** [str.isprintable] on one code point below 256. *)
Definition isprintable (c : ascii) : bool :=
  let n := code c in
  ((32 <=? n)%N && (n <=? 126)%N)
  || ((161 <=? n)%N && (n <=? 255)%N && negb (n =? 173)%N).

Definition hex_digit (n : N) : ascii :=
  if (n <? 10)%N then ascii_of_N (48 + n) else ascii_of_N (87 + n).

(** One character inside [repr] of a string delimited by [quote]. *)
Definition repr_char (quote c : ascii) : string :=
  let n := code c in
  if Ascii.eqb c quote || Ascii.eqb c backslash then
    String backslash (String c EmptyString)
  else if (n =? 9)%N then String backslash "t"
  else if (n =? 10)%N then String backslash "n"
  else if (n =? 13)%N then String backslash "r"
  else if isprintable c then String c EmptyString
  else
    String backslash
      (String "x" (String (hex_digit (n / 16)) (String (hex_digit (n mod 16)) EmptyString))).

Fixpoint repr_chars (quote : ascii) (s : string) : string :=
  match s with
  | EmptyString => EmptyString
  | String c s' => repr_char quote c ++ repr_chars quote s'
  end.

(** [repr(s)] for a string: double quotes are chosen when the string
    holds an apostrophe and no double quote. *)
Definition repr (s : string) : string :=
  let quote :=
    if str_in (String apostrophe EmptyString) s
       && negb (str_in (String double_quote EmptyString) s)
    then double_quote else apostrophe in
  String quote (repr_chars quote s ++ String quote EmptyString).

(** The first [n] characters of [s]. *)
Fixpoint truncate (n : nat) (s : string) : string :=
  match n, s with
  | S n', String c s' => String c (truncate n' s')
  | _, _ => EmptyString
  end.

(** The text of the [ValueError] that [int(s)] raises; the offending
    string is shown as [%.200R]. *)
Definition int_error_text (s : string) (e : int_error) : string :=
  match e with
  | InvalidLiteral =>
      "invalid literal for int() with base 10: " ++ truncate 200 (repr s)
  | TooManyDigits digits =>
      "Exceeds the limit (" ++ str int_max_str_digits
        ++ " digits) for integer string conversion: value has "
        ++ str digits
        ++ " digits; use sys.set_int_max_str_digits() to increase the limit"
  end.

(** Truth value of a string, as tested by [if x] and [if not x]. *)
Definition truthy_str (s : string) : bool :=
  match s with EmptyString => false | _ => true end.

End Py.

(* ===================================================================== *)
(** ** Exceptions, the host and the script monad *)
(* ===================================================================== *)

(** The exceptions a run can see.  [KeyboardInterrupt] and [SystemExit]
    derive from [BaseException] only; every other class met here derives
    from [Exception] and is kept by its class name and by the text that
    [str] gives of it. *)
Inductive exn : Type :=
| KeyboardInterrupt
| SystemExit (status : Z)
| Exception (cls : string) (msg : string).

(** [except Exception] catches exactly the third kind. *)
Definition is_Exception (e : exn) : bool :=
  match e with Exception _ _ => true | _ => false end.

Definition is_KeyboardInterrupt (e : exn) : bool :=
  match e with KeyboardInterrupt => true | _ => false end.

(** A call returns or raises. *)
Inductive result (A : Type) : Type :=
| Return (a : A)
| Raise (e : exn).
Arguments Return {A} a.
Arguments Raise {A} e.

(** What [subprocess.run(cmd, capture_output=True, text=True)] returns. *)
Record CompletedProcess : Type := mkCompleted {
  returncode : Z;
  stdout : string;
  stderr : string
}.

(** What the script does that can be seen from outside. *)
Inductive event : Type :=
| EvRun (cmd : list string)
| EvPrint (text : string)
| EvInput (prompt : string).

(** The host: it answers a command with a completed process or an
    exception ([FileNotFoundError] when the program is missing, for
    instance), and a prompt with a line or an exception ([EOFError],
    [KeyboardInterrupt]).  Both may change the host. *)
Class Host (W : Type) : Type := {
  host_run : list string -> W -> result CompletedProcess * W;
  host_input : string -> W -> result string * W
}.

Section Script.

Context {W : Type} {HW : Host W}.

Record state : Type := mkState {
  world : W;
  log : list event
}.

Definition M (A : Type) : Type := state -> result A * state.

Definition ret {A} (a : A) : M A := fun s => (Return a, s).

Definition raise {A} (e : exn) : M A := fun s => (Raise e, s).

Definition bind {A B} (m : M A) (k : A -> M B) : M B :=
  fun s =>
    match m s with
    | (Return a, s') => k a s'
    | (Raise e, s') => (Raise e, s')
    end.

(** [try: m  except <classes selected by catches>: handler]. *)
Definition try_except {A} (m : M A) (catches : exn -> bool)
           (handler : exn -> M A) : M A :=
  fun s =>
    match m s with
    | (Return a, s') => (Return a, s')
    | (Raise e, s') => if catches e then handler e s' else (Raise e, s')
    end.

Definition emit (e : event) (s : state) : state :=
  mkState (world s) (log s ++ [e]).

(** [print(text)]. *)
Definition print (text : string) : M unit :=
  fun s => (Return tt, emit (EvPrint text) s).

(** [subprocess.run(cmd, capture_output=True, text=True)]. *)
Definition subprocess_run (cmd : list string) : M CompletedProcess :=
  fun s =>
    let (r, w) := host_run cmd (world s) in
    (r, mkState w (log s ++ [EvRun cmd])).

(** [input(prompt)]. *)
Definition input (prompt : string) : M string :=
  fun s =>
    let (r, w) := host_input prompt (world s) in
    (r, mkState w (log s ++ [EvInput prompt])).

End Script.

Arguments state W : clear implicits.
Arguments M W A : clear implicits.

Declare Scope script_scope.
Delimit Scope script_scope with script.
Notation "x <- m ;; k" := (bind m (fun x => k))
  (at level 61, m at next level, right associativity) : script_scope.
Notation "m ;; k" := (bind m (fun _ => k))
  (at level 61, right associativity) : script_scope.
Local Open Scope script_scope.

(* ===================================================================== *)
(** ** The standard library's [ipaddress.IPv4Network] *)
(* ===================================================================== *)

(** [parse_cidr] delegates to [ipaddress.IPv4Network(cidr, strict=False)]
    of the Python standard library.  The functions below follow that
    module method by method, for a string argument. *)
Module Ipaddress.

(** The three errors of the constructor; each derives from
    [ValueError]. *)
Inductive error : Type :=
| AddressValueError
| NetmaskValueError
| ValueError.

Definition IPV4LENGTH : Z := 32.
Definition ALL_ONES : Z := 2 ^ IPV4LENGTH - 1.
Definition max_prefixlen : Z := IPV4LENGTH.

(** The mask handed to [_make_netmask]: the text after the slash, or
    the integer [_max_prefixlen] when there is no slash. *)
Inductive mask_arg : Type :=
| MaskStr (s : string)
| MaskInt (n : Z).

(** [_split_optional_netmask]. *)
Definition split_optional_netmask (address : string) : error + list string :=
  let addr := Py.split_on "/" address in
  if (2 <? List.length addr)%nat then inl AddressValueError else inr addr.

(** [_split_addr_prefix], for a string. *)
Definition split_addr_prefix (address : string) : error + (string * mask_arg) :=
  match split_optional_netmask address with
  | inl e => inl e
  | inr [a; m] => inr (a, MaskStr m)
  | inr (a :: _) => inr (a, MaskInt max_prefixlen)
  | inr [] => inl AddressValueError
  end.

(** [_parse_octet]; [None] is its [ValueError]. *)
Definition parse_octet (octet_str : string) : option Z :=
  if negb (Py.truthy_str octet_str) then None
  else if negb (Py.isascii_isdigit octet_str) then None
  else if (3 <? String.length octet_str)%nat then None
  else if negb (String.eqb octet_str "0") && String.prefix "0" octet_str then None
  else
    let octet_int := Py.decimal octet_str in
    if 255 <? octet_int then None else Some octet_int.

Fixpoint map_octets (octets : list string) : option (list Z) :=
  match octets with
  | [] => Some []
  | o :: os =>
      match parse_octet o with
      | None => None
      | Some b =>
          match map_octets os with
          | None => None
          | Some bs => Some (b :: bs)
          end
      end
  end.

(** [int.from_bytes(bytes, 'big')]. *)
Definition int_from_bytes (bytes : list Z) : Z :=
  fold_left (fun acc b => acc * 256 + b) bytes 0.

(** [_ip_int_from_string]; [None] is its [AddressValueError]. *)
Definition ip_int_from_string (ip_str : string) : option Z :=
  if negb (Py.truthy_str ip_str) then None
  else
    let octets := Py.split_on "." ip_str in
    if negb (List.length octets =? 4)%nat then None
    else option_map int_from_bytes (map_octets octets).

(** [IPv4Address(addr)] for a string; [None] is [AddressValueError]. *)
Definition IPv4Address (addr_str : string) : option Z :=
  if Py.str_in "/" addr_str then None else ip_int_from_string addr_str.

(** [_ip_int_from_prefix]. *)
Definition ip_int_from_prefix (prefixlen : Z) : Z :=
  Z.lxor ALL_ONES (Z.shiftr ALL_ONES prefixlen).

(** [int.bit_length] of a non-negative integer. *)
Definition bit_length (n : Z) : Z :=
  if n =? 0 then 0 else Z.log2 n + 1.

(** [_count_righthand_zero_bits]. *)
Definition count_righthand_zero_bits (number bits : Z) : Z :=
  if number =? 0 then bits
  else Z.min bits (bit_length (Z.land (Z.lnot number) (number - 1))).

(** [_prefix_from_ip_int]; [None] is its [ValueError]. *)
Definition prefix_from_ip_int (ip_int : Z) : option Z :=
  let trailing_zeroes := count_righthand_zero_bits ip_int max_prefixlen in
  let prefixlen := max_prefixlen - trailing_zeroes in
  let leading_ones := Z.shiftr ip_int trailing_zeroes in
  let all_ones := Z.shiftl 1 prefixlen - 1 in
  if negb (leading_ones =? all_ones) then None else Some prefixlen.

(** [_prefix_from_prefix_string]; [None] is [NetmaskValueError]. *)
Definition prefix_from_prefix_string (prefixlen_str : string) : option Z :=
  if negb (Py.isascii_isdigit prefixlen_str) then None
  else
    match Py.int prefixlen_str with
    | inl _ => None
    | inr prefixlen =>
        if negb ((0 <=? prefixlen) && (prefixlen <=? max_prefixlen)) then None
        else Some prefixlen
    end.

(** [_prefix_from_ip_string]: a dotted netmask, else a dotted hostmask;
    [None] is [NetmaskValueError]. *)
Definition prefix_from_ip_string (ip_str : string) : option Z :=
  match ip_int_from_string ip_str with
  | None => None
  | Some ip_int =>
      match prefix_from_ip_int ip_int with
      | Some p => Some p
      | None => prefix_from_ip_int (Z.lxor ip_int ALL_ONES)
      end
  end.

(** [_make_netmask]: the netmask as an integer and the prefix length;
    [None] is [NetmaskValueError]. *)
Definition make_netmask (arg : mask_arg) : option (Z * Z) :=
  let prefixlen :=
    match arg with
    | MaskInt n =>
        if negb ((0 <=? n) && (n <=? max_prefixlen)) then None else Some n
    | MaskStr s =>
        match prefix_from_prefix_string s with
        | Some p => Some p
        | None => prefix_from_ip_string s
        end
    end in
  match prefixlen with
  | None => None
  | Some p => Some (ip_int_from_prefix p, p)
  end.

Record IPv4NetworkT : Type := mkNetwork {
  network_address : Z;
  netmask : Z;
  prefixlen : Z
}.

(** [IPv4Network(address, strict)]. *)
Definition IPv4Network (address : string) (strict : bool)
  : error + IPv4NetworkT :=
  match split_addr_prefix address with
  | inl e => inl e
  | inr (addr, mask) =>
      match IPv4Address addr with
      | None => inl AddressValueError
      | Some packed =>
          match make_netmask mask with
          | None => inl NetmaskValueError
          | Some (nm, p) =>
              if negb (Z.land packed nm =? packed) then
                if strict then inl ValueError
                else inr (mkNetwork (Z.land packed nm) nm p)
              else inr (mkNetwork packed nm p)
          end
      end
  end.

(** [int.to_bytes(4, 'big')] of an integer below [2 ^ 32]. *)
Definition to_bytes4 (ip_int : Z) : list Z :=
  [Z.land (Z.shiftr ip_int 24) 255; Z.land (Z.shiftr ip_int 16) 255;
   Z.land (Z.shiftr ip_int 8) 255; Z.land ip_int 255].

(** [_string_from_ip_int], which is [str] of an address. *)
Definition string_from_ip_int (ip_int : Z) : string :=
  Py.join "." (map Py.str (to_bytes4 ip_int)).

End Ipaddress.

(* ===================================================================== *)
(** ** [net/configure_wsl_network.py] *)
(* ===================================================================== *)

Module ConfigureWslNetwork.

(** The namespace returned by [parser.parse_args()]. *)
Record Namespace : Type := mkArgs {
  cidr : option string;
  gateway : option string;
  interface_index : option Z;
  dry_run : bool;
  status : bool
}.

Section WithHost.

Context {W : Type} {HW : Host W}.

Definition wsl_ip_cmd : list string :=
  ["wsl"; "ip"; "-4"; "addr"; "show"; "eth0"].

(** The [for] loop of [get_wsl_ip_cidr]; indexing a list of fewer
    than two tokens raises [IndexError]. *)
Fixpoint scan_inet (lines : list string) : M W (option string) :=
  match lines with
  | [] => print "No IP address found for eth0." ;; ret None
  | line :: rest =>
      if Py.str_in "inet" line then
        match nth_error (Py.split (Py.strip line)) 1 with
        | Some cidr => ret (Some cidr)
        | None => raise (Exception "IndexError" "list index out of range")
        end
      else scan_inet rest
  end.

Definition get_wsl_ip_cidr : M W (option string) :=
  try_except
    (result <- subprocess_run wsl_ip_cmd ;;
     if negb (returncode result =? 0) then
       print ("Error running command: " ++ stderr result) ;; ret None
     else scan_inet (Py.splitlines (stdout result)))
    is_Exception
    (fun e =>
       match e with
       | Exception _ msg =>
           print ("Error retrieving WSL IP address in CIDR format: " ++ msg) ;;
           ret None
       | _ => raise e
       end).

Definition adapters_cmd : list string :=
  ["powershell"; "-Command";
   "Get-NetIPConfiguration | Select-Object InterfaceAlias, InterfaceIndex, IPv4Address, @{Name='IPv4DefaultGateway'; Expression={$_.IPv4DefaultGateway.NextHop}}"].

Definition get_network_adapters : M W unit :=
  result <- subprocess_run adapters_cmd ;;
  if returncode result =? 0 then
    print "Available Network Interfaces:" ;;
    print (stdout result)
  else
    print ("Failed to retrieve network adapters:" ++ Py.nl ++ stderr result).

Definition gateway_cmd (interface_index : Z) : list string :=
  ["powershell"; "-Command";
   "Get-NetIPConfiguration | Where-Object { $_.InterfaceIndex -eq "
     ++ Py.str interface_index
     ++ " } | Select-Object -ExpandProperty IPv4DefaultGateway | Select-Object -ExpandProperty NextHop"].

Definition get_gateway_from_nic (interface_index : Z) : M W (option string) :=
  result <- subprocess_run (gateway_cmd interface_index) ;;
  if returncode result =? 0 then
    let gateway := Py.strip (stdout result) in
    if Py.truthy_str gateway then ret (Some gateway)
    else
      print ("No gateway found for interface index '"
               ++ Py.str interface_index ++ "'.") ;;
      ret None
  else
    print ("Failed to retrieve gateway for interface index '"
             ++ Py.str interface_index ++ "':" ++ Py.nl ++ stderr result) ;;
    ret None.

Definition route_print_cmd : list string := ["route"; "print"].

(** The [for] loop of [check_route_status]. *)
Fixpoint scan_routes (subnet : string) (lines : list string) : M W bool :=
  match lines with
  | [] => print ("No route found for " ++ subnet ++ ".") ;; ret false
  | line :: rest =>
      if Py.str_in subnet line then
        print ("Route exists for " ++ subnet ++ ":") ;;
        print (Py.strip line) ;;
        ret true
      else scan_routes subnet rest
  end.

Definition check_route_status (subnet : string) : M W bool :=
  result <- subprocess_run route_print_cmd ;;
  if negb (returncode result =? 0) then
    print "Failed to retrieve route information." ;; ret false
  else scan_routes subnet (Py.splitlines (stdout result)).

Definition delete_cmd (subnet : string) : list string :=
  ["route"; "delete"; subnet].

Definition delete_existing_route (subnet : string) (dry_run : bool) : M W unit :=
  let cmd := delete_cmd subnet in
  if dry_run then
    print ("[Dry Run] Command to delete route: " ++ Py.join " " cmd)
  else
    result <- subprocess_run cmd ;;
    if returncode result =? 0 then
      print ("Deleted existing route for " ++ subnet ++ ":" ++ Py.nl
               ++ stdout result)
    else
      print ("No existing route found for " ++ subnet
               ++ " or failed to delete:" ++ Py.nl ++ stderr result).

Definition add_cmd (subnet mask gateway : string) (interface_index : Z)
  : list string :=
  ["route"; "add"; subnet; "MASK"; mask; gateway; "IF"; Py.str interface_index].

Definition add_static_route (subnet mask gateway : string)
           (interface_index : Z) (dry_run : bool) : M W unit :=
  let cmd := add_cmd subnet mask gateway interface_index in
  if dry_run then
    print ("[Dry Run] Command to add route: " ++ Py.join " " cmd)
  else
    result <- subprocess_run cmd ;;
    if returncode result =? 0 then
      print ("Static route added successfully:" ++ Py.nl ++ stdout result)
    else
      print ("Failed to add static route:" ++ Py.nl ++ stderr result).

(** [exit(1)] raises [SystemExit(1)]. *)
Definition parse_cidr (cidr : string) : M W (string * string) :=
  match Ipaddress.IPv4Network cidr false with
  | inr network =>
      let subnet := Ipaddress.string_from_ip_int (Ipaddress.network_address network) in
      let mask := Ipaddress.string_from_ip_int (Ipaddress.netmask network) in
      ret (subnet, mask)
  | inl _ =>
      print ("Invalid CIDR format: " ++ cidr) ;;
      raise (SystemExit 1)
  end.

(** [if not x: x = fallback] for an optional string. *)
Definition unless_str (x : option string) (fallback : M W string) : M W string :=
  match x with
  | Some s => if Py.truthy_str s then ret s else fallback
  | None => fallback
  end.

(** [main], lines 140-143: the value of [args.cidr] handed to
    [parse_cidr]. *)
Definition resolve_cidr (args : Namespace) : M W string :=
  unless_str (cidr args)
    (found <- get_wsl_ip_cidr ;;
     unless_str found
       (input "Enter the WSL instance IP address in CIDR format (e.g., 172.16.0.0/12): ")).

(** [if not x: x = fallback] for an optional integer: zero is
    false, like [None]. *)
Definition unless_int (x : option Z) (fallback : M W Z) : M W Z :=
  match x with
  | Some n => if negb (n =? 0) then ret n else fallback
  | None => fallback
  end.

(** [int(input(prompt))]; [int] of an unreadable line raises
    [ValueError]. *)
Definition input_int (prompt : string) : M W Z :=
  line <- input prompt ;;
  match Py.int line with
  | inr n => ret n
  | inl e => raise (Exception "ValueError" (Py.int_error_text line e))
  end.

Definition index_prompt : string :=
  "Enter the InterfaceIndex of the desired NIC: ".

(** [main], lines 154-157. *)
Definition resolve_interface_index (args : Namespace) : M W Z :=
  unless_int (interface_index args)
    (print "Available network adapters:" ;;
     get_network_adapters ;;
     input_int index_prompt).

Definition gateway_notice : string :=
  "Unable to determine the gateway. Please provide it manually.".

Definition gateway_prompt : string :=
  "Enter the gateway IP address of the desired NIC: ".

(** [main], lines 160-164. *)
Definition resolve_gateway (args : Namespace) (index : Z) : M W string :=
  unless_str (gateway args)
    (found <- get_gateway_from_nic index ;;
     unless_str found
       (print gateway_notice ;;
        input gateway_prompt)).

(** [main], lines 166-170: delete, then add. *)
Definition reconcile (subnet mask gateway : string) (index : Z)
           (dryRun : bool) : M W unit :=
  delete_existing_route subnet dryRun ;;
  add_static_route subnet mask gateway index dryRun.

(** The body of the [try] statement of [main]. *)
Definition main_body (args : Namespace) : M W unit :=
  c <- resolve_cidr args ;;
  sm <- parse_cidr c ;;
  let (subnet, mask) := sm in
  if status args then
    check_route_status subnet ;; ret tt
  else
    index <- resolve_interface_index args ;;
    gw <- resolve_gateway args index ;;
    reconcile subnet mask gw index (dry_run args).

(** The [except KeyboardInterrupt] clause of [main]; [sys.exit(0)]
    raises [SystemExit(0)]. *)
Definition cancelled : exn -> M W unit :=
  fun _ =>
    print (Py.nl ++ "Operation cancelled by user.") ;;
    raise (SystemExit 0).

Definition main (args : Namespace) : M W unit :=
  try_except (main_body args) is_KeyboardInterrupt cancelled.

End WithHost.

End ConfigureWslNetwork.

(* ===================================================================== *)
(** ** [net/wsl_get_ip.py] *)
(* ===================================================================== *)

Module WslGetIp.

Section WithHost.

Context {W : Type} {HW : Host W}.

Definition wsl_ip_cmd : list string :=
  ["wsl"; "ip"; "-4"; "addr"; "show"; "eth0"].

Fixpoint scan_inet (lines : list string) : M W (option string) :=
  match lines with
  | [] => print "No IP address found for eth0." ;; ret None
  | line :: rest =>
      if Py.str_in "inet" line then
        match nth_error (Py.split (Py.strip line)) 1 with
        | Some cidr => ret (Some cidr)
        | None => raise (Exception "IndexError" "list index out of range")
        end
      else scan_inet rest
  end.

Definition get_wsl_ip_cidr : M W (option string) :=
  try_except
    (result <- subprocess_run wsl_ip_cmd ;;
     if negb (returncode result =? 0) then
       print ("Error running command: " ++ stderr result) ;; ret None
     else scan_inet (Py.splitlines (stdout result)))
    is_Exception
    (fun e =>
       match e with
       | Exception _ msg =>
           print ("Error retrieving WSL IP address in CIDR format: " ++ msg) ;;
           ret None
       | _ => raise e
       end).

(** The script's [__main__] block. *)
Definition main : M W unit :=
  wsl_ip_cidr <- get_wsl_ip_cidr ;;
  match wsl_ip_cidr with
  | Some c =>
      if Py.truthy_str c then
        print ("WSL IP Address in CIDR notation: " ++ c)
      else print "Could not determine the WSL IP address."
  | None => print "Could not determine the WSL IP address."
  end.

End WithHost.

End WslGetIp.

(* ===================================================================== *)
(** ** Running a script *)
(* ===================================================================== *)

(** The exit status of the interpreter: 0 after a normal return, the
    argument of [SystemExit], 1 after an uncaught [Exception].  An
    uncaught [KeyboardInterrupt] ends the process in a platform
    dependent way and gets no status here. *)
Definition exit_status {A} (r : result A) : option Z :=
  match r with
  | Return _ => Some 0
  | Raise (SystemExit n) => Some n
  | Raise (Exception _ _) => Some 1
  | Raise KeyboardInterrupt => None
  end.

Definition start {W} (w : W) : state W := mkState w [].

(** Commands that change the host's route table. *)
Definition is_mutation (e : event) : bool :=
  match e with
  | EvRun ("route" :: "delete" :: _) => true
  | EvRun ("route" :: "add" :: _) => true
  | _ => false
  end.

(** The adapter enumeration query of [get_network_adapters]. *)
Definition is_enumeration (e : event) : bool :=
  match e with
  | EvRun cmd => if list_eq_dec string_dec cmd ConfigureWslNetwork.adapters_cmd then true else false
  | _ => false
  end.

(** Neither a route mutation nor the adapter enumeration. *)
Definition harmless (e : event) : bool :=
  negb (is_mutation e) && negb (is_enumeration e).

Definition is_input (e : event) : bool :=
  match e with EvInput _ => true | _ => false end.

(** Every event that [m] adds to the log passes the test [P]. *)
Definition adds_only {W : Type} (P : event -> bool) {A : Type} (m : M W A) : Prop :=
  forall s, exists added, log (snd (m s)) = (log s ++ added)%list
                          /\ forallb P added = true.

(** The commands run, in order. *)
Definition runs (l : list event) : list (list string) :=
  flat_map (fun e => match e with EvRun c => [c] | _ => [] end) l.

(** The lines printed, in order. *)
Definition printed (l : list event) : list string :=
  flat_map (fun e => match e with EvPrint t => [t] | _ => [] end) l.

(* ===================================================================== *)
(** ** A test double for the host *)
(* ===================================================================== *)

(** A small host used to run the scripts on concrete inputs: a route
    table kept as the list of its destination lines, canned answers for
    the two queries, and the lines waiting on the terminal. *)
Module Fake.

Record t : Type := mk {
  routes : list string;
  add_ok : bool;
  wsl_answer : result CompletedProcess;
  gateway_answer : result CompletedProcess;
  print_ok : bool;
  typed : list string
}.

Definition ok (out : string) : result CompletedProcess :=
  Return (mkCompleted 0 out EmptyString).

Definition failed (err : string) : result CompletedProcess :=
  Return (mkCompleted 1 EmptyString err).

Definition has (s : string) (l : list string) : bool :=
  existsb (String.eqb s) l.

Definition with_routes (w : t) (r : list string) : t :=
  mk r (add_ok w) (wsl_answer w) (gateway_answer w) (print_ok w) (typed w).

Definition run (cmd : list string) (w : t) : result CompletedProcess * t :=
  match cmd with
  | ["route"; "print"] =>
      if print_ok w then (ok (String.concat Py.nl (routes w)), w)
      else (failed "route: query failed", w)
  | ["route"; "delete"; subnet] =>
      if has subnet (routes w) then
        (ok " OK!", with_routes w (filter (fun r => negb (String.eqb subnet r)) (routes w)))
      else (failed "The route deletion failed: Element not found.", w)
  | ["route"; "add"; subnet; _; _; _; _; _] =>
      if add_ok w then (ok " OK!", with_routes w (routes w ++ [subnet]))
      else (failed "The route addition failed: The parameter is incorrect.", w)
  | "wsl" :: _ => (wsl_answer w, w)
  | ["powershell"; _; query] =>
      if String.eqb query "Get-NetIPConfiguration | Select-Object InterfaceAlias, InterfaceIndex, IPv4Address, @{Name='IPv4DefaultGateway'; Expression={$_.IPv4DefaultGateway.NextHop}}"
      then (ok "InterfaceAlias InterfaceIndex", w)
      else (gateway_answer w, w)
  | _ => (Raise (Exception "FileNotFoundError" "[WinError 2]"), w)
  end.

Definition read (prompt : string) (w : t) : result string * t :=
  match typed w with
  | [] => (Raise (Exception "EOFError" "EOF when reading a line"), w)
  | line :: rest =>
      (Return line,
       mk (routes w) (add_ok w) (wsl_answer w) (gateway_answer w) (print_ok w) rest)
  end.

#[global] Instance host : Host t := {
  host_run := run;
  host_input := read
}.

End Fake.

(* ===================================================================== *)
(** ** The data model of the specification *)
(* ===================================================================== *)

(** These definitions follow the words of the specification, not the
    code; the theorems compare the code with them. *)
Module Model.

(** An IPv4 address as an integer, from its four octets. *)
Definition address_of (a b c d : Z) : Z :=
  a * 2 ^ 24 + b * 2 ^ 16 + c * 2 ^ 8 + d.

(** Standard prefix-length-to-mask expansion: the [p] high bits of 32
    are ones, the others zeros. *)
Definition prefix_mask (p : Z) : Z := 2 ^ 32 - 2 ^ (32 - p).

(** The network base address: the [32 - p] host bits zeroed. *)
Definition network_base (ip p : Z) : Z := ip - ip mod 2 ^ (32 - p).

(** Dotted-quad text of four octets and of an address. *)
Definition dotted (a b c d : Z) : string :=
  Py.str a ++ "." ++ Py.str b ++ "." ++ Py.str c ++ "." ++ Py.str d.

Definition dotted_quad (ip : Z) : string :=
  dotted (ip / 2 ^ 24) ((ip / 2 ^ 16) mod 256) ((ip / 2 ^ 8) mod 256) (ip mod 256).

Definition octet (n : Z) : Prop := 0 <= n <= 255.

(** The text [a.b.c.d/p]. *)
Definition cidr_text (a b c d p : Z) : string :=
  dotted a b c d ++ "/" ++ Py.str p.

(** A syntactically valid [address/prefix] string: four decimal octets,
    a slash, a decimal prefix length between 0 and 32. *)
Definition valid_cidr (s : string) : Prop :=
  exists a b c d p,
    octet a /\ octet b /\ octet c /\ octet d /\ 0 <= p <= 32 /\
    s = cidr_text a b c d p.

(** [sub] occurs in [s]. *)
Definition substring (sub s : string) : Prop :=
  exists pre post, s = pre ++ sub ++ post.

(** White space only, and no white space at all. *)
Definition blank (s : string) : Prop := Py.all_chars Py.isspace s = true.

Definition solid (s : string) : Prop :=
  s <> EmptyString /\ Py.all_chars (fun c => negb (Py.isspace c)) s = true.

(** [line] starts, after optional white space, with the token [t0],
    white space, and the token [t1]; [t1] ends the line or is followed
    by white space. *)
Definition second_token (line t1 : string) : Prop :=
  exists ws0 t0 ws1 rest,
    blank ws0 /\ solid t0 /\ blank ws1 /\ ws1 <> EmptyString /\ solid t1 /\
    (rest = EmptyString \/ exists c r, rest = String c r /\ Py.isspace c = true) /\
    line = ws0 ++ t0 ++ ws1 ++ t1 ++ rest.

End Model.

(* ===================================================================== *)
(** ** Tests on text used in the proofs *)
(* ===================================================================== *)

Module Text.

(** The first character is white space. *)
Definition head_space (s : string) : bool :=
  match s with
  | EmptyString => false
  | String c _ => Py.isspace c
  end.

(** The character [c] occurs in [s]. *)
Fixpoint has_char (c : ascii) (s : string) : bool :=
  match s with
  | EmptyString => false
  | String d s' => Ascii.eqb d c || has_char c s'
  end.

(** The decimal text of [n] reads back as the octet [n] and holds no
    separator. *)
Definition octet_text_ok (n : Z) : bool :=
  match Ipaddress.parse_octet (Py.str n) with
  | Some m => m =? n
  | None => false
  end
  && negb (has_char "." (Py.str n)) && negb (has_char "/" (Py.str n)).

(** The decimal text of [p] reads back as the prefix length [p], holds
    no slash, and the netmask the library computes for [p] is the
    standard expansion. *)
Definition prefix_text_ok (p : Z) : bool :=
  match Ipaddress.prefix_from_prefix_string (Py.str p) with
  | Some q => q =? p
  | None => false
  end
  && negb (has_char "/" (Py.str p))
  && (Ipaddress.ip_int_from_prefix p =? Model.prefix_mask p).

End Text.

(* ===================================================================== *)
(** ** Scenarios *)
(* ===================================================================== *)

(** Concrete hosts and command lines on which the scripts are run. *)
Module Scenario.

(** Output of [ip -4 addr show eth0] in the guest. *)
Definition ip_addr_output : string :=
  "2: eth0: <BROADCAST,MULTICAST,UP,LOWER_UP> mtu 1500 qdisc mq state UP group default qlen 1000"
    ++ Py.nl ++ "    inet 172.22.1.5/20 brd 172.22.15.255 scope global eth0"
    ++ Py.nl ++ "       valid_lft forever preferred_lft forever" ++ Py.nl.

(** A host whose route table has no route for the guest subnet and
    accepts new routes. *)
Definition host_without_route : Fake.t :=
  Fake.mk ["0.0.0.0"; "127.0.0.0"] true (Fake.ok ip_addr_output)
    (Fake.ok ("192.168.1.1" ++ Py.nl)) true [].

(** A host that has a route for 172.16.0.0 and refuses new routes. *)
Definition host_refusing_add : Fake.t :=
  Fake.mk ["0.0.0.0"; "172.16.0.0"] false (Fake.ok ip_addr_output)
    (Fake.ok ("192.168.1.1" ++ Py.nl)) true [].

(** A host whose adapter has no gateway, with a user who answers the
    gateway prompt with an empty line. *)
Definition host_without_gateway : Fake.t :=
  Fake.mk ["0.0.0.0"] true (Fake.ok ip_addr_output) (Fake.ok Py.nl) true
    [EmptyString].

(** A host whose route query fails. *)
Definition host_route_query_fails : Fake.t :=
  Fake.mk ["0.0.0.0"; "172.16.0.0"] true (Fake.ok ip_addr_output)
    (Fake.ok ("192.168.1.1" ++ Py.nl)) false [].

(** A host with a user who types the index 12 when asked. *)
Definition host_with_typist : Fake.t :=
  Fake.mk ["0.0.0.0"] true (Fake.ok ip_addr_output)
    (Fake.ok ("192.168.1.1" ++ Py.nl)) true ["12"].

(** [--cidr 172.16.0.0/12 --gateway 192.168.1.1 --interface-index 7]. *)
Definition explicit_args (dry status : bool) : ConfigureWslNetwork.Namespace :=
  ConfigureWslNetwork.mkArgs (Some "172.16.0.0/12") (Some "192.168.1.1") (Some 7)
    dry status.

End Scenario.

(* ===================================================================== *)
(** ** Shapes of a log *)
(* ===================================================================== *)

Module Shape.

Definition cidr_prompt : string :=
  "Enter the WSL instance IP address in CIDR format (e.g., 172.16.0.0/12): ".

Definition same_cmd (a b : list string) : bool :=
  if list_eq_dec string_dec a b then true else false.

(** Not a route delete or a route add. *)
Definition quiet (e : event) : bool := negb (is_mutation e).

(** What a status run may do: the guest query, the route query, the
    CIDR prompt, and printing. *)
Definition status_event (e : event) : bool :=
  match e with
  | EvRun cmd =>
      same_cmd cmd ConfigureWslNetwork.wsl_ip_cmd
      || same_cmd cmd ConfigureWslNetwork.route_print_cmd
  | EvPrint _ => true
  | EvInput prompt => String.eqb prompt cidr_prompt
  end.

(** What a run with every argument supplied may do: route commands and
    printing, no query and no prompt. *)
Definition batch_event (e : event) : bool :=
  match e with
  | EvRun _ => is_mutation e
  | EvPrint _ => true
  | EvInput _ => false
  end.

(** The route mutations of a log are nothing, one delete, or one delete
    followed by one add for the same subnet. *)
Definition delete_then_add (l : list event) : Prop :=
  filter is_mutation l = []
  \/ exists subnet,
      filter is_mutation l = [EvRun (ConfigureWslNetwork.delete_cmd subnet)]
      \/ exists mask gateway index,
          filter is_mutation l =
          [EvRun (ConfigureWslNetwork.delete_cmd subnet);
           EvRun (ConfigureWslNetwork.add_cmd subnet mask gateway index)].

(** What [m] adds to the log satisfies [Q]. *)
Definition grows {W : Type} (Q : list event -> Prop) {A : Type} (m : M W A) : Prop :=
  forall s, exists added, log (snd (m s)) = (log s ++ added)%list /\ Q added.

(** The value of a decimal numeral read from the left with an
    accumulator. *)
Fixpoint uint_value (acc : Z) (d : Decimal.uint) : Z :=
  match d with
  | Decimal.Nil => acc
  | Decimal.D0 d => uint_value (10 * acc) d
  | Decimal.D1 d => uint_value (10 * acc + 1) d
  | Decimal.D2 d => uint_value (10 * acc + 2) d
  | Decimal.D3 d => uint_value (10 * acc + 3) d
  | Decimal.D4 d => uint_value (10 * acc + 4) d
  | Decimal.D5 d => uint_value (10 * acc + 5) d
  | Decimal.D6 d => uint_value (10 * acc + 6) d
  | Decimal.D7 d => uint_value (10 * acc + 7) d
  | Decimal.D8 d => uint_value (10 * acc + 8) d
  | Decimal.D9 d => uint_value (10 * acc + 9) d
  end.

(** The dotted text of the standard mask of length [p] is read back by
    the library as that mask and that length. *)
Definition mask_text_ok (p : Z) : bool :=
  match Ipaddress.make_netmask
          (Ipaddress.MaskStr (Model.dotted_quad (Model.prefix_mask p))) with
  | Some (nm, q) => (nm =? Model.prefix_mask p) && (q =? p)
  | None => false
  end.

End Shape.

(* ===================================================================== *)
(** ** A host whose user interrupts *)
(* ===================================================================== *)

(** The test double with a user who presses Ctrl-C: the first
    [patience] commands are answered by the inner host, the next one
    raises [KeyboardInterrupt]. *)
Module Impatient.

Record t : Type := mk {
  inner : Fake.t;
  patience : nat
}.

Definition run (cmd : list string) (w : t) : result CompletedProcess * t :=
  match patience w with
  | O => (Raise KeyboardInterrupt, w)
  | S k => let (r, i) := Fake.run cmd (inner w) in (r, mk i k)
  end.

Definition read (prompt : string) (w : t) : result string * t :=
  let (r, i) := Fake.read prompt (inner w) in (r, mk i (patience w)).

#[global] Instance host : Host t := {
  host_run := run;
  host_input := read
}.

End Impatient.

(* ===================================================================== *)
(** ** A host without programs *)
(* ===================================================================== *)

(** A host on which no program can be started: every
    [subprocess.run] raises [FileNotFoundError]; the terminal works. *)
Module Broken.

Record t : Type := mk {
  typed : list string
}.

Definition run (cmd : list string) (w : t) : result CompletedProcess * t :=
  (Raise (Exception "FileNotFoundError"
            "[WinError 2] The system cannot find the file specified"), w).

Definition read (prompt : string) (w : t) : result string * t :=
  match typed w with
  | [] => (Raise (Exception "EOFError" "EOF when reading a line"), w)
  | line :: rest => (Return line, mk rest)
  end.

#[global] Instance host : Host t := {
  host_run := run;
  host_input := read
}.

End Broken.

(* ===================================================================== *)
(** * Properties *)
(* ===================================================================== *)

Import ConfigureWslNetwork.
Import Model.
Import Text.

Unset Implicit Arguments.

(** ** The builtins on examples *)

Example splitlines_ex :
  Py.splitlines ("a" ++ Py.nl ++ Py.nl ++ "b c" ++ Py.nl) = ["a"; ""; "b c"].
Proof. reflexivity. Qed.

Example split_ex : Py.split "  inet 172.22.1.5/20   brd x " = ["inet"; "172.22.1.5/20"; "brd"; "x"].
Proof. reflexivity. Qed.

Example strip_ex : Py.strip "  inet 1  " = "inet 1".
Proof. reflexivity. Qed.

Example str_ex : (Py.str 7, Py.str 0, Py.str (-12), Py.str 255) = ("7", "0", "-12", "255").
Proof. reflexivity. Qed.

Example int_ex : (Py.int " 12 ", Py.int "-0", Py.int "1_0", Py.int "", Py.int "1__0", Py.int "+7", Py.int "x")
  = (inr 12, inr 0, inr 10, inl Py.InvalidLiteral, inl Py.InvalidLiteral, inr 7,
     inl Py.InvalidLiteral).
Proof. reflexivity. Qed.

(** A unit separator is white space for [str.strip], not for [int];
    a no-break space is white space for both. *)
Example int_space_ex :
  (Py.strip (String (ascii_of_N 31) "12"), Py.int (String (ascii_of_N 31) "12"),
   Py.int (String (ascii_of_N 160) "12"))
  = ("12", inl Py.InvalidLiteral, inr 12).
Proof. reflexivity. Qed.

Example repr_ex :
  (Py.repr "12a", Py.repr "it's", Py.repr (String Py.LF "a\b"))
  = ("'12a'",
     String Py.double_quote ("it's" ++ String Py.double_quote EmptyString),
     "'\na\\b'").
Proof. reflexivity. Qed.

Example int_error_text_ex :
  Py.int_error_text "1 2" Py.InvalidLiteral
  = "invalid literal for int() with base 10: '1 2'".
Proof. reflexivity. Qed.

Example split_on_ex : (Py.split_on "/" "10.0.0.0/8", Py.split_on "/" "", Py.split_on "." "1..2")
  = (["10.0.0.0"; "8"], [""], ["1"; ""; "2"]).
Proof. reflexivity. Qed.

Example str_in_ex : (Py.str_in "inet" "   inet 1", Py.str_in "" "", Py.str_in "ab" "a b") = (true, true, false).
Proof. reflexivity. Qed.

Example IPv4Network_ex :
  Ipaddress.IPv4Network "172.16.5.37/12" false
  = inr (Ipaddress.mkNetwork 2886729728 4293918720 12).
Proof. reflexivity. Qed.

Example IPv4Network_masks_ex :
  (Ipaddress.IPv4Network "10.1.0.0/255.0.0.0" false,
   Ipaddress.IPv4Network "10.1.0.0/0.255.255.255" false,
   Ipaddress.IPv4Network "10.1.0.0/255.0.255.0" false,
   Ipaddress.IPv4Network "10.1.0.0/8" true)
  = (inr (Ipaddress.mkNetwork 167772160 4278190080 8),
     inr (Ipaddress.mkNetwork 167772160 4278190080 8),
     inl Ipaddress.NetmaskValueError,
     inl Ipaddress.ValueError).
Proof. reflexivity. Qed.

(** ** The script monad *)

Section MonadFacts.

Context {W : Type} {HW : Host W}.

Lemma bind_Return {A B} {m : M W A} (k : A -> M W B) {s a s'} :
  m s = (Return a, s') -> bind m k s = k a s'.
Proof. intros E. unfold bind. now rewrite E. Qed.

Lemma bind_Raise {A B} {m : M W A} (k : A -> M W B) {s e s'} :
  m s = (Raise e, s') -> bind m k s = (Raise e, s').
Proof. intros E. unfold bind. now rewrite E. Qed.

Lemma try_Return {A} {m : M W A} c h {s a s'} :
  m s = (Return a, s') -> try_except m c h s = (Return a, s').
Proof. intros E. unfold try_except. now rewrite E. Qed.

Lemma try_caught {A} {m : M W A} c h {s e s'} :
  m s = (Raise e, s') -> c e = true -> try_except m c h s = h e s'.
Proof. intros E C. unfold try_except. now rewrite E, C. Qed.

Lemma try_passed {A} {m : M W A} c h {s e s'} :
  m s = (Raise e, s') -> c e = false -> try_except m c h s = (Raise e, s').
Proof. intros E C. unfold try_except. now rewrite E, C. Qed.

Lemma try_bind {A B} {m : M W A} (k : A -> M W B) c h {s a s'} :
  m s = (Return a, s') ->
  try_except (bind m k) c h s = try_except (k a) c h s'.
Proof. intros E. unfold try_except, bind. now rewrite E. Qed.

Lemma run_eq {cmd} {s : state W} {r w} :
  host_run cmd (world s) = (r, w) ->
  subprocess_run cmd s = (r, mkState w (log s ++ [EvRun cmd])).
Proof. intros E. unfold subprocess_run. now rewrite E. Qed.

Lemma input_eq {prompt} {s : state W} {r w} :
  host_input prompt (world s) = (r, w) ->
  input prompt s = (r, mkState w (log s ++ [EvInput prompt])).
Proof. intros E. unfold input. now rewrite E. Qed.

Lemma print_eq text (s : state W) :
  print text s = (Return tt, mkState (world s) (log s ++ [EvPrint text])).
Proof. reflexivity. Qed.

End MonadFacts.

Lemma app_two {A} (l : list A) a b : ((l ++ [a]) ++ [b] = l ++ [a; b])%list.
Proof. now rewrite <- app_assoc. Qed.

Lemma Zeqb_neq_false {a b} : a <> b -> (a =? b) = false.
Proof. apply Z.eqb_neq. Qed.

(** ** Dry run *)

(** C1. Whatever the subnet, mask, gateway and adapter index, a
    reconciliation with [dryRun = true] returns normally, leaves the host
    untouched and adds to the log two printed lines only, no command:
    the preview of the delete command, then the preview of the add
    command.  On the scenario of the specification (CIDR 172.16.0.0/12,
    gateway 192.168.1.1, index 7) the whole run of [main] on any host
    prints [route delete 172.16.0.0] and
    [route add 172.16.0.0 MASK 255.240.0.0 192.168.1.1 IF 7]. *)
Theorem dry_run_previews_delete_then_add :
  forall (W : Type) (HW : Host W),
    (forall subnet mask gateway index (s : state W),
        reconcile subnet mask gateway index true s =
        (Return tt,
         mkState (world s)
           (log s ++
              [EvPrint ("[Dry Run] Command to delete route: route delete " ++ subnet);
               EvPrint ("[Dry Run] Command to add route: route add " ++ subnet
                          ++ " MASK " ++ mask ++ " " ++ gateway
                          ++ " IF " ++ Py.str index)])))
    /\ (forall w : W,
           reconcile "172.16.0.0" "255.240.0.0" "192.168.1.1" 7 true (start w) =
           (Return tt,
            mkState w
              [EvPrint "[Dry Run] Command to delete route: route delete 172.16.0.0";
               EvPrint "[Dry Run] Command to add route: route add 172.16.0.0 MASK 255.240.0.0 192.168.1.1 IF 7"])
           /\ main (mkArgs (Some "172.16.0.0/12") (Some "192.168.1.1") (Some 7) true false)
                (start w)
              = reconcile "172.16.0.0" "255.240.0.0" "192.168.1.1" 7 true (start w)).
Proof.
  intros W HW. split.
  - intros subnet mask gateway index s.
    unfold reconcile, delete_existing_route, add_static_route, bind, print, emit.
    cbn. rewrite app_two. reflexivity.
  - intros w. split; reflexivity.
Qed.

(** ** Reconciliation on a live host *)

Section Reconcile.

Context {W : Type} {HW : Host W}.

Lemma delete_live_failed {subnet} {s : state W} {cp w1} :
  host_run (delete_cmd subnet) (world s) = (Return cp, w1) ->
  returncode cp <> 0 ->
  delete_existing_route subnet false s =
  (Return tt,
   mkState w1
     (log s ++
        [EvRun (delete_cmd subnet);
         EvPrint ("No existing route found for " ++ subnet
                    ++ " or failed to delete:" ++ Py.nl ++ stderr cp)])).
Proof.
  intros E Hrc. unfold delete_existing_route.
  rewrite (bind_Return _ (run_eq E)).
  rewrite (Zeqb_neq_false Hrc). unfold print, emit. cbn [world log].
  now rewrite app_two.
Qed.

Lemma delete_live_done {subnet} {s : state W} {cp w1} :
  host_run (delete_cmd subnet) (world s) = (Return cp, w1) ->
  returncode cp = 0 ->
  delete_existing_route subnet false s =
  (Return tt,
   mkState w1
     (log s ++
        [EvRun (delete_cmd subnet);
         EvPrint ("Deleted existing route for " ++ subnet ++ ":" ++ Py.nl
                    ++ stdout cp)])).
Proof.
  intros E Hrc. unfold delete_existing_route.
  rewrite (bind_Return _ (run_eq E)).
  rewrite Hrc. unfold print, emit. cbn [world log Z.eqb].
  now rewrite app_two.
Qed.

Lemma delete_live_raised {subnet} {s : state W} {e w1} :
  host_run (delete_cmd subnet) (world s) = (Raise e, w1) ->
  delete_existing_route subnet false s =
  (Raise e, mkState w1 (log s ++ [EvRun (delete_cmd subnet)])).
Proof.
  intros E. unfold delete_existing_route.
  now rewrite (bind_Raise _ (run_eq E)).
Qed.

Lemma add_live {subnet mask gateway index} {s : state W} {cp w1} :
  host_run (add_cmd subnet mask gateway index) (world s) = (Return cp, w1) ->
  add_static_route subnet mask gateway index false s =
  (Return tt,
   mkState w1
     (log s ++
        [EvRun (add_cmd subnet mask gateway index);
         EvPrint (if returncode cp =? 0
                  then "Static route added successfully:" ++ Py.nl ++ stdout cp
                  else "Failed to add static route:" ++ Py.nl ++ stderr cp)])).
Proof.
  intros E. unfold add_static_route.
  rewrite (bind_Return _ (run_eq E)).
  destruct (returncode cp =? 0); unfold print, emit; cbn [world log];
    now rewrite app_two.
Qed.

End Reconcile.

(** C2, as stated, fails: on a host with no route for the subnet the
    delete command returns a non-zero code and the delete step prints a
    report, it is not silent. *)
Lemma absent_route_delete_prints_a_report :
  Fake.has "172.16.0.0" (Fake.routes Scenario.host_without_route) = false
  /\ log (snd (delete_existing_route "172.16.0.0" false
                 (start Scenario.host_without_route)))
     = [EvRun ["route"; "delete"; "172.16.0.0"];
        EvPrint ("No existing route found for 172.16.0.0 or failed to delete:"
                   ++ Py.nl ++ "The route deletion failed: Element not found.")]
  /\ printed (log (snd (delete_existing_route "172.16.0.0" false
                          (start Scenario.host_without_route)))) <> [].
Proof. repeat split. discriminate. Qed.

(** C2, amended. With [dryRun = false], when the delete command
    completes with a non-zero return code, for whatever reason (the code
    does not tell an absent route from another failure), one line
    starting with [No existing route found for <subnet> or failed to
    delete:] and carrying the command's error output is printed, nothing
    is raised, and reconciliation goes on with the add command, whose
    outcome is printed in turn. *)
Theorem delete_failure_is_reported_then_add_runs :
  forall (W : Type) (HW : Host W) subnet mask gateway index (s : state W)
         cp1 w1 cp2 w2,
    host_run (delete_cmd subnet) (world s) = (Return cp1, w1) ->
    returncode cp1 <> 0 ->
    host_run (add_cmd subnet mask gateway index) w1 = (Return cp2, w2) ->
    reconcile subnet mask gateway index false s =
    (Return tt,
     mkState w2
       (log s ++
          [EvRun (delete_cmd subnet);
           EvPrint ("No existing route found for " ++ subnet
                      ++ " or failed to delete:" ++ Py.nl ++ stderr cp1);
           EvRun (add_cmd subnet mask gateway index);
           EvPrint (if returncode cp2 =? 0
                    then "Static route added successfully:" ++ Py.nl ++ stdout cp2
                    else "Failed to add static route:" ++ Py.nl ++ stderr cp2)])).
Proof.
  intros W HW subnet mask gateway index s cp1 w1 cp2 w2 E1 Hrc E2.
  unfold reconcile.
  rewrite (bind_Return _ (delete_live_failed E1 Hrc)).
  rewrite (add_live (s := mkState w1 _) E2).
  cbn [world log]. rewrite <- app_assoc. reflexivity.
Qed.

Lemma delete_failure_is_reported_then_add_runs_witness :
  reconcile "172.16.0.0" "255.240.0.0" "192.168.1.1" 7 false
    (start Scenario.host_without_route)
  = (Return tt,
     mkState (Fake.with_routes Scenario.host_without_route
                ["0.0.0.0"; "127.0.0.0"; "172.16.0.0"])
       [EvRun ["route"; "delete"; "172.16.0.0"];
        EvPrint ("No existing route found for 172.16.0.0 or failed to delete:"
                   ++ Py.nl ++ "The route deletion failed: Element not found.");
        EvRun ["route"; "add"; "172.16.0.0"; "MASK"; "255.240.0.0"; "192.168.1.1"; "IF"; "7"];
        EvPrint ("Static route added successfully:" ++ Py.nl ++ " OK!")]).
Proof.
  apply (@delete_failure_is_reported_then_add_runs Fake.t Fake.host
           "172.16.0.0" "255.240.0.0" "192.168.1.1" 7
           (start Scenario.host_without_route)
           (mkCompleted 1 EmptyString "The route deletion failed: Element not found.")
           Scenario.host_without_route
           (mkCompleted 0 " OK!" EmptyString)
           (Fake.with_routes Scenario.host_without_route
              ["0.0.0.0"; "127.0.0.0"; "172.16.0.0"])).
  - reflexivity.
  - simpl. discriminate.
  - reflexivity.
Defined.

(** ** From [main] to the reconciliation *)

Section MainFlow.

Context {W : Type} {HW : Host W}.

Lemma main_unfold args :
  main args = try_except (main_body args) is_KeyboardInterrupt cancelled.
Proof. reflexivity. Qed.

Lemma parse_cidr_accepts {c net} (s : state W) :
  Ipaddress.IPv4Network c false = inr net ->
  parse_cidr c s =
  (Return (Ipaddress.string_from_ip_int (Ipaddress.network_address net),
           Ipaddress.string_from_ip_int (Ipaddress.netmask net)), s).
Proof. intros E. unfold parse_cidr. now rewrite E. Qed.

Lemma parse_cidr_rejects {c e} (s : state W) :
  Ipaddress.IPv4Network c false = inl e ->
  parse_cidr c s =
  (Raise (SystemExit 1),
   mkState (world s) (log s ++ [EvPrint ("Invalid CIDR format: " ++ c)])).
Proof. intros E. unfold parse_cidr. now rewrite E. Qed.

(** Once the CIDR, the index and the gateway are resolved, what is left
    of [main] is the reconciliation. *)
Lemma main_reaches_reconcile {args} {s0 s1 s2 s3 : state W} {c net index gw} :
  status args = false ->
  resolve_cidr args s0 = (Return c, s1) ->
  Ipaddress.IPv4Network c false = inr net ->
  resolve_interface_index args s1 = (Return index, s2) ->
  resolve_gateway args index s2 = (Return gw, s3) ->
  main args s0 =
  try_except
    (reconcile (Ipaddress.string_from_ip_int (Ipaddress.network_address net))
       (Ipaddress.string_from_ip_int (Ipaddress.netmask net)) gw index (dry_run args))
    is_KeyboardInterrupt cancelled s3.
Proof.
  intros Hst Hc Hnet Hi Hg. rewrite main_unfold. unfold main_body.
  rewrite (try_bind _ _ _ Hc).
  rewrite (try_bind _ _ _ (parse_cidr_accepts s1 Hnet)).
  rewrite Hst.
  rewrite (try_bind _ _ _ Hi).
  rewrite (try_bind _ _ _ Hg).
  reflexivity.
Qed.

End MainFlow.

(** C3. A live run ([dryRun = false]) in which the delete command
    succeeds and the add command then completes with a non-zero return
    code prints the failure ([Failed to add static route:] with the
    command's error output) and stops there: [main] returns, the log ends
    with that line, the only commands run after the resolution of the
    arguments are the delete and the add, once each, and the host is left
    as the failed add left it.  No route is added again and the add is
    not tried again. *)
Theorem add_failure_is_reported_without_rollback :
  forall (W : Type) (HW : Host W) args (s0 s1 s2 s : state W) c net index gw
         cp1 w1 cp2 w2,
    dry_run args = false ->
    status args = false ->
    resolve_cidr args s0 = (Return c, s1) ->
    Ipaddress.IPv4Network c false = inr net ->
    resolve_interface_index args s1 = (Return index, s2) ->
    resolve_gateway args index s2 = (Return gw, s) ->
    let subnet := Ipaddress.string_from_ip_int (Ipaddress.network_address net) in
    let mask := Ipaddress.string_from_ip_int (Ipaddress.netmask net) in
    host_run (delete_cmd subnet) (world s) = (Return cp1, w1) ->
    returncode cp1 = 0 ->
    host_run (add_cmd subnet mask gw index) w1 = (Return cp2, w2) ->
    returncode cp2 <> 0 ->
    main args s0 =
    (Return tt,
     mkState w2
       (log s ++
          [EvRun (delete_cmd subnet);
           EvPrint ("Deleted existing route for " ++ subnet ++ ":" ++ Py.nl
                      ++ stdout cp1);
           EvRun (add_cmd subnet mask gw index);
           EvPrint ("Failed to add static route:" ++ Py.nl ++ stderr cp2)])).
Proof.
  intros W HW args s0 s1 s2 s c net index gw cp1 w1 cp2 w2
         Hdry Hst Hc Hnet Hi Hg subnet mask E1 Hrc1 E2 Hrc2.
  rewrite (main_reaches_reconcile Hst Hc Hnet Hi Hg).
  apply try_Return. rewrite Hdry. fold subnet mask. unfold reconcile.
  rewrite (bind_Return _ (delete_live_done E1 Hrc1)).
  rewrite (add_live (s := mkState w1 _) E2).
  rewrite (Zeqb_neq_false Hrc2). cbn [world log].
  rewrite <- app_assoc. reflexivity.
Qed.

Lemma add_failure_is_reported_without_rollback_witness :
  main (Scenario.explicit_args false false) (start Scenario.host_refusing_add)
  = (Return tt,
     mkState (Fake.with_routes Scenario.host_refusing_add ["0.0.0.0"])
       [EvRun ["route"; "delete"; "172.16.0.0"];
        EvPrint ("Deleted existing route for 172.16.0.0:" ++ Py.nl ++ " OK!");
        EvRun ["route"; "add"; "172.16.0.0"; "MASK"; "255.240.0.0"; "192.168.1.1"; "IF"; "7"];
        EvPrint ("Failed to add static route:" ++ Py.nl
                   ++ "The route addition failed: The parameter is incorrect.")]).
Proof.
  apply (@add_failure_is_reported_without_rollback Fake.t Fake.host
           (Scenario.explicit_args false false)
           (start Scenario.host_refusing_add) (start Scenario.host_refusing_add)
           (start Scenario.host_refusing_add) (start Scenario.host_refusing_add)
           "172.16.0.0/12" (Ipaddress.mkNetwork 2886729728 4293918720 12)
           7 "192.168.1.1"
           (mkCompleted 0 " OK!" EmptyString)
           (Fake.with_routes Scenario.host_refusing_add ["0.0.0.0"])
           (mkCompleted 1 EmptyString "The route addition failed: The parameter is incorrect.")
           (Fake.with_routes Scenario.host_refusing_add ["0.0.0.0"]));
    try reflexivity.
  simpl. discriminate.
Defined.

(** ** Substring test *)

Lemma prefix_iff sub s :
  String.prefix sub s = true <-> exists post, s = sub ++ post.
Proof.
  revert s. induction sub as [|a sub IH]; intros s.
  - split; [intros _; now exists s | intros _; now destruct s].
  - destruct s as [|b s]; simpl.
    + split; [discriminate | intros [post E]; discriminate].
    + destruct (ascii_dec a b) as [->|Hab].
      * rewrite IH. split; intros [post E]; exists post.
        -- now rewrite E.
        -- now injection E.
      * split; [discriminate | intros [post E]; injection E; intros; congruence].
Qed.

Lemma str_in_iff sub s :
  Py.str_in sub s = true <-> Model.substring sub s.
Proof.
  unfold Model.substring. induction s as [|c s IH]; cbn [Py.str_in].
  - rewrite orb_false_r, prefix_iff. split.
    + intros [post E]. now exists EmptyString, post.
    + intros [pre [post E]]. destruct pre; [now exists post | discriminate].
  - rewrite orb_true_iff, prefix_iff, IH. split.
    + intros [[post E] | [pre [post E]]].
      * now exists EmptyString, post.
      * exists (String c pre), post. simpl. now rewrite E.
    + intros [pre [post E]]. destruct pre as [|a pre]; simpl in E.
      * left. now exists post.
      * right. injection E as _ E. now exists pre, post.
Qed.

Lemma str_in_false_iff sub s :
  Py.str_in sub s = false <-> ~ Model.substring sub s.
Proof.
  rewrite <- str_in_iff. destruct (Py.str_in sub s); split; congruence.
Qed.

(** ** Route state inspection *)

Section Inspector.

Context {W : Type} {HW : Host W}.

Lemma scan_routes_eq subnet lines (s : state W) :
  scan_routes subnet lines s =
  match find (Py.str_in subnet) lines with
  | Some line =>
      (Return true,
       mkState (world s)
         (log s ++ [EvPrint ("Route exists for " ++ subnet ++ ":");
                    EvPrint (Py.strip line)]))
  | None =>
      (Return false,
       mkState (world s) (log s ++ [EvPrint ("No route found for " ++ subnet ++ ".")]))
  end.
Proof.
  induction lines as [|line rest IH]; simpl.
  - reflexivity.
  - destruct (Py.str_in subnet line).
    + unfold bind, print, emit, ret. cbn [world log]. now rewrite app_two.
    + apply IH.
Qed.

Lemma check_route_status_ok subnet {s : state W} {cp w1} :
  host_run route_print_cmd (world s) = (Return cp, w1) ->
  returncode cp = 0 ->
  check_route_status subnet s =
  scan_routes subnet (Py.splitlines (stdout cp))
    (mkState w1 (log s ++ [EvRun route_print_cmd])).
Proof.
  intros E Hrc. unfold check_route_status.
  rewrite (bind_Return _ (run_eq E)). now rewrite Hrc.
Qed.

Lemma check_route_status_failed subnet {s : state W} {cp w1} :
  host_run route_print_cmd (world s) = (Return cp, w1) ->
  returncode cp <> 0 ->
  check_route_status subnet s =
  (Return false,
   mkState w1
     (log s ++ [EvRun route_print_cmd;
                EvPrint "Failed to retrieve route information."])).
Proof.
  intros E Hrc. unfold check_route_status.
  rewrite (bind_Return _ (run_eq E)). rewrite (Zeqb_neq_false Hrc).
  unfold bind, print, emit, ret. cbn [world log negb]. now rewrite app_two.
Qed.

Lemma find_substring subnet lines :
  (exists line, In line lines /\ Model.substring subnet line) <->
  exists found, find (Py.str_in subnet) lines = Some found.
Proof.
  split.
  - intros [line [Hin Hsub]].
    destruct (find (Py.str_in subnet) lines) as [found|] eqn:F.
    + now exists found.
    + apply str_in_iff in Hsub.
      now rewrite (find_none _ _ F line Hin) in Hsub.
  - intros [found F]. apply find_some in F as [Hin Hsub].
    exists found. split; [assumption | now apply str_in_iff].
Qed.

Lemma check_route_status_true_iff subnet {s : state W} {cp w1} :
  host_run route_print_cmd (world s) = (Return cp, w1) ->
  returncode cp = 0 ->
  fst (check_route_status subnet s) = Return true <->
  exists line, In line (Py.splitlines (stdout cp)) /\ Model.substring subnet line.
Proof.
  intros E Hrc. rewrite (check_route_status_ok subnet E Hrc), scan_routes_eq.
  rewrite find_substring.
  destruct (find (Py.str_in subnet) (Py.splitlines (stdout cp))) as [found|];
    simpl; split.
  - intros _. now exists found.
  - reflexivity.
  - discriminate.
  - intros [found F]. discriminate.
Qed.

End Inspector.

(** C10. When the route query itself fails (the [route print] command
    completes with a non-zero return code) the check returns [False],
    after printing that the query failed; a successful query in which no
    line contains the subnet returns [False] too, so the two cases give
    the same boolean. *)
Theorem route_query_failure_reads_as_absence :
  forall (W : Type) (HW : Host W) subnet (s : state W) cp w1,
    host_run route_print_cmd (world s) = (Return cp, w1) ->
    returncode cp <> 0 ->
    check_route_status subnet s =
    (Return false,
     mkState w1
       (log s ++ [EvRun route_print_cmd;
                  EvPrint "Failed to retrieve route information."]))
    /\ forall (s' : state W) cp' w',
        host_run route_print_cmd (world s') = (Return cp', w') ->
        returncode cp' = 0 ->
        (forall line, In line (Py.splitlines (stdout cp')) ->
                      ~ Model.substring subnet line) ->
        fst (check_route_status subnet s') = fst (check_route_status subnet s).
Proof.
  intros W HW subnet s cp w1 E Hrc. split.
  - exact (check_route_status_failed subnet E Hrc).
  - intros s' cp' w' E' Hrc' Habsent.
    rewrite (check_route_status_failed subnet E Hrc).
    rewrite (check_route_status_ok subnet E' Hrc'), scan_routes_eq.
    destruct (find (Py.str_in subnet) (Py.splitlines (stdout cp'))) as [found|] eqn:F.
    + apply find_some in F as [Hin Hsub]. apply str_in_iff in Hsub.
      now destruct (Habsent found Hin).
    + reflexivity.
Qed.

Lemma route_query_failure_reads_as_absence_witness :
  check_route_status "172.16.0.0" (start Scenario.host_route_query_fails)
  = (Return false,
     mkState Scenario.host_route_query_fails
       [EvRun ["route"; "print"];
        EvPrint "Failed to retrieve route information."])
  /\ fst (check_route_status "172.16.0.0" (start Scenario.host_without_route))
     = fst (check_route_status "172.16.0.0" (start Scenario.host_route_query_fails)).
Proof.
  destruct (@route_query_failure_reads_as_absence Fake.t Fake.host "172.16.0.0"
              (start Scenario.host_route_query_fails)
              (mkCompleted 1 EmptyString "route: query failed")
              Scenario.host_route_query_fails) as [Hfail Hsame].
  - reflexivity.
  - simpl. discriminate.
  - split.
    + exact Hfail.
    + apply (Hsame (start Scenario.host_without_route)
               (mkCompleted 0 ("0.0.0.0" ++ Py.nl ++ "127.0.0.0") EmptyString)
               Scenario.host_without_route).
      * reflexivity.
      * reflexivity.
      * intros line Hin. apply str_in_false_iff.
        simpl in Hin. destruct Hin as [<-|[<-|[]]]; reflexivity.
Defined.

(** ** What a piece of script adds to the log *)

Section LogGrowth.

Context {W : Type} {HW : Host W}.

Variable P : event -> bool.

Lemma adds_ret {A} (a : A) : adds_only (W := W) P (ret a).
Proof. intros s. exists []. simpl. now rewrite app_nil_r. Qed.

Lemma adds_raise {A} e : adds_only (W := W) P (@raise W A e).
Proof. intros s. exists []. simpl. now rewrite app_nil_r. Qed.

Lemma adds_print text : P (EvPrint text) = true -> adds_only (W := W) P (print text).
Proof. intros H s. exists [EvPrint text]. simpl. now rewrite H. Qed.

Lemma adds_run cmd : P (EvRun cmd) = true -> adds_only (W := W) P (subprocess_run cmd).
Proof.
  intros H s. exists [EvRun cmd]. unfold subprocess_run.
  destruct (host_run cmd (world s)). simpl. now rewrite H.
Qed.

Lemma adds_input prompt : P (EvInput prompt) = true -> adds_only (W := W) P (input prompt).
Proof.
  intros H s. exists [EvInput prompt]. unfold input.
  destruct (host_input prompt (world s)). simpl. now rewrite H.
Qed.

Lemma adds_bind {A B} (m : M W A) (k : A -> M W B) :
  adds_only (W := W) P m -> (forall a, adds_only (W := W) P (k a)) -> adds_only (W := W) P (bind m k).
Proof.
  intros Hm Hk s. destruct (Hm s) as [l1 [E1 F1]]. unfold bind.
  destruct (m s) as [[a|e] s1]; simpl in E1.
  - destruct (Hk a s1) as [l2 [E2 F2]]. exists (l1 ++ l2)%list.
    rewrite E2, E1, app_assoc, forallb_app, F1, F2. now split.
  - exists l1. now split.
Qed.

Lemma adds_try {A} (m : M W A) c h :
  adds_only (W := W) P m -> (forall e, adds_only (W := W) P (h e)) -> adds_only (W := W) P (try_except m c h).
Proof.
  intros Hm Hh s. destruct (Hm s) as [l1 [E1 F1]]. unfold try_except.
  destruct (m s) as [[a|e] s1]; simpl in E1.
  - exists l1. now split.
  - destruct (c e).
    + destruct (Hh e s1) as [l2 [E2 F2]]. exists (l1 ++ l2)%list.
      rewrite E2, E1, app_assoc, forallb_app, F1, F2. now split.
    + exists l1. now split.
Qed.

Lemma adds_unless_str x (fallback : M W string) :
  adds_only (W := W) P fallback -> adds_only (W := W) P (unless_str x fallback).
Proof.
  intros H. unfold unless_str. destruct x as [t|]; [|assumption].
  destruct (Py.truthy_str t); [apply adds_ret | assumption].
Qed.

Hypothesis P_print : forall text, P (EvPrint text) = true.
Hypothesis P_input : forall prompt, P (EvInput prompt) = true.
Hypothesis P_wsl : P (EvRun wsl_ip_cmd) = true.

Lemma adds_scan_inet lines : adds_only (W := W) P (scan_inet lines).
Proof.
  induction lines as [|line rest IH]; cbn [scan_inet].
  - apply adds_bind; [apply adds_print, P_print | intros; apply adds_ret].
  - destruct (Py.str_in "inet" line); [|assumption].
    destruct (nth_error (Py.split (Py.strip line)) 1);
      [apply adds_ret | apply adds_raise].
Qed.

Lemma adds_get_wsl_ip_cidr : adds_only (W := W) P get_wsl_ip_cidr.
Proof.
  unfold get_wsl_ip_cidr. apply adds_try.
  - apply adds_bind; [apply adds_run, P_wsl|]. intros cp.
    destruct (negb (returncode cp =? 0)).
    + apply adds_bind; [apply adds_print, P_print | intros; apply adds_ret].
    + apply adds_scan_inet.
  - intros [| |cls msg]; try apply adds_raise.
    apply adds_bind; [apply adds_print, P_print | intros; apply adds_ret].
Qed.

Lemma adds_resolve_cidr args : adds_only (W := W) P (resolve_cidr args).
Proof.
  unfold resolve_cidr. apply adds_unless_str.
  apply adds_bind; [apply adds_get_wsl_ip_cidr|]. intros found.
  apply adds_unless_str, adds_input, P_input.
Qed.

End LogGrowth.

Lemma resolve_cidr_harmless {W} {HW : Host W} args {s0 s1 : state W} {r} :
  resolve_cidr args s0 = (r, s1) ->
  exists added, log s1 = (log s0 ++ added)%list /\ forallb harmless added = true.
Proof.
  intros E.
  destruct (@adds_resolve_cidr W HW harmless) with (args := args) (s := s0)
    as [added [Hlog Hall]]; try reflexivity.
  rewrite E in Hlog. now exists added.
Qed.

(** C7. After a successful route query, the check returns [True] exactly
    when some line of the query's output contains the subnet string;
    nothing else of the line is read.  A run of [main] with [--status],
    once the CIDR is resolved and parsed, on a route table with such a
    line returns after printing that the route exists together with a
    line that contains the subnet: the only command it runs is the route
    query, and nothing that the whole run adds to the log is the adapter
    enumeration, a route delete or a route add. *)
Theorem route_check_is_a_substring_match :
  forall (W : Type) (HW : Host W) (s : state W) cp w1,
    host_run route_print_cmd (world s) = (Return cp, w1) ->
    returncode cp = 0 ->
    (forall subnet,
        fst (check_route_status subnet s) = Return true <->
        exists line, In line (Py.splitlines (stdout cp))
                     /\ Model.substring subnet line)
    /\ (forall args (s0 : state W) c net,
           status args = true ->
           resolve_cidr args s0 = (Return c, s) ->
           Ipaddress.IPv4Network c false = inr net ->
           let subnet := Ipaddress.string_from_ip_int (Ipaddress.network_address net) in
           (exists line, In line (Py.splitlines (stdout cp))
                         /\ Model.substring subnet line) ->
           exists found added,
             In found (Py.splitlines (stdout cp))
             /\ Model.substring subnet found
             /\ main args s0 =
                (Return tt,
                 mkState w1
                   (log s ++ [EvRun route_print_cmd;
                              EvPrint ("Route exists for " ++ subnet ++ ":");
                              EvPrint (Py.strip found)]))
             /\ log (snd (main args s0)) = (log s0 ++ added)%list
             /\ forallb harmless added = true).
Proof.
  intros W HW s cp w1 E Hrc. split.
  - intros subnet. exact (check_route_status_true_iff subnet E Hrc).
  - intros args s0 c net Hst Hc Hnet subnet Hline.
    apply find_substring in Hline as [found F].
    destruct (resolve_cidr_harmless args Hc) as [l [Hlog Hall]].
    assert (Hmain : main args s0 =
                    (Return tt,
                     mkState w1
                       (log s ++ [EvRun route_print_cmd;
                                  EvPrint ("Route exists for " ++ subnet ++ ":");
                                  EvPrint (Py.strip found)]))).
    { rewrite main_unfold. unfold main_body.
      rewrite (try_bind _ _ _ Hc).
      rewrite (try_bind _ _ _ (parse_cidr_accepts s Hnet)).
      rewrite Hst. fold subnet. apply try_Return.
      rewrite (bind_Return _ (a := true)
                 (s' := mkState w1 (log s ++ [EvRun route_print_cmd;
                                  EvPrint ("Route exists for " ++ subnet ++ ":");
                                  EvPrint (Py.strip found)]))).
      - reflexivity.
      - rewrite (check_route_status_ok subnet E Hrc), scan_routes_eq, F.
        cbn [world log]. now rewrite <- app_assoc. }
    exists found,
      (l ++ [EvRun route_print_cmd;
             EvPrint ("Route exists for " ++ subnet ++ ":");
             EvPrint (Py.strip found)])%list.
    apply find_some in F as [Hin Hsub]. apply str_in_iff in Hsub.
    repeat split; try assumption.
    + rewrite Hmain. cbn [snd log]. now rewrite Hlog, app_assoc.
    + rewrite forallb_app, Hall. reflexivity.
Qed.

Lemma route_check_is_a_substring_match_witness :
  (fst (check_route_status "172.16.0.0" (start Scenario.host_refusing_add))
   = Return true)
  /\ exists found added,
      In found ["0.0.0.0"; "172.16.0.0"]
      /\ Model.substring "172.16.0.0" found
      /\ main (Scenario.explicit_args false true) (start Scenario.host_refusing_add)
         = (Return tt,
            mkState Scenario.host_refusing_add
              [EvRun ["route"; "print"];
               EvPrint "Route exists for 172.16.0.0:";
               EvPrint (Py.strip found)])
      /\ log (snd (main (Scenario.explicit_args false true)
                     (start Scenario.host_refusing_add)))
         = added
      /\ forallb harmless added = true.
Proof.
  destruct (@route_check_is_a_substring_match Fake.t Fake.host
              (start Scenario.host_refusing_add)
              (mkCompleted 0 ("0.0.0.0" ++ Py.nl ++ "172.16.0.0") EmptyString)
              Scenario.host_refusing_add eq_refl eq_refl) as [Hiff Hstatus].
  assert (Hline : exists line, In line ["0.0.0.0"; "172.16.0.0"]
                               /\ Model.substring "172.16.0.0" line).
  { exists "172.16.0.0". split.
    - simpl. right. now left.
    - now exists EmptyString, EmptyString. }
  split.
  - apply Hiff. exact Hline.
  - exact (Hstatus (Scenario.explicit_args false true)
             (start Scenario.host_refusing_add) "172.16.0.0/12"
             (Ipaddress.mkNetwork 2886729728 4293918720 12)
             eq_refl eq_refl eq_refl Hline).
Defined.

(** ** CIDR parsing *)

Example not_a_cidr_is_rejected :
  Ipaddress.IPv4Network "not-a-cidr" false = inl Ipaddress.AddressValueError.
Proof. reflexivity. Qed.

Example prefix_33_is_rejected :
  Ipaddress.IPv4Network "10.0.0.0/33" false = inl Ipaddress.NetmaskValueError.
Proof. reflexivity. Qed.

Lemma valid_cidr_has_slash s : Model.valid_cidr s -> Py.str_in "/" s = true.
Proof.
  intros (a & b & c & d & p & _ & _ & _ & _ & _ & ->).
  apply str_in_iff. exists (Model.dotted a b c d), (Py.str p). reflexivity.
Qed.

(** C5, as stated, fails: the bare address [10.0.0.0] is not an
    [address/prefix] string, yet it is accepted (as a /32 network) and
    the run goes on to delete and add a route. *)
Lemma bare_address_is_accepted :
  ~ Model.valid_cidr "10.0.0.0"
  /\ fst (main (mkArgs (Some "10.0.0.0") (Some "192.168.1.1") (Some 7) false false)
            (start Scenario.host_without_route)) = Return tt
  /\ runs (log (snd (main (mkArgs (Some "10.0.0.0") (Some "192.168.1.1") (Some 7)
                             false false)
                       (start Scenario.host_without_route))))
     = [["route"; "delete"; "10.0.0.0"];
        ["route"; "add"; "10.0.0.0"; "MASK"; "255.255.255.255"; "192.168.1.1"; "IF"; "7"]].
Proof.
  split; [|split; reflexivity].
  intros H. apply valid_cidr_has_slash in H. discriminate.
Qed.

(** C5, amended. For every CIDR string that
    [ipaddress.IPv4Network(cidr, strict=False)] rejects (such as
    [not-a-cidr] and [10.0.0.0/33]), whether it came from the command
    line, the guest query or the prompt, the run prints
    [Invalid CIDR format: <cidr>] and ends with [SystemExit(1)], that is
    exit status 1; nothing it has added to the log is a route delete or a
    route add (nor the adapter enumeration). *)
Theorem rejected_cidr_aborts_before_mutation :
  forall (W : Type) (HW : Host W) args (s0 s1 : state W) c e,
    resolve_cidr args s0 = (Return c, s1) ->
    Ipaddress.IPv4Network c false = inl e ->
    main args s0 =
    (Raise (SystemExit 1),
     mkState (world s1) (log s1 ++ [EvPrint ("Invalid CIDR format: " ++ c)]))
    /\ exit_status (fst (main args s0)) = Some 1
    /\ exists added,
        log (snd (main args s0)) = (log s0 ++ added)%list
        /\ forallb harmless added = true.
Proof.
  intros W HW args s0 s1 c e Hc Hrej.
  assert (Hmain : main args s0 =
                  (Raise (SystemExit 1),
                   mkState (world s1)
                     (log s1 ++ [EvPrint ("Invalid CIDR format: " ++ c)]))).
  { rewrite main_unfold. unfold main_body.
    rewrite (try_bind _ _ _ Hc).
    apply try_passed; [|reflexivity].
    apply bind_Raise. exact (parse_cidr_rejects s1 Hrej). }
  destruct (resolve_cidr_harmless args Hc) as [l [Hlog Hall]].
  rewrite Hmain. repeat split.
  exists (l ++ [EvPrint ("Invalid CIDR format: " ++ c)])%list.
  cbn [snd log]. rewrite Hlog, app_assoc, forallb_app, Hall. now split.
Qed.

Lemma rejected_cidr_aborts_before_mutation_witness :
  main (mkArgs (Some "10.0.0.0/33") (Some "192.168.1.1") (Some 7) false false)
    (start Scenario.host_without_route)
  = (Raise (SystemExit 1),
     mkState Scenario.host_without_route
       [EvPrint "Invalid CIDR format: 10.0.0.0/33"]).
Proof.
  apply (@rejected_cidr_aborts_before_mutation Fake.t Fake.host
           (mkArgs (Some "10.0.0.0/33") (Some "192.168.1.1") (Some 7) false false)
           (start Scenario.host_without_route) (start Scenario.host_without_route)
           "10.0.0.0/33" Ipaddress.NetmaskValueError eq_refl eq_refl).
Defined.

(** ** Adapter selection *)

Section IndexPrompt.

Context {W : Type} {HW : Host W}.

(** Without a usable index, [main] prints a heading, lists the adapters,
    asks, and reads the answer with [int]. *)
Lemma resolve_interface_index_asks args (s : state W) cp w1 line w2 :
  interface_index args = None \/ interface_index args = Some 0 ->
  host_run adapters_cmd (world s) = (Return cp, w1) ->
  host_input index_prompt w1 = (Return line, w2) ->
  resolve_interface_index args s =
  (match Py.int line with
   | inr n => Return n
   | inl e => Raise (Exception "ValueError" (Py.int_error_text line e))
   end,
   mkState w2
     (log s ++
        [EvPrint "Available network adapters:"; EvRun adapters_cmd]
        ++ (if returncode cp =? 0
            then [EvPrint "Available Network Interfaces:"; EvPrint (stdout cp)]
            else [EvPrint ("Failed to retrieve network adapters:"
                             ++ Py.nl ++ stderr cp)])
        ++ [EvInput index_prompt])).
Proof.
  intros Hno Ecp Ein. unfold resolve_interface_index.
  assert (Hfb : forall fb : M W Z, unless_int (interface_index args) fb = fb).
  { intros fb. unfold unless_int. destruct Hno as [-> | ->]; reflexivity. }
  rewrite Hfb. unfold bind at 1. rewrite print_eq.
  unfold get_network_adapters. unfold bind at 1. unfold bind at 1.
  rewrite (run_eq (s := mkState (world s) _) Ecp). unfold input_int.
  destruct (returncode cp =? 0).
  - unfold bind at 1. rewrite print_eq. rewrite print_eq. cbn [world log].
    rewrite (bind_Return _ (input_eq (s := mkState w1 _) Ein)).
    cbn [world log]. repeat rewrite <- app_assoc.
    destruct (Py.int line); reflexivity.
  - rewrite print_eq. cbn [world log].
    rewrite (bind_Return _ (input_eq (s := mkState w1 _) Ein)).
    cbn [world log]. repeat rewrite <- app_assoc.
    destruct (Py.int line); reflexivity.
Qed.

End IndexPrompt.

Section Gateway.

Context {W : Type} {HW : Host W}.

Lemma resolve_gateway_supplied args index g (s : state W) :
  gateway args = Some g -> g <> EmptyString ->
  resolve_gateway args index s = (Return g, s).
Proof.
  intros E Hg. unfold resolve_gateway, unless_str. rewrite E.
  destruct g; [contradiction | reflexivity].
Qed.

Lemma resolve_gateway_asks args index (s s1 : state W) r w2 :
  gateway args = None \/ gateway args = Some EmptyString ->
  get_gateway_from_nic index s = (Return None, s1) ->
  host_input gateway_prompt (world s1) = (r, w2) ->
  resolve_gateway args index s =
  (r, mkState w2 (log s1 ++ [EvPrint gateway_notice; EvInput gateway_prompt])).
Proof.
  intros Hno Hnic Hin. unfold resolve_gateway.
  assert (Hfb : forall fb : M W string, unless_str (gateway args) fb = fb).
  { intros fb. unfold unless_str. destruct Hno as [-> | ->]; reflexivity. }
  rewrite Hfb, (bind_Return _ Hnic). cbn [unless_str].
  unfold bind at 1. rewrite print_eq.
  rewrite (input_eq (s := mkState (world s1) _) Hin). cbn [world log].
  rewrite app_two. now destruct r.
Qed.

End Gateway.

(** C6, as stated, fails: when the lookup finds no gateway and the user
    answers the prompt with an empty line, the run does not fail; it goes
    on to the route delete and the route add with an empty gateway. *)
Lemma empty_gateway_reaches_route_add :
  fst (main (mkArgs (Some "172.16.0.0/12") None (Some 7) false false)
         (start Scenario.host_without_gateway)) = Return tt
  /\ filter is_mutation
       (log (snd (main (mkArgs (Some "172.16.0.0/12") None (Some 7) false false)
                    (start Scenario.host_without_gateway))))
     = [EvRun ["route"; "delete"; "172.16.0.0"];
        EvRun ["route"; "add"; "172.16.0.0"; "MASK"; "255.240.0.0"; EmptyString;
               "IF"; "7"]]
  /\ filter is_input
       (log (snd (main (mkArgs (Some "172.16.0.0/12") None (Some 7) false false)
                    (start Scenario.host_without_gateway))))
     = [EvInput gateway_prompt].
Proof. repeat split. Qed.

(** ** White space and tokens *)

Lemma split_cons c s :
  Py.split (String c s) =
  if Py.isspace c then Py.split s
  else if head_space s then String c EmptyString :: Py.split s
       else match Py.split s with
            | t :: ts => String c t :: ts
            | [] => [String c EmptyString]
            end.
Proof. destruct s; reflexivity. Qed.

Lemma blank_split s : Model.blank s -> Py.split s = [].
Proof.
  unfold Model.blank. induction s as [|c s IH]; [reflexivity|].
  cbn [Py.all_chars]. intros H. apply andb_true_iff in H as [Hc Hs].
  rewrite split_cons, Hc. now apply IH.
Qed.

Lemma split_blank_app ws s : Model.blank ws -> Py.split (ws ++ s) = Py.split s.
Proof.
  unfold Model.blank. induction ws as [|c ws IH]; [reflexivity|].
  cbn [Py.all_chars]. intros H. apply andb_true_iff in H as [Hc Hs].
  change (String c ws ++ s) with (String c (ws ++ s)).
  rewrite split_cons, Hc. now apply IH.
Qed.

Lemma head_space_blank_app ws s :
  Model.blank ws -> ws <> EmptyString -> head_space (ws ++ s) = true.
Proof.
  unfold Model.blank. destruct ws as [|c ws]; [congruence|].
  cbn [Py.all_chars]. intros H _. now apply andb_true_iff in H as [Hc _].
Qed.

Lemma split_solid_app t rest :
  Model.solid t ->
  rest = EmptyString \/ head_space rest = true ->
  Py.split (t ++ rest) = t :: Py.split rest.
Proof.
  intros [Hne Hall] Hrest. induction t as [|c t IH]; [congruence|].
  cbn [Py.all_chars] in Hall. apply andb_true_iff in Hall as [Hc Ht].
  apply negb_true_iff in Hc.
  change (String c t ++ rest) with (String c (t ++ rest)).
  rewrite split_cons, Hc. destruct t as [|c' t].
  - change (EmptyString ++ rest) with rest.
    destruct Hrest as [-> | ->]; reflexivity.
  - rewrite IH; [|discriminate|assumption].
    cbn [Py.all_chars] in Ht. apply andb_true_iff in Ht as [Hc' _].
    apply negb_true_iff in Hc'.
    change (head_space (String c' t ++ rest)) with (Py.isspace c').
    now rewrite Hc'.
Qed.

Lemma split_lstrip s : Py.split (Py.lstrip s) = Py.split s.
Proof.
  induction s as [|c s IH]; [reflexivity|].
  cbn [Py.lstrip]. rewrite (split_cons c s).
  destruct (Py.isspace c) eqn:Hc; [exact IH|].
  now rewrite split_cons, Hc.
Qed.

Lemma rstrip_nil_blank s : Py.rstrip s = EmptyString -> Model.blank s.
Proof.
  unfold Model.blank. induction s as [|c s IH]; [reflexivity|].
  cbn [Py.rstrip Py.all_chars].
  destruct (Py.rstrip s); [|discriminate].
  destruct (Py.isspace c); [|discriminate].
  intros _. now rewrite IH.
Qed.

Lemma head_space_rstrip s :
  Py.rstrip s <> EmptyString -> head_space (Py.rstrip s) = head_space s.
Proof.
  destruct s as [|c s]; [reflexivity|]. cbn [Py.rstrip].
  destruct (Py.rstrip s); [|reflexivity].
  destruct (Py.isspace c); [congruence | reflexivity].
Qed.

Lemma split_rstrip s : Py.split (Py.rstrip s) = Py.split s.
Proof.
  induction s as [|c s IH]; [reflexivity|].
  cbn [Py.rstrip]. rewrite (split_cons c s).
  destruct (Py.rstrip s) as [|d r] eqn:R.
  - pose proof (rstrip_nil_blank s R) as Hb.
    rewrite (blank_split s Hb).
    destruct (Py.isspace c) eqn:Hc; [reflexivity|].
    rewrite split_cons, Hc. cbn [head_space Py.split].
    now destruct (head_space s).
  - assert (Hh : head_space (String d r) = head_space s).
    { rewrite <- R. apply head_space_rstrip. rewrite R. discriminate. }
    rewrite split_cons, IH, Hh. reflexivity.
Qed.

Lemma split_strip s : Py.split (Py.strip s) = Py.split s.
Proof. unfold Py.strip. now rewrite split_rstrip, split_lstrip. Qed.

(** The second token of the specification is the element of index 1 of
    [split]. *)
Lemma second_token_split line t1 :
  Model.second_token line t1 ->
  nth_error (Py.split (Py.strip line)) 1 = Some t1.
Proof.
  intros (ws0 & t0 & ws1 & rest & Hws0 & Ht0 & Hws1 & Hne1 & Ht1 & Hrest & ->).
  rewrite split_strip, (split_blank_app ws0 _ Hws0).
  rewrite (split_solid_app t0 _ Ht0);
    [|right; now apply head_space_blank_app].
  rewrite (split_blank_app ws1 _ Hws1).
  rewrite (split_solid_app t1 _ Ht1); [reflexivity|].
  destruct Hrest as [-> | (c & r & -> & Hc)]; [now left | now right].
Qed.

Lemma find_first {A} (p : A -> bool) before x after :
  (forall y, In y before -> p y = false) -> p x = true ->
  find p (before ++ x :: after) = Some x.
Proof.
  intros Hb Hx. induction before as [|y before IH]; simpl.
  - now rewrite Hx.
  - rewrite (Hb y (or_introl eq_refl)). apply IH.
    intros z Hz. apply Hb. now right.
Qed.

Lemma find_absent {A} (p : A -> bool) l :
  (forall y, In y l -> p y = false) -> find p l = None.
Proof.
  intros H. induction l as [|y l IH]; simpl; [reflexivity|].
  rewrite (H y (or_introl eq_refl)). apply IH. intros z Hz. apply H. now right.
Qed.

(** ** Guest interface query *)

Section GuestQuery.

Context {W : Type} {HW : Host W}.

Lemma scan_inet_eq lines (s : state W) :
  scan_inet lines s =
  match find (Py.str_in "inet") lines with
  | None =>
      (Return None,
       mkState (world s) (log s ++ [EvPrint "No IP address found for eth0."]))
  | Some line =>
      match nth_error (Py.split (Py.strip line)) 1 with
      | Some cidr => (Return (Some cidr), s)
      | None => (Raise (Exception "IndexError" "list index out of range"), s)
      end
  end.
Proof.
  induction lines as [|line rest IH]; cbn [scan_inet find].
  - reflexivity.
  - destruct (Py.str_in "inet" line); [|exact IH].
    now destruct (nth_error (Py.split (Py.strip line)) 1).
Qed.

Lemma scan_inet_same lines :
  WslGetIp.scan_inet (W := W) lines = scan_inet lines.
Proof.
  induction lines as [|line rest IH]; cbn [scan_inet WslGetIp.scan_inet].
  - reflexivity.
  - now rewrite IH.
Qed.

Lemma get_wsl_ip_cidr_same (s : state W) :
  WslGetIp.get_wsl_ip_cidr s = get_wsl_ip_cidr s.
Proof.
  unfold WslGetIp.get_wsl_ip_cidr, get_wsl_ip_cidr, try_except, bind,
    subprocess_run.
  change WslGetIp.wsl_ip_cmd with wsl_ip_cmd.
  destruct (host_run wsl_ip_cmd (world s)) as [[cp|e] w]; [|reflexivity].
  destruct (returncode cp =? 0); cbn [negb]; [|reflexivity].
  now rewrite scan_inet_same.
Qed.

Lemma get_wsl_ip_cidr_ok {s : state W} {cp w1} :
  host_run wsl_ip_cmd (world s) = (Return cp, w1) ->
  returncode cp = 0 ->
  get_wsl_ip_cidr s =
  try_except (scan_inet (Py.splitlines (stdout cp))) is_Exception
    (fun e =>
       match e with
       | Exception _ msg =>
           print ("Error retrieving WSL IP address in CIDR format: " ++ msg) ;;
           ret None
       | _ => raise e
       end)
    (mkState w1 (log s ++ [EvRun wsl_ip_cmd])).
Proof.
  intros E Hrc. unfold get_wsl_ip_cidr.
  rewrite (try_bind _ _ _ (run_eq E)). now rewrite Hrc.
Qed.

Lemma get_wsl_ip_cidr_found {s : state W} {cp w1} line t1 :
  host_run wsl_ip_cmd (world s) = (Return cp, w1) ->
  returncode cp = 0 ->
  find (Py.str_in "inet") (Py.splitlines (stdout cp)) = Some line ->
  nth_error (Py.split (Py.strip line)) 1 = Some t1 ->
  get_wsl_ip_cidr s = (Return (Some t1), mkState w1 (log s ++ [EvRun wsl_ip_cmd])).
Proof.
  intros E Hrc F N. rewrite (get_wsl_ip_cidr_ok E Hrc).
  apply try_Return. now rewrite scan_inet_eq, F, N.
Qed.

(** A first [inet] line with fewer than two tokens: the [IndexError] is
    caught and the query returns [None]. *)
Lemma get_wsl_ip_cidr_short_line {s : state W} {cp w1} line :
  host_run wsl_ip_cmd (world s) = (Return cp, w1) ->
  returncode cp = 0 ->
  find (Py.str_in "inet") (Py.splitlines (stdout cp)) = Some line ->
  nth_error (Py.split (Py.strip line)) 1 = None ->
  fst (get_wsl_ip_cidr s) = Return None.
Proof.
  intros E Hrc F N. rewrite (get_wsl_ip_cidr_ok E Hrc).
  unfold try_except. now rewrite scan_inet_eq, F, N.
Qed.

Lemma get_wsl_ip_cidr_no_line {s : state W} {cp w1} :
  host_run wsl_ip_cmd (world s) = (Return cp, w1) ->
  returncode cp = 0 ->
  find (Py.str_in "inet") (Py.splitlines (stdout cp)) = None ->
  fst (get_wsl_ip_cidr s) = Return None.
Proof.
  intros E Hrc F. rewrite (get_wsl_ip_cidr_ok E Hrc).
  unfold try_except. now rewrite scan_inet_eq, F.
Qed.

Lemma get_wsl_ip_cidr_failed {s : state W} {cp w1} :
  host_run wsl_ip_cmd (world s) = (Return cp, w1) ->
  returncode cp <> 0 ->
  fst (get_wsl_ip_cidr s) = Return None.
Proof.
  intros E Hrc. unfold get_wsl_ip_cidr.
  rewrite (try_bind _ _ _ (run_eq E)), (Zeqb_neq_false Hrc).
  reflexivity.
Qed.

Lemma get_wsl_ip_cidr_raised {s : state W} {cls msg w1} :
  host_run wsl_ip_cmd (world s) = (Raise (Exception cls msg), w1) ->
  fst (get_wsl_ip_cidr s) = Return None.
Proof.
  intros E. unfold get_wsl_ip_cidr.
  rewrite (try_caught _ _ (bind_Raise _ (run_eq E)) eq_refl).
  reflexivity.
Qed.

(** An interrupt during the call is not an [Exception]: it goes through. *)
Lemma get_wsl_ip_cidr_interrupted {s : state W} {w1} :
  host_run wsl_ip_cmd (world s) = (Raise KeyboardInterrupt, w1) ->
  fst (get_wsl_ip_cidr s) = Raise KeyboardInterrupt.
Proof.
  intros E. unfold get_wsl_ip_cidr.
  now rewrite (try_passed _ _ (bind_Raise _ (run_eq E)) eq_refl).
Qed.

End GuestQuery.

(** C8. For every output of the guest command [ip -4 addr show eth0]:
    when the command completes with return code 0 and [line] is the first
    line of its output that contains [inet], the query returns the second
    white-space separated token of [line]; it returns [None] when no line
    contains [inet], when the command completes with a non-zero return
    code, and when the call raises an [Exception].  The copy of the query
    in [wsl_get_ip.py] gives the same result in the same state. *)
Theorem guest_query_returns_second_token :
  forall (W : Type) (HW : Host W) (s : state W),
    (forall cp w1 before line after t1,
        host_run wsl_ip_cmd (world s) = (Return cp, w1) ->
        returncode cp = 0 ->
        Py.splitlines (stdout cp) = (before ++ line :: after)%list ->
        (forall l, In l before -> ~ Model.substring "inet" l) ->
        Model.substring "inet" line ->
        Model.second_token line t1 ->
        get_wsl_ip_cidr s =
        (Return (Some t1), mkState w1 (log s ++ [EvRun wsl_ip_cmd])))
    /\ (forall cp w1,
           host_run wsl_ip_cmd (world s) = (Return cp, w1) ->
           returncode cp = 0 ->
           (forall l, In l (Py.splitlines (stdout cp)) ->
                      ~ Model.substring "inet" l) ->
           fst (get_wsl_ip_cidr s) = Return None)
    /\ (forall cp w1,
           host_run wsl_ip_cmd (world s) = (Return cp, w1) ->
           returncode cp <> 0 ->
           fst (get_wsl_ip_cidr s) = Return None)
    /\ (forall cls msg w1,
           host_run wsl_ip_cmd (world s) = (Raise (Exception cls msg), w1) ->
           fst (get_wsl_ip_cidr s) = Return None)
    /\ WslGetIp.get_wsl_ip_cidr s = get_wsl_ip_cidr s.
Proof.
  intros W HW s. split; [|split; [|split; [|split]]].
  - intros cp w1 before line after t1 E Hrc Hlines Hbefore Hline Htok.
    apply (get_wsl_ip_cidr_found line t1 E Hrc).
    + rewrite Hlines. apply find_first.
      * intros y Hy. apply str_in_false_iff. now apply Hbefore.
      * now apply str_in_iff.
    + now apply second_token_split.
  - intros cp w1 E Hrc Hnone. apply (get_wsl_ip_cidr_no_line E Hrc).
    apply find_absent. intros y Hy. apply str_in_false_iff. now apply Hnone.
  - intros cp w1 E Hrc. exact (get_wsl_ip_cidr_failed E Hrc).
  - intros cls msg w1 E. exact (get_wsl_ip_cidr_raised E).
  - apply get_wsl_ip_cidr_same.
Qed.

Lemma guest_query_returns_second_token_witness :
  get_wsl_ip_cidr (start Scenario.host_without_route)
  = (Return (Some "172.22.1.5/20"),
     mkState Scenario.host_without_route [EvRun wsl_ip_cmd]).
Proof.
  apply (proj1 (@guest_query_returns_second_token Fake.t Fake.host
                  (start Scenario.host_without_route))
           (mkCompleted 0 Scenario.ip_addr_output EmptyString)
           Scenario.host_without_route
           ["2: eth0: <BROADCAST,MULTICAST,UP,LOWER_UP> mtu 1500 qdisc mq state UP group default qlen 1000"]
           "    inet 172.22.1.5/20 brd 172.22.15.255 scope global eth0"
           ["       valid_lft forever preferred_lft forever"]
           "172.22.1.5/20" eq_refl eq_refl eq_refl).
  - intros l [<- | []]. now apply str_in_false_iff.
  - now apply str_in_iff.
  - exists "    ", "inet", " ", " brd 172.22.15.255 scope global eth0".
    repeat split; try reflexivity; try discriminate.
    right. now exists " "%char, "brd 172.22.15.255 scope global eth0".
Defined.

(** ** Decimal text and separators *)

Lemma has_char_app c a b : has_char c (a ++ b) = has_char c a || has_char c b.
Proof.
  induction a as [|d a IH]; [reflexivity|].
  cbn [append has_char]. now rewrite IH, orb_assoc.
Qed.

Lemma str_in_char c s : Py.str_in (String c EmptyString) s = has_char c s.
Proof.
  induction s as [|d s IH]; [reflexivity|].
  cbn [Py.str_in has_char String.prefix]. rewrite IH. f_equal.
  destruct (ascii_dec c d) as [->|Hcd].
  - rewrite Ascii.eqb_refl. now destruct s.
  - symmetry. apply Ascii.eqb_neq. congruence.
Qed.

Lemma split_on_clean sep s :
  has_char sep s = false -> Py.split_on sep s = [s].
Proof.
  induction s as [|d s IH]; [reflexivity|].
  cbn [has_char Py.split_on]. intros H. apply orb_false_iff in H as [Hd Hs].
  now rewrite Hd, (IH Hs).
Qed.

Lemma split_on_app sep s1 s2 :
  has_char sep s1 = false ->
  Py.split_on sep (s1 ++ String sep s2) = s1 :: Py.split_on sep s2.
Proof.
  induction s1 as [|d s1 IH].
  - intros _. cbn [append Py.split_on]. now rewrite Ascii.eqb_refl.
  - cbn [has_char append Py.split_on]. intros H.
    apply orb_false_iff in H as [Hd Hs]. now rewrite Hd, (IH Hs).
Qed.

(** A test that holds on [0 .. n-1] by computation holds for every
    integer of that range. *)
Lemma checked_below (P : Z -> bool) (n : nat) :
  forallb P (map Z.of_nat (seq 0 n)) = true ->
  forall z, 0 <= z < Z.of_nat n -> P z = true.
Proof.
  intros H z Hz. rewrite forallb_forall in H. apply H.
  rewrite <- (Z2Nat.id z) by lia. apply in_map, in_seq. lia.
Qed.

Lemma octet_text n :
  Model.octet n ->
  Ipaddress.parse_octet (Py.str n) = Some n
  /\ has_char "." (Py.str n) = false /\ has_char "/" (Py.str n) = false.
Proof.
  intros Hn.
  assert (H : octet_text_ok n = true).
  { apply (checked_below octet_text_ok 256); [now vm_compute | unfold Model.octet in Hn; lia]. }
  unfold octet_text_ok in H.
  apply andb_true_iff in H as [H H3]. apply andb_true_iff in H as [H1 H2].
  apply negb_true_iff in H2, H3.
  destruct (Ipaddress.parse_octet (Py.str n)) as [m|]; [|discriminate].
  apply Z.eqb_eq in H1. now subst m.
Qed.

Lemma prefix_text p :
  0 <= p <= 32 ->
  Ipaddress.prefix_from_prefix_string (Py.str p) = Some p
  /\ has_char "/" (Py.str p) = false
  /\ Ipaddress.ip_int_from_prefix p = Model.prefix_mask p.
Proof.
  intros Hp.
  assert (H : prefix_text_ok p = true).
  { apply (checked_below prefix_text_ok 33); [now vm_compute | lia]. }
  unfold prefix_text_ok in H.
  apply andb_true_iff in H as [H H3]. apply andb_true_iff in H as [H1 H2].
  apply negb_true_iff in H2. apply Z.eqb_eq in H3.
  destruct (Ipaddress.prefix_from_prefix_string (Py.str p)) as [q|]; [|discriminate].
  apply Z.eqb_eq in H1. now subst q.
Qed.

(** ** Addresses, masks and their text *)

Lemma dotted_no_slash a b c d :
  Model.octet a -> Model.octet b -> Model.octet c -> Model.octet d ->
  has_char "/" (Model.dotted a b c d) = false.
Proof.
  intros Ha Hb Hc Hd. unfold Model.dotted.
  destruct (octet_text a Ha) as (_ & _ & Sa), (octet_text b Hb) as (_ & _ & Sb),
    (octet_text c Hc) as (_ & _ & Sc), (octet_text d Hd) as (_ & _ & Sd).
  repeat rewrite has_char_app. now rewrite Sa, Sb, Sc, Sd.
Qed.

Lemma dotted_octets a b c d :
  Model.octet a -> Model.octet b -> Model.octet c -> Model.octet d ->
  Py.split_on "." (Model.dotted a b c d) = [Py.str a; Py.str b; Py.str c; Py.str d].
Proof.
  intros Ha Hb Hc Hd. unfold Model.dotted.
  destruct (octet_text a Ha) as (_ & Da & _), (octet_text b Hb) as (_ & Db & _),
    (octet_text c Hc) as (_ & Dc & _), (octet_text d Hd) as (_ & Dd & _).
  change ("." ++ ?x) with (String "." x).
  rewrite (split_on_app "." _ _ Da).
  change ("." ++ ?x) with (String "." x).
  rewrite (split_on_app "." _ _ Db).
  change ("." ++ ?x) with (String "." x).
  rewrite (split_on_app "." _ _ Dc).
  now rewrite (split_on_clean "." _ Dd).
Qed.

Lemma dotted_truthy a b c d : Py.truthy_str (Model.dotted a b c d) = true.
Proof. unfold Model.dotted. now destruct (Py.str a). Qed.

Lemma IPv4Address_dotted a b c d :
  Model.octet a -> Model.octet b -> Model.octet c -> Model.octet d ->
  Ipaddress.IPv4Address (Model.dotted a b c d) = Some (Model.address_of a b c d).
Proof.
  intros Ha Hb Hc Hd. unfold Ipaddress.IPv4Address.
  change "/" with (String "/" EmptyString) at 1.
  rewrite str_in_char, (dotted_no_slash a b c d Ha Hb Hc Hd).
  unfold Ipaddress.ip_int_from_string.
  rewrite dotted_truthy, (dotted_octets a b c d Ha Hb Hc Hd).
  cbn [negb List.length Nat.eqb Ipaddress.map_octets].
  destruct (octet_text a Ha) as (-> & _), (octet_text b Hb) as (-> & _),
    (octet_text c Hc) as (-> & _), (octet_text d Hd) as (-> & _).
  cbn [option_map]. f_equal.
  unfold Ipaddress.int_from_bytes, Model.address_of. cbn [fold_left]. lia.
Qed.

Lemma address_of_range a b c d :
  Model.octet a -> Model.octet b -> Model.octet c -> Model.octet d ->
  0 <= Model.address_of a b c d < 2 ^ 32.
Proof. unfold Model.octet, Model.address_of. lia. Qed.

Lemma cidr_text_split a b c d p :
  Model.octet a -> Model.octet b -> Model.octet c -> Model.octet d ->
  0 <= p <= 32 ->
  Ipaddress.split_addr_prefix (Model.cidr_text a b c d p)
  = inr (Model.dotted a b c d, Ipaddress.MaskStr (Py.str p)).
Proof.
  intros Ha Hb Hc Hd Hp.
  unfold Ipaddress.split_addr_prefix, Ipaddress.split_optional_netmask,
    Model.cidr_text.
  change ("/" ++ ?x) with (String "/" x).
  rewrite (split_on_app "/" _ _ (dotted_no_slash a b c d Ha Hb Hc Hd)).
  destruct (prefix_text p Hp) as (_ & Sp & _).
  now rewrite (split_on_clean "/" _ Sp).
Qed.

(** Masking with the netmask of a prefix clears the host bits. *)
Lemma land_prefix_mask ip p :
  0 <= ip < 2 ^ 32 -> 0 <= p <= 32 ->
  Z.land ip (Model.prefix_mask p) = Model.network_base ip p.
Proof.
  intros Hip Hp. unfold Model.prefix_mask, Model.network_base.
  set (k := 32 - p).
  assert (Hk : 0 <= k <= 32) by (unfold k; lia).
  assert (Hmask : 2 ^ 32 - 2 ^ k = Z.shiftl (Z.ones p) k).
  { rewrite Z.shiftl_mul_pow2 by lia. rewrite Z.ones_equiv, <- Z.sub_1_r.
    rewrite Z.mul_sub_distr_r, <- Z.pow_add_r by lia.
    replace (p + k) with 32 by (unfold k; lia). lia. }
  assert (Hbase : ip - ip mod 2 ^ k = Z.shiftl (Z.shiftr ip k) k).
  { rewrite Z.shiftl_mul_pow2, Z.shiftr_div_pow2 by lia.
    pose proof (Z.div_mod ip (2 ^ k)) as D.
    assert (2 ^ k <> 0) by (apply Z.pow_nonzero; lia). specialize (D H). lia. }
  rewrite Hmask, Hbase. apply Z.bits_inj'. intros n Hn.
  rewrite Z.land_spec, !Z.shiftl_spec by assumption.
  destruct (Z.ltb_spec n k) as [Hlt | Hge].
  - rewrite !(Z.testbit_neg_r _ (n - k)) by lia. apply andb_false_r.
  - rewrite Z.shiftr_spec by lia. replace (n - k + k) with n by lia.
    destruct (Z.ltb_spec n 32) as [Hlow | Hhigh].
    + rewrite Z.ones_spec_low by (unfold k in *; lia). apply andb_true_r.
    + rewrite Z.ones_spec_high by (unfold k in *; lia). rewrite andb_false_r.
      symmetry. destruct (Z.eq_dec ip 0) as [-> | Hnz].
      * apply Z.bits_0.
      * apply Z.bits_above_log2; [lia|].
        assert (Z.log2 ip < 32) by (apply Z.log2_lt_pow2; lia). lia.
Qed.

Lemma network_base_range ip p :
  0 <= ip < 2 ^ 32 -> 0 <= p <= 32 -> 0 <= Model.network_base ip p < 2 ^ 32.
Proof.
  intros Hip Hp. unfold Model.network_base.
  assert (0 < 2 ^ (32 - p)) by (apply Z.pow_pos_nonneg; lia).
  pose proof (Z.mod_pos_bound ip (2 ^ (32 - p)) H).
  pose proof (Z.mod_le ip (2 ^ (32 - p))). lia.
Qed.

Lemma prefix_mask_range p : 0 <= p <= 32 -> 0 <= Model.prefix_mask p < 2 ^ 32.
Proof.
  intros Hp. unfold Model.prefix_mask.
  assert (0 < 2 ^ (32 - p)) by (apply Z.pow_pos_nonneg; lia).
  assert (2 ^ (32 - p) <= 2 ^ 32) by (apply Z.pow_le_mono_r; lia). lia.
Qed.

Lemma string_from_ip_int_dotted x :
  0 <= x < 2 ^ 32 -> Ipaddress.string_from_ip_int x = Model.dotted_quad x.
Proof.
  intros Hx. unfold Ipaddress.string_from_ip_int, Ipaddress.to_bytes4,
    Model.dotted_quad, Model.dotted, Py.join.
  change 255 with (Z.ones 8).
  rewrite !Z.land_ones, !Z.shiftr_div_pow2 by lia.
  change (2 ^ 8) with 256.
  rewrite (Z.mod_small (x / 2 ^ 24) 256).
  - reflexivity.
  - split; [apply Z.div_pos; lia | apply Z.div_lt_upper_bound; lia].
Qed.

(** C4. For every [address/prefix] string [a.b.c.d/p], with four decimal
    octets and a decimal prefix length from 0 to 32, [parse_cidr] returns,
    without printing or running anything, the dotted text of the network
    base address (the address with its [32 - p] host bits zeroed) and the
    dotted text of the mask with the [p] high bits set; the mask comes
    from the prefix length alone. *)
Theorem parse_cidr_normalizes_and_expands :
  forall (W : Type) (HW : Host W) a b c d p (s : state W),
    Model.octet a -> Model.octet b -> Model.octet c -> Model.octet d ->
    0 <= p <= 32 ->
    parse_cidr (Model.cidr_text a b c d p) s =
    (Return (Model.dotted_quad (Model.network_base (Model.address_of a b c d) p),
             Model.dotted_quad (Model.prefix_mask p)),
     s).
Proof.
  intros W HW a b c d p s Ha Hb Hc Hd Hp.
  pose proof (address_of_range a b c d Ha Hb Hc Hd) as Hip.
  destruct (prefix_text p Hp) as (Hpfx & _ & Hmask).
  assert (Hnet : Ipaddress.IPv4Network (Model.cidr_text a b c d p) false =
                 inr (Ipaddress.mkNetwork
                        (Model.network_base (Model.address_of a b c d) p)
                        (Model.prefix_mask p) p)).
  { unfold Ipaddress.IPv4Network.
    rewrite (cidr_text_split a b c d p Ha Hb Hc Hd Hp).
    rewrite (IPv4Address_dotted a b c d Ha Hb Hc Hd).
    unfold Ipaddress.make_netmask. rewrite Hpfx, Hmask.
    rewrite (land_prefix_mask _ p Hip Hp).
    destruct (Z.eqb_spec (Model.network_base (Model.address_of a b c d) p)
                (Model.address_of a b c d)) as [E | _]; cbn [negb].
    - now rewrite E.
    - reflexivity. }
  rewrite (parse_cidr_accepts s Hnet). cbn [Ipaddress.network_address Ipaddress.netmask].
  rewrite (string_from_ip_int_dotted _ (network_base_range _ p Hip Hp)).
  rewrite (string_from_ip_int_dotted _ (prefix_mask_range p Hp)).
  reflexivity.
Qed.

Lemma parse_cidr_normalizes_and_expands_witness :
  parse_cidr "172.16.5.37/12" (start Scenario.host_without_route)
  = (Return ("172.16.0.0", "255.240.0.0"), start Scenario.host_without_route).
Proof.
  apply (@parse_cidr_normalizes_and_expands Fake.t Fake.host 172 16 5 37 12
           (start Scenario.host_without_route));
    unfold Model.octet; lia.
Defined.

(* ===================================================================== *)
(** * Further properties of the scripts *)
(* ===================================================================== *)

Import Shape.

(** ** What each function adds to the log *)

Section Phases.

Context {W : Type} {HW : Host W}.
Variable P : event -> bool.
Hypothesis P_print : forall text, P (EvPrint text) = true.

Lemma adds_printed {A} text (a : A) :
  adds_only (W := W) P (print text ;; ret a).
Proof. apply adds_bind; [apply adds_print, P_print | intros; apply adds_ret]. Qed.

Lemma adds_resolve_cidr_at args :
  P (EvRun wsl_ip_cmd) = true -> P (EvInput cidr_prompt) = true ->
  adds_only (W := W) P (resolve_cidr args).
Proof.
  intros Hq Hi. unfold resolve_cidr. apply adds_unless_str.
  apply adds_bind; [now apply adds_get_wsl_ip_cidr|]. intros found.
  apply adds_unless_str, adds_input, Hi.
Qed.

Lemma adds_parse_cidr c : adds_only (W := W) P (parse_cidr c).
Proof.
  unfold parse_cidr. destruct (Ipaddress.IPv4Network c false).
  - apply adds_bind; [apply adds_print, P_print | intros; apply adds_raise].
  - apply adds_ret.
Qed.

Lemma adds_scan_routes subnet lines :
  adds_only (W := W) P (scan_routes subnet lines).
Proof.
  induction lines as [|line rest IH]; cbn [scan_routes].
  - apply adds_printed.
  - destruct (Py.str_in subnet line); [|exact IH].
    apply adds_bind; [apply adds_print, P_print|]. intros _. apply adds_printed.
Qed.

Lemma adds_check_route_status subnet :
  P (EvRun route_print_cmd) = true ->
  adds_only (W := W) P (check_route_status subnet).
Proof.
  intros Hq. unfold check_route_status.
  apply adds_bind; [now apply adds_run|]. intros cp.
  destruct (negb (returncode cp =? 0)); [apply adds_printed | apply adds_scan_routes].
Qed.

Lemma adds_get_network_adapters :
  P (EvRun adapters_cmd) = true -> adds_only (W := W) P get_network_adapters.
Proof.
  intros Hq. unfold get_network_adapters.
  apply adds_bind; [now apply adds_run|]. intros cp.
  destruct (returncode cp =? 0).
  - apply adds_bind; [apply adds_print, P_print|]. intros _. apply adds_print, P_print.
  - apply adds_print, P_print.
Qed.

Lemma adds_get_gateway_from_nic index :
  P (EvRun (gateway_cmd index)) = true ->
  adds_only (W := W) P (get_gateway_from_nic index).
Proof.
  intros Hq. unfold get_gateway_from_nic.
  apply adds_bind; [now apply adds_run|]. intros cp.
  destruct (returncode cp =? 0); [|apply adds_printed].
  destruct (Py.truthy_str (Py.strip (stdout cp))); [apply adds_ret | apply adds_printed].
Qed.

Lemma adds_unless_int x (fallback : M W Z) :
  adds_only P fallback -> adds_only P (unless_int x fallback).
Proof.
  intros H. unfold unless_int. destruct x as [n|]; [|assumption].
  destruct (negb (n =? 0)); [apply adds_ret | assumption].
Qed.

Lemma adds_input_int prompt :
  P (EvInput prompt) = true -> adds_only (W := W) P (input_int prompt).
Proof.
  intros Hi. unfold input_int. apply adds_bind; [now apply adds_input|].
  intros line. destruct (Py.int line); [apply adds_raise | apply adds_ret].
Qed.

Lemma adds_resolve_interface_index args :
  P (EvRun adapters_cmd) = true -> P (EvInput index_prompt) = true ->
  adds_only (W := W) P (resolve_interface_index args).
Proof.
  intros Hq Hi. unfold resolve_interface_index. apply adds_unless_int.
  apply adds_bind; [apply adds_print, P_print|]. intros _.
  apply adds_bind; [now apply adds_get_network_adapters|]. intros _.
  now apply adds_input_int.
Qed.

Lemma adds_resolve_gateway args index :
  P (EvRun (gateway_cmd index)) = true -> P (EvInput gateway_prompt) = true ->
  adds_only (W := W) P (resolve_gateway args index).
Proof.
  intros Hq Hi. unfold resolve_gateway. apply adds_unless_str.
  apply adds_bind; [now apply adds_get_gateway_from_nic|]. intros found.
  apply adds_unless_str.
  apply adds_bind; [apply adds_print, P_print|]. intros _. now apply adds_input.
Qed.

Lemma adds_delete subnet dry :
  (dry = false -> P (EvRun (delete_cmd subnet)) = true) ->
  adds_only (W := W) P (delete_existing_route subnet dry).
Proof.
  intros Hq. unfold delete_existing_route. destruct dry.
  - apply adds_print, P_print.
  - apply adds_bind; [apply adds_run; now apply Hq|]. intros cp.
    destruct (returncode cp =? 0); apply adds_print, P_print.
Qed.

Lemma adds_add subnet mask gateway index dry :
  (dry = false -> P (EvRun (add_cmd subnet mask gateway index)) = true) ->
  adds_only (W := W) P (add_static_route subnet mask gateway index dry).
Proof.
  intros Hq. unfold add_static_route. destruct dry.
  - apply adds_print, P_print.
  - apply adds_bind; [apply adds_run; now apply Hq|]. intros cp.
    destruct (returncode cp =? 0); apply adds_print, P_print.
Qed.

Lemma adds_reconcile subnet mask gateway index dry :
  (dry = false -> P (EvRun (delete_cmd subnet)) = true) ->
  (dry = false -> P (EvRun (add_cmd subnet mask gateway index)) = true) ->
  adds_only (W := W) P (reconcile subnet mask gateway index dry).
Proof.
  intros Hd Ha. unfold reconcile.
  apply adds_bind; [now apply adds_delete|]. intros _. now apply adds_add.
Qed.

Lemma adds_cancelled e : adds_only (W := W) P (cancelled e).
Proof.
  unfold cancelled.
  apply adds_bind; [apply adds_print, P_print | intros; apply adds_raise].
Qed.

(** [main] from its parts. *)
Lemma adds_main args :
  adds_only (W := W) P (resolve_cidr args) ->
  (status args = true -> P (EvRun route_print_cmd) = true) ->
  (status args = false ->
   adds_only (W := W) P (resolve_interface_index args)
   /\ (forall index, adds_only (W := W) P (resolve_gateway args index))
   /\ (forall subnet mask gateway index,
          adds_only (W := W) P (reconcile subnet mask gateway index (dry_run args)))) ->
  adds_only (W := W) P (main args).
Proof.
  intros Hc Hs Hl. unfold main. apply adds_try; [|apply adds_cancelled].
  unfold main_body. apply adds_bind; [exact Hc|]. intros c.
  apply adds_bind; [apply adds_parse_cidr|]. intros [subnet mask].
  destruct (status args).
  - apply adds_bind; [apply adds_check_route_status; now apply Hs|].
    intros _. apply adds_ret.
  - destruct (Hl eq_refl) as (Hi & Hg & Hr).
    apply adds_bind; [exact Hi|]. intros index.
    apply adds_bind; [apply Hg|]. intros gw. apply Hr.
Qed.

End Phases.

Lemma quiet_gateway_cmd index : quiet (EvRun (gateway_cmd index)) = true.
Proof. reflexivity. Qed.

Lemma quiet_resolve_cidr {W} {HW : Host W} args :
  adds_only (W := W) quiet (resolve_cidr args).
Proof. now apply adds_resolve_cidr_at. Qed.

(** X1. A run with [--status] is read-only on every host and whatever
    the other arguments are: the only commands it can run are the guest
    query and the route query, the only prompt it can show is the CIDR
    prompt; it never lists the adapters, never looks a gateway up and
    never deletes or adds a route, also when a query fails or the CIDR is
    refused. *)
Theorem status_run_only_queries :
  forall (W : Type) (HW : Host W) args (s : state W),
    status args = true ->
    exists added,
      log (snd (main args s)) = (log s ++ added)%list
      /\ forallb status_event added = true.
Proof.
  intros W HW args s Hst. revert s.
  change (adds_only (W := W) status_event (main args)).
  apply adds_main; try reflexivity.
  - now apply adds_resolve_cidr_at.
  - rewrite Hst. discriminate.
Qed.

Lemma status_run_only_queries_witness :
  exists added,
    log (snd (main (Scenario.explicit_args false true)
                (start Scenario.host_route_query_fails)))
    = ([] ++ added)%list
    /\ forallb status_event added = true.
Proof.
  exact (@status_run_only_queries Fake.t Fake.host
           (Scenario.explicit_args false true)
           (start Scenario.host_route_query_fails) eq_refl).
Defined.

(** X2. A run with [--dry-run] never deletes and never adds a route, on
    every host and whatever the other arguments are: among everything the
    run adds to the log (queries, prompts and prints included) there is
    no route delete and no route add command. *)
Theorem dry_run_never_mutates :
  forall (W : Type) (HW : Host W) args (s : state W),
    dry_run args = true ->
    exists added,
      log (snd (main args s)) = (log s ++ added)%list
      /\ forallb quiet added = true.
Proof.
  intros W HW args s Hdry. revert s.
  change (adds_only (W := W) quiet (main args)).
  apply adds_main; try reflexivity.
  - apply quiet_resolve_cidr.
  - intros _. split; [|split].
    + now apply adds_resolve_interface_index.
    + intros index. now apply adds_resolve_gateway.
    + intros subnet mask gateway index. rewrite Hdry.
      apply adds_reconcile; try reflexivity; discriminate.
Qed.

Lemma dry_run_never_mutates_witness :
  exists added,
    log (snd (main (mkArgs None None None true false)
                (start Scenario.host_with_typist)))
    = ([] ++ added)%list
    /\ forallb quiet added = true.
Proof.
  exact (@dry_run_never_mutates Fake.t Fake.host
           (mkArgs None None None true false)
           (start Scenario.host_with_typist) eq_refl).
Defined.

(** X3. When the CIDR, a non-zero interface index and the gateway are
    all given on the command line and [--status] is not, the run is not
    interactive and discovers nothing: on every host everything it adds
    to the log is a print or a route delete/add command; it runs no
    query and shows no prompt. *)
Theorem explicit_arguments_run_no_query_and_no_prompt :
  forall (W : Type) (HW : Host W) args c index g (s : state W),
    cidr args = Some c -> c <> EmptyString ->
    interface_index args = Some index -> index <> 0 ->
    gateway args = Some g -> g <> EmptyString ->
    status args = false ->
    exists added,
      log (snd (main args s)) = (log s ++ added)%list
      /\ forallb batch_event added = true.
Proof.
  intros W HW args c index g s Hc Hc0 Hi Hi0 Hg Hg0 Hst. revert s.
  change (adds_only (W := W) batch_event (main args)).
  apply adds_main; try reflexivity.
  - unfold resolve_cidr, unless_str. rewrite Hc.
    destruct c; [contradiction | apply adds_ret].
  - rewrite Hst. discriminate.
  - intros _. split; [|split].
    + unfold resolve_interface_index, unless_int. rewrite Hi.
      rewrite (Zeqb_neq_false Hi0). apply adds_ret.
    + intros k. unfold resolve_gateway, unless_str. rewrite Hg.
      destruct g; [contradiction | apply adds_ret].
    + intros subnet mask gateway k. apply adds_reconcile; reflexivity.
Qed.

Lemma explicit_arguments_run_no_query_and_no_prompt_witness :
  exists added,
    log (snd (main (Scenario.explicit_args false false)
                (start Scenario.host_without_route)))
    = ([] ++ added)%list
    /\ forallb batch_event added = true.
Proof.
  apply (@explicit_arguments_run_no_query_and_no_prompt Fake.t Fake.host
           (Scenario.explicit_args false false) "172.16.0.0/12" 7 "192.168.1.1"
           (start Scenario.host_without_route));
    try reflexivity; discriminate.
Defined.

(** ** Order of the route commands *)

Lemma filter_quiet l : forallb quiet l = true -> filter is_mutation l = [].
Proof.
  induction l as [|e l IH]; [reflexivity|]. cbn [forallb filter].
  intros H. apply andb_true_iff in H as [He Hl]. unfold quiet in He.
  apply negb_true_iff in He. rewrite He. now apply IH.
Qed.

Lemma delete_then_add_after l1 l2 :
  filter is_mutation l1 = [] -> delete_then_add l2 -> delete_then_add (l1 ++ l2).
Proof. intros H1 H2. unfold delete_then_add in *. now rewrite filter_app, H1. Qed.

Lemma delete_then_add_before l1 l2 :
  delete_then_add l1 -> filter is_mutation l2 = [] -> delete_then_add (l1 ++ l2).
Proof.
  intros H1 H2. unfold delete_then_add in *. now rewrite filter_app, H2, app_nil_r.
Qed.

Section Order.

Context {W : Type} {HW : Host W}.

Lemma quiet_grows {A} (m : M W A) :
  adds_only quiet m -> grows delete_then_add m.
Proof.
  intros H s. destruct (H s) as [l [E F]]. exists l. split; [exact E|].
  left. now apply filter_quiet.
Qed.

Lemma grows_bind_quiet {A B} (m : M W A) (k : A -> M W B) :
  adds_only quiet m -> (forall a, grows delete_then_add (k a)) ->
  grows delete_then_add (bind m k).
Proof.
  intros Hm Hk s. destruct (Hm s) as [l1 [E1 F1]]. unfold bind.
  destruct (m s) as [[a|e] s1]; cbn [snd] in E1.
  - destruct (Hk a s1) as [l2 [E2 F2]]. exists (l1 ++ l2)%list.
    rewrite E2, E1, app_assoc. split; [reflexivity|].
    apply delete_then_add_after; [now apply filter_quiet | exact F2].
  - exists l1. split; [exact E1|]. left. now apply filter_quiet.
Qed.

Lemma grows_try_quiet {A} (m : M W A) c h :
  grows delete_then_add m -> (forall e, adds_only quiet (h e)) ->
  grows delete_then_add (try_except m c h).
Proof.
  intros Hm Hh s. destruct (Hm s) as [l1 [E1 F1]]. unfold try_except.
  destruct (m s) as [[a|e] s1]; cbn [snd] in E1.
  - now exists l1.
  - destruct (c e); [|now exists l1].
    destruct (Hh e s1) as [l2 [E2 F2]]. exists (l1 ++ l2)%list.
    rewrite E2, E1, app_assoc. split; [reflexivity|].
    apply delete_then_add_before; [exact F1 | now apply filter_quiet].
Qed.

Lemma grows_reconcile subnet mask gateway index dry :
  grows (W := W) delete_then_add (reconcile subnet mask gateway index dry).
Proof.
  destruct dry.
  - apply quiet_grows. apply adds_reconcile; try reflexivity; discriminate.
  - intros s. unfold reconcile, delete_existing_route, add_static_route,
      bind, subprocess_run, print, emit.
    destruct (host_run (delete_cmd subnet) (world s)) as [[cp1|e1] w1];
      cbn [world log snd].
    + destruct (returncode cp1 =? 0); cbn [world log snd];
        destruct (host_run (add_cmd subnet mask gateway index) w1)
          as [[cp2|e2] w2]; cbn [world log snd];
        try (destruct (returncode cp2 =? 0); cbn [world log snd]);
        repeat rewrite <- app_assoc; cbn [app];
        eexists; (split; [reflexivity|]);
        right; exists subnet; right; exists mask, gateway, index; reflexivity.
    + exists [EvRun (delete_cmd subnet)]. split; [reflexivity|].
      right. exists subnet. now left.
Qed.

End Order.

(** X4. On every host and for every command line, the route commands of
    a run are, in this order, at most one route delete and then at most
    one route add for the same subnet: the add is never run before or
    without the delete, and neither is run twice. *)
Theorem route_commands_are_delete_then_add :
  forall (W : Type) (HW : Host W) args (s : state W),
    exists added,
      log (snd (main args s)) = (log s ++ added)%list
      /\ delete_then_add added.
Proof.
  intros W HW args. change (grows (W := W) delete_then_add (main args)).
  unfold main. apply grows_try_quiet; [|intro e; now apply adds_cancelled].
  unfold main_body. apply grows_bind_quiet; [apply quiet_resolve_cidr|].
  intros c. apply grows_bind_quiet; [now apply adds_parse_cidr|].
  intros [subnet mask]. destruct (status args).
  - apply quiet_grows. apply adds_bind; [|intros; apply adds_ret].
    now apply adds_check_route_status.
  - apply grows_bind_quiet; [now apply adds_resolve_interface_index|].
    intros index. apply grows_bind_quiet; [now apply adds_resolve_gateway|].
    intros gw. apply grows_reconcile.
Qed.

(** ** Interrupts *)



(** ** Empty options *)

(** X6. An empty [--cidr] and an empty [--gateway] are false for
    [if not args.cidr] and [if not args.gateway]: the run is the same as
    without the option (the guest is queried, the gateway is looked up). *)
Theorem empty_option_is_treated_as_missing :
  forall (W : Type) (HW : Host W) args (s : state W),
    (cidr args = Some EmptyString ->
     main args s =
     main (mkArgs None (gateway args) (interface_index args) (dry_run args)
             (status args)) s)
    /\ (gateway args = Some EmptyString ->
        main args s =
        main (mkArgs (cidr args) None (interface_index args) (dry_run args)
                (status args)) s).
Proof.
  intros W HW [c g i d st] s. cbn [cidr gateway interface_index dry_run status].
  split; intros ->; reflexivity.
Qed.

Lemma empty_option_is_treated_as_missing_witness :
  main (mkArgs (Some EmptyString) (Some "192.168.1.1") (Some 7) true false)
    (start Scenario.host_without_route)
  = main (mkArgs None (Some "192.168.1.1") (Some 7) true false)
      (start Scenario.host_without_route).
Proof.
  exact (proj1 (@empty_option_is_treated_as_missing Fake.t Fake.host
                  (mkArgs (Some EmptyString) (Some "192.168.1.1") (Some 7) true false)
                  (start Scenario.host_without_route)) eq_refl).
Defined.

(** ** Values returned by the queries *)

Lemma split_tokens_solid s t : In t (Py.split s) -> Model.solid t.
Proof.
  revert t. induction s as [|c s IH]; intros t; [intros []|].
  rewrite split_cons. destruct (Py.isspace c) eqn:Hc; [apply IH|].
  assert (Hone : Model.solid (String c EmptyString)).
  { split; [discriminate|]. cbn [Py.all_chars]. now rewrite Hc. }
  destruct (head_space s).
  - intros [<- | Hin]; [exact Hone | now apply IH].
  - destruct (Py.split s) as [|t0 ts] eqn:Hs.
    + intros [<- | []]. exact Hone.
    + intros [<- | Hin].
      * destruct (IH t0 (or_introl eq_refl)) as [_ Hall].
        split; [discriminate|]. cbn [Py.all_chars]. now rewrite Hc, Hall.
      * apply IH. now right.
Qed.

Lemma get_wsl_ip_cidr_outcomes {W} {HW : Host W} (s : state W) :
  (forall cls msg, fst (get_wsl_ip_cidr s) <> Raise (Exception cls msg))
  /\ (forall value s1,
         get_wsl_ip_cidr s = (Return (Some value), s1) ->
         Model.solid value /\ Py.truthy_str value = true).
Proof.
  unfold get_wsl_ip_cidr, try_except, bind, subprocess_run.
  destruct (host_run wsl_ip_cmd (world s)) as [[cp|e] w1].
  - destruct (returncode cp =? 0); cbn [negb].
    + rewrite scan_inet_eq.
      destruct (find (Py.str_in "inet") (Py.splitlines (stdout cp))) as [line|].
      * destruct (nth_error (Py.split (Py.strip line)) 1) as [tok|] eqn:N.
        -- split; [discriminate|]. intros value s1 E. injection E as <- _.
           apply nth_error_In, split_tokens_solid in N.
           split; [exact N|]. destruct N as [Hne _]. now destruct tok.
        -- cbn. split; [discriminate | discriminate].
      * split; [discriminate | discriminate].
    + split; [discriminate | discriminate].
  - destruct e as [| n | cls msg]; cbn; split; discriminate.
Qed.

(** X7. The guest query never ends with an [Exception], and a value it
    returns is one token: a non-empty string without white space (so
    that [main] never takes a found address for a missing one). *)
Theorem guest_query_value_is_a_token :
  forall (W : Type) (HW : Host W) (s : state W),
    (forall cls msg, fst (get_wsl_ip_cidr s) <> Raise (Exception cls msg))
    /\ (forall value s1,
           get_wsl_ip_cidr s = (Return (Some value), s1) ->
           Model.solid value /\ Py.truthy_str value = true).
Proof. intros W HW s. apply get_wsl_ip_cidr_outcomes. Qed.

Lemma guest_query_value_is_a_token_witness :
  Model.solid "172.22.1.5/20" /\ Py.truthy_str "172.22.1.5/20" = true.
Proof.
  exact (proj2 (@guest_query_value_is_a_token Fake.t Fake.host
                  (start Scenario.host_without_route))
           "172.22.1.5/20"
           (mkState Scenario.host_without_route [EvRun wsl_ip_cmd]) eq_refl).
Defined.

Lemma head_space_lstrip s : head_space (Py.lstrip s) = false.
Proof.
  induction s as [|c s IH]; [reflexivity|]. cbn [Py.lstrip].
  destruct (Py.isspace c) eqn:Hc; [exact IH | exact Hc].
Qed.

Lemma lstrip_fixed s : head_space s = false -> Py.lstrip s = s.
Proof. destruct s as [|c s]; [reflexivity|]. cbn. now intros ->. Qed.

Lemma rstrip_idem s : Py.rstrip (Py.rstrip s) = Py.rstrip s.
Proof.
  induction s as [|c s IH]; [reflexivity|]. cbn [Py.rstrip].
  destruct (Py.rstrip s) as [|d r] eqn:R.
  - destruct (Py.isspace c) eqn:Hc; [reflexivity|].
    cbn [Py.rstrip]. now rewrite Hc.
  - change (Py.rstrip (String c (String d r)))
      with (match Py.rstrip (String d r) with
            | EmptyString => if Py.isspace c then EmptyString else String c EmptyString
            | String _ _ as q => String c q
            end).
    now rewrite IH.
Qed.

Lemma strip_idem s : Py.strip (Py.strip s) = Py.strip s.
Proof.
  unfold Py.strip. set (t := Py.lstrip s).
  assert (Ht : head_space t = false) by apply head_space_lstrip.
  assert (Hl : Py.lstrip (Py.rstrip t) = Py.rstrip t).
  { destruct (Py.rstrip t) as [|d r] eqn:R; [reflexivity|].
    apply lstrip_fixed. rewrite <- R, head_space_rstrip; [exact Ht|].
    rewrite R. discriminate. }
  rewrite Hl. apply rstrip_idem.
Qed.

(** X8. A gateway returned by the lookup by index is never empty and
    has no white space around it: it is the stripped output of a command
    that completed with return code 0. *)
Theorem gateway_lookup_value_is_stripped :
  forall (W : Type) (HW : Host W) index (s s1 : state W) g,
    get_gateway_from_nic index s = (Return (Some g), s1) ->
    g <> EmptyString
    /\ Py.strip g = g
    /\ exists cp,
        host_run (gateway_cmd index) (world s) = (Return cp, world s1)
        /\ returncode cp = 0 /\ g = Py.strip (stdout cp)
        /\ log s1 = (log s ++ [EvRun (gateway_cmd index)])%list.
Proof.
  intros W HW index s s1 g. unfold get_gateway_from_nic, bind, subprocess_run.
  destruct (host_run (gateway_cmd index) (world s)) as [[cp|e] w1];
    [|discriminate].
  destruct (Z.eqb_spec (returncode cp) 0) as [Hrc|_]; [|discriminate].
  destruct (Py.truthy_str (Py.strip (stdout cp))) eqn:Ht; [|discriminate].
  unfold ret. intros E. injection E as <- <-. split; [|split].
  - intros H. now rewrite H in Ht.
  - apply strip_idem.
  - exists cp. repeat split. exact Hrc.
Qed.

Lemma gateway_lookup_value_is_stripped_witness :
  "192.168.1.1" <> EmptyString
  /\ Py.strip "192.168.1.1" = "192.168.1.1"
  /\ exists cp,
      host_run (gateway_cmd 7) Scenario.host_without_route
      = (Return cp, Scenario.host_without_route)
      /\ returncode cp = 0 /\ "192.168.1.1" = Py.strip (stdout cp)
      /\ [EvRun (gateway_cmd 7)] = ([] ++ [EvRun (gateway_cmd 7)])%list.
Proof.
  exact (@gateway_lookup_value_is_stripped Fake.t Fake.host 7
           (start Scenario.host_without_route)
           (mkState Scenario.host_without_route [EvRun (gateway_cmd 7)])
           "192.168.1.1" eq_refl).
Defined.

(** ** The stand-alone script *)

(** X10. The script [wsl_get_ip.py] never ends with an [Exception], and
    it ends by printing one line that tells what the query returned: the
    address when there is one, the could-not-determine line otherwise. *)
Theorem wsl_get_ip_reports_the_query :
  forall (W : Type) (HW : Host W) (s : state W),
    (forall cls msg, fst (WslGetIp.main s) <> Raise (Exception cls msg))
    /\ (forall r s1,
           WslGetIp.get_wsl_ip_cidr s = (Return r, s1) ->
           WslGetIp.main s =
           (Return tt,
            mkState (world s1)
              (log s1 ++
                 [EvPrint
                    match r with
                    | Some value => "WSL IP Address in CIDR notation: " ++ value
                    | None => "Could not determine the WSL IP address."
                    end]))).
Proof.
  intros W HW s. destruct (get_wsl_ip_cidr_outcomes s) as [Hexc Hval].
  unfold WslGetIp.main, bind. rewrite get_wsl_ip_cidr_same.
  destruct (get_wsl_ip_cidr s) as [[r|e] s1] eqn:E; cbn [fst] in *.
  - split.
    + destruct r as [value|]; [destruct (Py.truthy_str value)|]; discriminate.
    + intros r' s1' E'. injection E' as <- <-.
      destruct r as [value|]; [|reflexivity].
      destruct (Hval value s1 eq_refl) as [_ ->]. reflexivity.
  - split; [|discriminate].
    intros cls msg H. injection H as ->. now apply (Hexc cls msg).
Qed.

Lemma wsl_get_ip_reports_the_query_witness :
  WslGetIp.main (start Scenario.host_without_route)
  = (Return tt,
     mkState Scenario.host_without_route
       [EvRun WslGetIp.wsl_ip_cmd;
        EvPrint "WSL IP Address in CIDR notation: 172.22.1.5/20"]).
Proof.
  exact (proj2 (@wsl_get_ip_reports_the_query Fake.t Fake.host
                  (start Scenario.host_without_route))
           (Some "172.22.1.5/20")
           (mkState Scenario.host_without_route [EvRun WslGetIp.wsl_ip_cmd])
           eq_refl).
Defined.

(** ** Decimal text of an integer *)

Lemma uint_text_digits d :
  Py.all_chars Py.is_ascii_digit (NilEmpty.string_of_uint d) = true.
Proof. induction d; cbn [NilEmpty.string_of_uint Py.all_chars]; auto. Qed.

Lemma decimal_from_uint d :
  forall acc, Py.decimal_from acc (NilEmpty.string_of_uint d) = uint_value acc d.
Proof.
  induction d; intros acc; cbn [NilEmpty.string_of_uint Py.decimal_from uint_value];
    try reflexivity; try (rewrite IHd; reflexivity).
  rewrite IHd. f_equal. change (Py.digit_value "0") with 0. lia.
Qed.

Lemma all_chars_weaken (p q : ascii -> bool) s :
  (forall c, p c = true -> q c = true) ->
  Py.all_chars p s = true -> Py.all_chars q s = true.
Proof.
  intros Hpq. induction s as [|c s IH]; [reflexivity|]. cbn [Py.all_chars].
  intros H. apply andb_true_iff in H as [Hc Hs]. now rewrite (Hpq c Hc), IH.
Qed.

(** [int] on a text made of digits only: the value, unless the digits
    are more than the limit. *)
Lemma int_digits_all s :
  forall k acc,
    Py.all_chars Py.is_ascii_digit s = true ->
    Py.int_digits true k acc s =
    if Py.int_max_str_digits <? k + Z.of_nat (String.length s)
    then inl (Py.TooManyDigits (k + Z.of_nat (String.length s)))
    else inr (Py.decimal_from acc s).
Proof.
  induction s as [|c s IH]; intros k acc H.
  - cbn [Py.int_digits String.length Py.decimal_from].
    change (Z.of_nat 0) with 0. rewrite Z.add_0_r. reflexivity.
  - cbn [Py.all_chars] in H. apply andb_true_iff in H as [Hc Hs].
    cbn [Py.int_digits Py.decimal_from]. rewrite Hc, (IH _ _ Hs).
    replace (k + 1 + Z.of_nat (String.length s))
      with (k + Z.of_nat (String.length (String c s)))
      by (cbn [String.length]; lia).
    reflexivity.
Qed.

Lemma int_digits_start c s k acc :
  Py.is_ascii_digit c = true ->
  Py.int_digits false k acc (String c s) = Py.int_digits true k acc (String c s).
Proof. intros Hc. cbn [Py.int_digits]. now rewrite Hc. Qed.

Lemma digit_not_int_space c :
  Py.is_ascii_digit c = true -> Py.int_space c = false.
Proof.
  unfold Py.is_ascii_digit, Py.int_space. intros H.
  apply andb_true_iff in H as [H1 H2]. apply N.leb_le in H1, H2.
  repeat (apply orb_false_iff; split);
    try (apply andb_false_iff; right; apply N.leb_gt; lia);
    try (apply andb_false_iff; left; apply N.leb_gt; lia);
    apply N.eqb_neq; lia.
Qed.

Lemma int_rstrip_fixed s :
  Py.all_chars (fun c => negb (Py.int_space c)) s = true -> Py.int_rstrip s = s.
Proof.
  induction s as [|c s IH]; [reflexivity|]. cbn [Py.all_chars Py.int_rstrip].
  intros H. apply andb_true_iff in H as [Hc Hs]. apply negb_true_iff in Hc.
  rewrite (IH Hs), Hc. now destruct s.
Qed.

Lemma int_strip_fixed c s :
  Py.int_space c = false ->
  Py.all_chars Py.is_ascii_digit s = true ->
  Py.int_rstrip (Py.int_lstrip (String c s)) = String c s.
Proof.
  intros Hc Hs. cbn [Py.int_lstrip]. rewrite Hc.
  apply int_rstrip_fixed. cbn [Py.all_chars]. rewrite Hc. cbn [negb andb].
  apply (all_chars_weaken Py.is_ascii_digit); [|exact Hs].
  intros d Hd. now rewrite (digit_not_int_space d Hd).
Qed.

Lemma int_of_digits s :
  Py.isascii_isdigit s = true ->
  Py.int s =
  if Py.int_max_str_digits <? Z.of_nat (String.length s)
  then inl (Py.TooManyDigits (Z.of_nat (String.length s)))
  else inr (Py.decimal s).
Proof.
  intros H. destruct s as [|c s]; [discriminate|].
  cbn [Py.isascii_isdigit] in H.
  pose proof H as Hall. cbn [Py.all_chars] in H.
  apply andb_true_iff in H as [Hc Hs].
  assert (E : Py.int (String c s) = Py.int_digits false 0 0 (String c s)).
  { unfold Py.int.
    rewrite (int_strip_fixed c s (digit_not_int_space c Hc) Hs).
    destruct c as [[] [] [] [] [] [] [] []];
      try (cbv in Hc; discriminate Hc); reflexivity. }
  rewrite E, (int_digits_start c s 0 0 Hc), (int_digits_all _ 0 0 Hall).
  reflexivity.
Qed.

Lemma uint_value_pos d :
  forall acc, uint_value (Zpos acc) d = Zpos (Pos.of_uint_acc d acc).
Proof.
  induction d; intros acc; cbn [uint_value Pos.of_uint_acc];
    try reflexivity;
    match goal with
    | |- uint_value ?z _ = Zpos (Pos.of_uint_acc _ ?q) =>
        replace z with (Zpos q) by lia; apply IHd
    end.
Qed.

Lemma uint_value_N d : uint_value 0 d = Z.of_N (Pos.of_uint d).
Proof.
  induction d; cbn [uint_value Pos.of_uint]; try reflexivity;
    try (change (10 * 0) with 0; exact IHd);
    match goal with
    | |- uint_value ?z _ = _ => change z with (Zpos (Z.to_pos z))
    end; rewrite uint_value_pos; reflexivity.
Qed.

(** The text of a non-negative integer is a numeral that reads back as
    the integer; the text of a negative one is a minus sign and the text
    of its opposite. *)
Lemma str_nonneg n :
  0 <= n ->
  exists d, d <> Decimal.Nil
            /\ Py.str n = NilEmpty.string_of_uint d /\ uint_value 0 d = n.
Proof.
  intros Hn. destruct n as [|p|p]; [| |lia].
  - exists (Decimal.D0 Decimal.Nil). repeat split. discriminate.
  - exists (Pos.to_uint p).
    pose proof (DecimalPos.Unsigned.to_uint_nonnil p) as Hnil.
    split; [exact Hnil|]. split.
    + unfold Py.str. cbn [Z.to_int NilZero.string_of_int].
      unfold NilZero.string_of_uint. now destruct (Pos.to_uint p).
    + now rewrite uint_value_N, DecimalPos.Unsigned.of_to.
Qed.

Lemma str_neg n : n < 0 -> Py.str n = String "-" (Py.str (- n)).
Proof.
  intros Hn. destruct n as [|p|p]; [lia | lia |].
  unfold Py.str. cbn [Z.opp Z.to_int NilZero.string_of_int]. reflexivity.
Qed.

Lemma str_digits n :
  0 <= n ->
  Py.isascii_isdigit (Py.str n) = true /\ Py.decimal (Py.str n) = n.
Proof.
  intros Hn. destruct (str_nonneg n Hn) as (d & Hd & -> & Hv). split.
  - unfold Py.isascii_isdigit. rewrite uint_text_digits.
    destruct d; [congruence | reflexivity ..].
  - unfold Py.decimal. now rewrite decimal_from_uint.
Qed.

Lemma all_chars_has_char p c s :
  Py.all_chars p s = true -> p c = false -> has_char c s = false.
Proof.
  intros Hs Hc. induction s as [|d s IH]; [reflexivity|].
  cbn [Py.all_chars has_char] in *. apply andb_true_iff in Hs as [Hd Hs].
  rewrite (IH Hs), orb_false_r. apply Ascii.eqb_neq. intros ->. congruence.
Qed.

Lemma str_has_no c n :
  Py.is_ascii_digit c = false -> c <> "-"%char -> has_char c (Py.str n) = false.
Proof.
  intros Hc Hm.
  assert (Hpos : forall m, 0 <= m -> has_char c (Py.str m) = false).
  { intros m Hm0. destruct (str_nonneg m Hm0) as (d & _ & -> & _).
    exact (all_chars_has_char _ c _ (uint_text_digits d) Hc). }
  destruct (Z.lt_ge_cases n 0) as [Hneg | Hge]; [|now apply Hpos].
  rewrite (str_neg n Hneg). cbn [has_char]. rewrite Hpos by lia.
  rewrite orb_false_r. apply Ascii.eqb_neq. congruence.
Qed.

Lemma rstrip_fixed s :
  Py.all_chars (fun c => negb (Py.isspace c)) s = true -> Py.rstrip s = s.
Proof.
  induction s as [|c s IH]; [reflexivity|]. cbn [Py.all_chars Py.rstrip].
  intros H. apply andb_true_iff in H as [Hc Hs]. apply negb_true_iff in Hc.
  rewrite (IH Hs), Hc. now destruct s.
Qed.

Lemma strip_fixed s :
  Py.all_chars (fun c => negb (Py.isspace c)) s = true -> Py.strip s = s.
Proof.
  intros H. unfold Py.strip. rewrite lstrip_fixed; [now apply rstrip_fixed|].
  destruct s as [|c s]; [reflexivity|]. cbn [Py.all_chars head_space] in *.
  apply andb_true_iff in H as [Hc _]. now apply negb_true_iff in Hc.
Qed.

Lemma digit_not_space c : Py.is_ascii_digit c = true -> negb (Py.isspace c) = true.
Proof.
  unfold Py.is_ascii_digit, Py.isspace. intros H.
  apply andb_true_iff in H as [H1 H2]. apply N.leb_le in H1, H2.
  apply negb_true_iff. repeat (apply orb_false_iff; split);
    try (apply andb_false_iff; right; apply N.leb_gt; lia);
    try (apply andb_false_iff; left; apply N.leb_gt; lia);
    apply N.eqb_neq; lia.
Qed.

Lemma uint_text_length d :
  String.length (NilEmpty.string_of_uint d) = Decimal.nb_digits d.
Proof. induction d; cbn [NilEmpty.string_of_uint String.length Decimal.nb_digits]; congruence. Qed.

(** A numeral is worth at least its accumulator shifted by its digits. *)
Lemma uint_value_shift d :
  forall acc, 0 <= acc ->
              acc * 10 ^ Z.of_nat (Decimal.nb_digits d) <= uint_value acc d.
Proof.
  induction d; intros acc Hacc; cbn [uint_value Decimal.nb_digits];
    [change (Z.of_nat 0) with 0; lia | ..];
    rewrite Nat2Z.inj_succ, Z.pow_succ_r by lia;
    match goal with
    | |- _ <= uint_value ?a _ =>
        assert (Ha : 0 <= a) by lia;
        pose proof (IHd a Ha) as IH;
        pose proof (Z.pow_nonneg 10 (Z.of_nat (Decimal.nb_digits d))) as Hp
    end; nia.
Qed.

(** The numeral of a positive number has no leading zero. *)
Lemma to_uint_unorm p : Decimal.unorm (Pos.to_uint p) = Pos.to_uint p.
Proof.
  rewrite <- (DecimalPos.Unsigned.to_of (Pos.to_uint p)).
  now rewrite DecimalPos.Unsigned.of_to.
Qed.

Lemma unorm_magnitude u :
  Decimal.unorm u = u -> 0 < uint_value 0 u ->
  10 ^ (Z.of_nat (Decimal.nb_digits u) - 1) <= uint_value 0 u.
Proof.
  intros Hn Hpos.
  destruct u as [|e|e|e|e|e|e|e|e|e|e];
    try (cbn [uint_value Decimal.nb_digits];
         rewrite Nat2Z.inj_succ;
         replace (Z.succ (Z.of_nat (Decimal.nb_digits e)) - 1)
           with (Z.of_nat (Decimal.nb_digits e)) by lia;
         match goal with
         | |- _ <= uint_value ?a _ =>
             assert (Ha : 0 <= a) by lia;
             pose proof (uint_value_shift e a Ha) as Hs;
             pose proof (Z.pow_nonneg 10 (Z.of_nat (Decimal.nb_digits e))) as Hp
         end; nia).
  - cbn in Hpos. lia.
  - exfalso. rewrite DecimalFacts.unorm_D0 in Hn.
    destruct e as [|f|f|f|f|f|f|f|f|f|f]; [cbn in Hpos; lia | ..];
      match type of Hn with
      | Decimal.unorm ?u = _ =>
          assert (Hu : u <> Decimal.Nil) by discriminate;
          pose proof (DecimalFacts.nb_digits_unorm u Hu) as Hle
      end;
      rewrite Hn in Hle; cbn [Decimal.nb_digits] in Hle; lia.
Qed.

Lemma to_uint_magnitude p :
  10 ^ (Z.of_nat (Decimal.nb_digits (Pos.to_uint p)) - 1) <= Zpos p.
Proof.
  assert (Hv : uint_value 0 (Pos.to_uint p) = Zpos p)
    by now rewrite uint_value_N, DecimalPos.Unsigned.of_to.
  rewrite <- Hv. apply unorm_magnitude; [apply to_uint_unorm | lia].
Qed.

(** The text of a number below [10 ^ k] has at most [k] characters. *)
Lemma str_length_bound n k :
  (0 < k)%nat -> 0 <= n < 10 ^ Z.of_nat k -> (String.length (Py.str n) <= k)%nat.
Proof.
  intros Hk [Hn Hlt]. destruct n as [|p|p]; [| |lia].
  - change (Py.str 0) with "0". cbn [String.length]. lia.
  - assert (E : Py.str (Zpos p) = NilEmpty.string_of_uint (Pos.to_uint p)).
    { unfold Py.str. cbn [Z.to_int NilZero.string_of_int].
      unfold NilZero.string_of_uint.
      pose proof (DecimalPos.Unsigned.to_uint_nonnil p).
      now destruct (Pos.to_uint p). }
    rewrite E, uint_text_length.
    pose proof (to_uint_magnitude p) as Hm.
    destruct (Nat.le_gt_cases (Decimal.nb_digits (Pos.to_uint p)) k) as [|Hgt];
      [assumption|].
    exfalso.
    assert (Hpow : 10 ^ Z.of_nat k
                   <= 10 ^ (Z.of_nat (Decimal.nb_digits (Pos.to_uint p)) - 1))
      by (apply Z.pow_le_mono_r; lia).
    lia.
Qed.

(** [int(str(n))] is [n] for a number of at most 4300 digits. *)
Lemma int_str n :
  Z.abs n < 10 ^ Py.int_max_str_digits -> Py.int (Py.str n) = inr n.
Proof.
  intros Hb.
  assert (Hpos : forall m, 0 <= m < 10 ^ Py.int_max_str_digits ->
                           Py.int (Py.str m) = inr m).
  { intros m Hm. destruct (str_digits m (proj1 Hm)) as [Hd Hv].
    rewrite (int_of_digits _ Hd), Hv.
    pose proof (str_length_bound m 4300 ltac:(lia)) as Hl.
    change (Z.of_nat 4300) with Py.int_max_str_digits in Hl.
    specialize (Hl Hm).
    destruct (Z.ltb_spec Py.int_max_str_digits
                (Z.of_nat (String.length (Py.str m)))) as [Hgt|]; [|reflexivity].
    unfold Py.int_max_str_digits in Hgt. lia. }
  destruct (Z.lt_ge_cases n 0) as [Hneg | Hge]; [|apply Hpos; lia].
  rewrite (str_neg n Hneg).
  assert (Hm : 0 <= - n < 10 ^ Py.int_max_str_digits) by lia.
  pose proof (Hpos _ Hm) as Hi.
  destruct (str_digits (- n) (proj1 Hm)) as [Hd _].
  destruct (Py.str (- n)) as [|c s] eqn:E; [discriminate|].
  cbn [Py.isascii_isdigit] in Hd. pose proof Hd as Hall.
  cbn [Py.all_chars] in Hd. apply andb_true_iff in Hd as [Hc Hs].
  assert (Ei : Py.int (String c s) = Py.int_digits false 0 0 (String c s)).
  { unfold Py.int.
    rewrite (int_strip_fixed c s (digit_not_int_space c Hc) Hs).
    destruct c as [[] [] [] [] [] [] [] []];
      try (cbv in Hc; discriminate Hc); reflexivity. }
  unfold Py.int.
  rewrite (int_strip_fixed "-" (String c s) eq_refl Hall).
  rewrite <- Ei, Hi. cbn [Py.opp_value]. f_equal. lia.
Qed.

(** ** What the address parser accepts *)

Lemma digit_value_range c :
  Py.is_ascii_digit c = true -> 0 <= Py.digit_value c <= 9.
Proof.
  unfold Py.is_ascii_digit, Py.digit_value. intros H.
  apply andb_true_iff in H as [H1 H2]. apply N.leb_le in H1, H2. lia.
Qed.

Lemma decimal_from_nonneg s :
  forall acc, Py.all_chars Py.is_ascii_digit s = true -> 0 <= acc ->
              0 <= Py.decimal_from acc s.
Proof.
  induction s as [|c s IH]; intros acc Hs Hacc; [exact Hacc|].
  cbn [Py.all_chars Py.decimal_from] in *.
  apply andb_true_iff in Hs as [Hc Hs]. apply IH; [exact Hs|].
  pose proof (digit_value_range c Hc). lia.
Qed.

Lemma parse_octet_range o v : Ipaddress.parse_octet o = Some v -> octet v.
Proof.
  unfold Ipaddress.parse_octet.
  destruct (negb (Py.truthy_str o)); [discriminate|].
  destruct (Py.isascii_isdigit o) eqn:Hd; cbn [negb]; [|discriminate].
  destruct (3 <? String.length o)%nat; [discriminate|].
  destruct (negb (String.eqb o "0") && String.prefix "0" o); [discriminate|].
  destruct (Z.ltb_spec 255 (Py.decimal o)) as [|Hle]; [discriminate|].
  intros E. injection E as <-. split; [|exact Hle].
  unfold Py.decimal. apply decimal_from_nonneg; [|lia].
  unfold Py.isascii_isdigit in Hd. now destruct o.
Qed.

Lemma map_octets_range os :
  forall bs, Ipaddress.map_octets os = Some bs ->
             List.length bs = List.length os /\ Forall octet bs.
Proof.
  induction os as [|o os IH]; intros bs; cbn [Ipaddress.map_octets].
  - intros E. injection E as <-. now split.
  - destruct (Ipaddress.parse_octet o) as [b|] eqn:Hb; [|discriminate].
    destruct (Ipaddress.map_octets os) as [bs'|]; [|discriminate].
    intros E. injection E as <-. destruct (IH bs' eq_refl) as [Hlen Hall].
    split; [cbn; now rewrite Hlen|].
    constructor; [exact (parse_octet_range o b Hb) | exact Hall].
Qed.

Lemma ip_int_from_string_range t x :
  Ipaddress.ip_int_from_string t = Some x -> 0 <= x < 2 ^ 32.
Proof.
  unfold Ipaddress.ip_int_from_string.
  destruct (negb (Py.truthy_str t)); [discriminate|].
  destruct (Nat.eqb_spec (List.length (Py.split_on "." t)) 4) as [Hlen|];
    cbn [negb]; [|discriminate].
  destruct (Ipaddress.map_octets (Py.split_on "." t)) as [bs|] eqn:Hm;
    [|discriminate].
  cbn [option_map]. intros E. injection E as <-.
  destruct (map_octets_range _ bs Hm) as [Hl Hall]. rewrite Hlen in Hl.
  destruct bs as [|a [|b [|c [|d [|? ?]]]]]; try discriminate.
  inversion Hall as [|? ? Ha Hall1]; subst.
  inversion Hall1 as [|? ? Hb Hall2]; subst.
  inversion Hall2 as [|? ? Hc Hall3]; subst.
  inversion Hall3 as [|? ? Hd _]; subst.
  unfold Ipaddress.int_from_bytes. cbn [fold_left]. unfold octet in *. lia.
Qed.

Lemma IPv4Address_range t x : Ipaddress.IPv4Address t = Some x -> 0 <= x < 2 ^ 32.
Proof.
  unfold Ipaddress.IPv4Address. destruct (Py.str_in "/" t); [discriminate|].
  apply ip_int_from_string_range.
Qed.

Lemma prefix_from_ip_int_range x p :
  Ipaddress.prefix_from_ip_int x = Some p -> 0 <= p <= 32.
Proof.
  unfold Ipaddress.prefix_from_ip_int, Ipaddress.max_prefixlen,
    Ipaddress.IPV4LENGTH. cbv zeta.
  assert (Htz : 0 <= Ipaddress.count_righthand_zero_bits x 32 <= 32).
  { unfold Ipaddress.count_righthand_zero_bits, Ipaddress.bit_length.
    destruct (x =? 0); [lia|].
    destruct (Z.land (Z.lnot x) (x - 1) =? 0); [lia|].
    pose proof (Z.log2_nonneg (Z.land (Z.lnot x) (x - 1))). lia. }
  destruct (negb _); [discriminate|]. intros E.
  assert (Hp : 32 - Ipaddress.count_righthand_zero_bits x 32 = p) by congruence.
  lia.
Qed.

Lemma make_netmask_inv m nm p :
  Ipaddress.make_netmask m = Some (nm, p) ->
  0 <= p <= 32 /\ nm = prefix_mask p.
Proof.
  unfold Ipaddress.make_netmask.
  assert (Hfin : forall q, 0 <= q <= 32 ->
                           Some (Ipaddress.ip_int_from_prefix q, q) = Some (nm, p) ->
                           0 <= p <= 32 /\ nm = prefix_mask p).
  { intros q Hq E. injection E as <- <-. split; [exact Hq|].
    now destruct (prefix_text q Hq) as (_ & _ & ->). }
  destruct m as [t|n].
  - destruct (Ipaddress.prefix_from_prefix_string t) as [q|] eqn:Hq.
    + apply Hfin. unfold Ipaddress.prefix_from_prefix_string in Hq.
      destruct (negb (Py.isascii_isdigit t)); [discriminate|].
      destruct (Py.int t) as [e|v]; [discriminate|].
      destruct ((0 <=? v) && (v <=? Ipaddress.max_prefixlen))
        eqn:Hr; cbn [negb] in Hq; [|discriminate].
      injection Hq as <-. apply andb_true_iff in Hr as [H1 H2].
      apply Z.leb_le in H1, H2.
      unfold Ipaddress.max_prefixlen, Ipaddress.IPV4LENGTH in H2. lia.
    + destruct (Ipaddress.prefix_from_ip_string t) as [q|] eqn:Hs; [|discriminate].
      apply Hfin. unfold Ipaddress.prefix_from_ip_string in Hs.
      destruct (Ipaddress.ip_int_from_string t) as [x|]; [|discriminate].
      destruct (Ipaddress.prefix_from_ip_int x) as [q'|] eqn:H1.
      * injection Hs as <-. exact (prefix_from_ip_int_range _ _ H1).
      * exact (prefix_from_ip_int_range _ _ Hs).
  - destruct ((0 <=? n) && (n <=? Ipaddress.max_prefixlen)) eqn:Hr;
      cbn [negb]; [|discriminate].
    apply Hfin. apply andb_true_iff in Hr as [H1 H2].
    apply Z.leb_le in H1, H2.
    unfold Ipaddress.max_prefixlen, Ipaddress.IPV4LENGTH in H2. lia.
Qed.

Lemma network_base_idem ip p :
  0 <= p <= 32 -> network_base (network_base ip p) p = network_base ip p.
Proof.
  intros Hp. unfold network_base.
  assert (H : 0 < 2 ^ (32 - p)) by (apply Z.pow_pos_nonneg; lia).
  assert (E : (ip - ip mod 2 ^ (32 - p)) mod 2 ^ (32 - p) = 0).
  { rewrite Zminus_mod_idemp_r, Z.sub_diag. now apply Z.mod_0_l, Z.neq_sym, Z.lt_neq. }
  rewrite E. lia.
Qed.

(** Every network that the constructor accepts, from whatever text, has
    a prefix length from 0 to 32, the standard mask of that length, and
    an address below [2 ^ 32] without host bits. *)
Lemma IPv4Network_inv t strict net :
  Ipaddress.IPv4Network t strict = inr net ->
  0 <= Ipaddress.prefixlen net <= 32
  /\ Ipaddress.netmask net = prefix_mask (Ipaddress.prefixlen net)
  /\ 0 <= Ipaddress.network_address net < 2 ^ 32
  /\ network_base (Ipaddress.network_address net) (Ipaddress.prefixlen net)
     = Ipaddress.network_address net.
Proof.
  unfold Ipaddress.IPv4Network.
  destruct (Ipaddress.split_addr_prefix t) as [|[addr mask]]; [discriminate|].
  destruct (Ipaddress.IPv4Address addr) as [packed|] eqn:Ha; [|discriminate].
  destruct (Ipaddress.make_netmask mask) as [[nm p]|] eqn:Hm; [|discriminate].
  destruct (make_netmask_inv _ _ _ Hm) as [Hp ->].
  pose proof (IPv4Address_range _ _ Ha) as Hx.
  rewrite (land_prefix_mask packed p Hx Hp).
  destruct (Z.eqb_spec (network_base packed p) packed) as [E|_]; cbn [negb].
  - intros H. injection H as <-.
    cbn [Ipaddress.prefixlen Ipaddress.netmask Ipaddress.network_address].
    repeat split; solve [lia | exact E].
  - destruct strict; [discriminate|]. intros H. injection H as <-.
    cbn [Ipaddress.prefixlen Ipaddress.netmask Ipaddress.network_address].
    pose proof (network_base_range packed p Hx Hp).
    repeat split; solve [lia | now apply network_base_idem].
Qed.

Lemma network_base_fixed_mod ip p :
  0 <= p <= 32 -> network_base ip p = ip -> ip mod 2 ^ (32 - p) = 0.
Proof. unfold network_base. lia. Qed.

(** X12. Whatever text [parse_cidr] accepts (prefix length, dotted
    netmask, dotted hostmask or bare address), it returns a canonical
    network and leaves the state alone: the subnet is the dotted text of
    an address below [2 ^ 32] whose host bits are all zero for some
    prefix length [p] from 0 to 32, and the mask is the dotted text of
    the standard mask of [p]. *)
Theorem accepted_cidr_is_a_canonical_network :
  forall (W : Type) (HW : Host W) text (s s1 : state W) subnet mask,
    parse_cidr text s = (Return (subnet, mask), s1) ->
    s1 = s
    /\ exists base p,
        0 <= p <= 32 /\ 0 <= base < 2 ^ 32
        /\ base mod 2 ^ (32 - p) = 0
        /\ subnet = dotted_quad base
        /\ mask = dotted_quad (prefix_mask p).
Proof.
  intros W HW text s s1 subnet mask. unfold parse_cidr.
  destruct (Ipaddress.IPv4Network text false) as [e|net] eqn:Hnet;
    [discriminate|].
  destruct (IPv4Network_inv _ _ _ Hnet) as (Hp & Hm & Hx & Hb).
  unfold ret. intros E. injection E as <- <- <-. split; [reflexivity|].
  exists (Ipaddress.network_address net), (Ipaddress.prefixlen net).
  repeat split; try lia.
  - now apply network_base_fixed_mod.
  - now apply string_from_ip_int_dotted.
  - rewrite Hm. apply string_from_ip_int_dotted. now apply prefix_mask_range.
Qed.

Lemma accepted_cidr_is_a_canonical_network_witness :
  start Scenario.host_without_route = start Scenario.host_without_route
  /\ exists base p,
      0 <= p <= 32 /\ 0 <= base < 2 ^ 32
      /\ base mod 2 ^ (32 - p) = 0
      /\ "10.1.0.0" = dotted_quad base
      /\ "255.255.0.0" = dotted_quad (prefix_mask p).
Proof.
  exact (@accepted_cidr_is_a_canonical_network Fake.t Fake.host
           "10.1.2.3/0.0.255.255"
           (start Scenario.host_without_route) (start Scenario.host_without_route)
           "10.1.0.0" "255.255.0.0" eq_refl).
Defined.

(** ** Round trips of the address parser *)

Lemma quad_octets x :
  0 <= x < 2 ^ 32 ->
  octet (x / 2 ^ 24) /\ octet ((x / 2 ^ 16) mod 256)
  /\ octet ((x / 2 ^ 8) mod 256) /\ octet (x mod 256)
  /\ address_of (x / 2 ^ 24) ((x / 2 ^ 16) mod 256) ((x / 2 ^ 8) mod 256)
       (x mod 256) = x.
Proof.
  intros Hx. unfold octet, address_of.
  assert (E16 : x / 2 ^ 16 = x / 2 ^ 8 / 2 ^ 8)
    by (rewrite Z.div_div by lia; reflexivity).
  assert (E24 : x / 2 ^ 24 = x / 2 ^ 8 / 2 ^ 8 / 2 ^ 8)
    by (rewrite !Z.div_div by lia; reflexivity).
  rewrite E16, E24. change (2 ^ 8) with 256.
  set (q1 := x / 256). set (q2 := q1 / 256). set (q3 := q2 / 256).
  pose proof (Z.div_mod x 256 ltac:(lia)) as D1.
  pose proof (Z.div_mod q1 256 ltac:(lia)) as D2.
  pose proof (Z.div_mod q2 256 ltac:(lia)) as D3.
  pose proof (Z.mod_pos_bound x 256 ltac:(lia)) as B1.
  pose proof (Z.mod_pos_bound q1 256 ltac:(lia)) as B2.
  pose proof (Z.mod_pos_bound q2 256 ltac:(lia)) as B3.
  fold q1 in D1. fold q2 in D2. fold q3 in D3.
  change (2 ^ 32) with 4294967296 in Hx.
  change (2 ^ 24) with 16777216. change (2 ^ 16) with 65536.
  lia.
Qed.

Lemma dotted_quad_address_of a b c d :
  octet a -> octet b -> octet c -> octet d ->
  dotted_quad (address_of a b c d) = dotted a b c d.
Proof.
  intros Ha Hb Hc Hd. unfold octet in *. unfold dotted_quad.
  set (x := address_of a b c d).
  assert (Hx : x = a * 2 ^ 24 + b * 2 ^ 16 + c * 2 ^ 8 + d) by reflexivity.
  assert (E3 : x / 2 ^ 24 = a).
  { symmetry. apply (Z.div_unique x (2 ^ 24) a (b * 2 ^ 16 + c * 2 ^ 8 + d)); lia. }
  assert (E2 : x / 2 ^ 16 = a * 256 + b).
  { symmetry. apply (Z.div_unique x (2 ^ 16) (a * 256 + b) (c * 2 ^ 8 + d)); lia. }
  assert (E1 : x / 2 ^ 8 = a * 65536 + b * 256 + c).
  { symmetry. apply (Z.div_unique x (2 ^ 8) (a * 65536 + b * 256 + c) d); lia. }
  assert (M2 : (x / 2 ^ 16) mod 256 = b).
  { rewrite E2. symmetry. apply (Z.mod_unique _ 256 a b); lia. }
  assert (M1 : (x / 2 ^ 8) mod 256 = c).
  { rewrite E1. symmetry. apply (Z.mod_unique _ 256 (a * 256 + b) c); lia. }
  assert (M0 : x mod 256 = d).
  { symmetry. apply (Z.mod_unique x 256 (a * 65536 + b * 256 + c) d); lia. }
  now rewrite E3, M2, M1, M0.
Qed.

Lemma mask_text p :
  0 <= p <= 32 ->
  Ipaddress.make_netmask (Ipaddress.MaskStr (dotted_quad (prefix_mask p)))
  = Some (prefix_mask p, p).
Proof.
  intros Hp.
  assert (H : mask_text_ok p = true).
  { apply (checked_below mask_text_ok 33); [now vm_compute | lia]. }
  unfold mask_text_ok in H.
  destruct (Ipaddress.make_netmask _) as [[nm q]|]; [|discriminate].
  apply andb_true_iff in H as [H1 H2]. apply Z.eqb_eq in H1, H2. now subst.
Qed.

Lemma dotted_quad_no_slash x :
  0 <= x < 2 ^ 32 -> has_char "/" (dotted_quad x) = false.
Proof.
  intros Hx. destruct (quad_octets x Hx) as (H3 & H2 & H1 & H0 & _).
  now apply dotted_no_slash.
Qed.

Lemma IPv4Address_dotted_quad x :
  0 <= x < 2 ^ 32 -> Ipaddress.IPv4Address (dotted_quad x) = Some x.
Proof.
  intros Hx. destruct (quad_octets x Hx) as (H3 & H2 & H1 & H0 & E).
  unfold dotted_quad. rewrite (IPv4Address_dotted _ _ _ _ H3 H2 H1 H0).
  now rewrite E.
Qed.

Lemma split_addr_prefix_slash addr m :
  has_char "/" addr = false -> has_char "/" m = false ->
  Ipaddress.split_addr_prefix (addr ++ "/" ++ m) = inr (addr, Ipaddress.MaskStr m).
Proof.
  intros Ha Hm.
  unfold Ipaddress.split_addr_prefix, Ipaddress.split_optional_netmask.
  change ("/" ++ m) with (String "/" m).
  now rewrite (split_on_app "/" _ _ Ha), (split_on_clean "/" _ Hm).
Qed.

(** X13. Normalisation is idempotent: the subnet and the mask that
    [parse_cidr] returns for any accepted text, written [subnet/mask],
    are accepted again and returned unchanged. *)
Theorem parse_cidr_output_parses_to_itself :
  forall (W : Type) (HW : Host W) text (s s1 s2 : state W) subnet mask,
    parse_cidr text s = (Return (subnet, mask), s1) ->
    parse_cidr (subnet ++ "/" ++ mask) s2 = (Return (subnet, mask), s2).
Proof.
  intros W HW text s s1 s2 subnet mask. unfold parse_cidr at 1.
  destruct (Ipaddress.IPv4Network text false) as [e|net] eqn:Hnet;
    [discriminate|].
  destruct (IPv4Network_inv _ _ _ Hnet) as (Hp & Hm & Hx & Hb).
  unfold ret. intros E. injection E as <- <- _.
  set (base := Ipaddress.network_address net) in *.
  set (p := Ipaddress.prefixlen net) in *.
  rewrite Hm.
  rewrite (string_from_ip_int_dotted base Hx).
  rewrite (string_from_ip_int_dotted _ (prefix_mask_range p Hp)).
  assert (Hagain :
            Ipaddress.IPv4Network
              (dotted_quad base ++ "/" ++ dotted_quad (prefix_mask p)) false
            = inr (Ipaddress.mkNetwork base (prefix_mask p) p)).
  { unfold Ipaddress.IPv4Network.
    rewrite (split_addr_prefix_slash _ _ (dotted_quad_no_slash base Hx)
               (dotted_quad_no_slash _ (prefix_mask_range p Hp))).
    rewrite (IPv4Address_dotted_quad base Hx), (mask_text p Hp).
    rewrite (land_prefix_mask base p Hx Hp), Hb, Z.eqb_refl. reflexivity. }
  rewrite (parse_cidr_accepts s2 Hagain).
  cbn [Ipaddress.network_address Ipaddress.netmask].
  rewrite (string_from_ip_int_dotted base Hx).
  rewrite (string_from_ip_int_dotted _ (prefix_mask_range p Hp)).
  reflexivity.
Qed.

Lemma parse_cidr_output_parses_to_itself_witness :
  parse_cidr "172.16.0.0/255.240.0.0" (start Scenario.host_without_route)
  = (Return ("172.16.0.0", "255.240.0.0"), start Scenario.host_without_route).
Proof.
  exact (@parse_cidr_output_parses_to_itself Fake.t Fake.host "172.16.5.37/12"
           (start Scenario.host_without_route) (start Scenario.host_without_route)
           (start Scenario.host_without_route) "172.16.0.0" "255.240.0.0" eq_refl).
Defined.

(** X14. A bare address [a.b.c.d], without slash, is accepted as a host
    route: [parse_cidr] returns the address itself with the mask
    255.255.255.255. *)
Theorem bare_address_parses_as_host_route :
  forall (W : Type) (HW : Host W) a b c d (s : state W),
    octet a -> octet b -> octet c -> octet d ->
    parse_cidr (dotted a b c d) s
    = (Return (dotted a b c d, "255.255.255.255"), s).
Proof.
  intros W HW a b c d s Ha Hb Hc Hd.
  pose proof (address_of_range a b c d Ha Hb Hc Hd) as Hx.
  assert (Hnet : Ipaddress.IPv4Network (dotted a b c d) false
                 = inr (Ipaddress.mkNetwork (address_of a b c d) 4294967295 32)).
  { unfold Ipaddress.IPv4Network, Ipaddress.split_addr_prefix,
      Ipaddress.split_optional_netmask.
    rewrite (split_on_clean "/" _ (dotted_no_slash a b c d Ha Hb Hc Hd)).
    cbn [List.length Nat.ltb Nat.leb].
    rewrite (IPv4Address_dotted a b c d Ha Hb Hc Hd).
    change (Ipaddress.make_netmask (Ipaddress.MaskInt Ipaddress.max_prefixlen))
      with (Some (prefix_mask 32, 32)).
    cbv beta iota.
    rewrite (land_prefix_mask _ 32 Hx ltac:(lia)).
    assert (E : network_base (address_of a b c d) 32 = address_of a b c d).
    { unfold network_base. change (2 ^ (32 - 32)) with 1. rewrite Z.mod_1_r. lia. }
    rewrite E, Z.eqb_refl. reflexivity. }
  rewrite (parse_cidr_accepts s Hnet).
  cbn [Ipaddress.network_address Ipaddress.netmask].
  rewrite (string_from_ip_int_dotted _ Hx), dotted_quad_address_of by assumption.
  reflexivity.
Qed.

Lemma bare_address_parses_as_host_route_witness :
  parse_cidr "10.0.0.0" (start Scenario.host_without_route)
  = (Return ("10.0.0.0", "255.255.255.255"), start Scenario.host_without_route).
Proof.
  apply (@bare_address_parses_as_host_route Fake.t Fake.host 10 0 0 0
           (start Scenario.host_without_route)); unfold octet; lia.
Defined.

(** ** Bounds of the address parser *)

Lemma str_no_dot n : has_char "." (Py.str n) = false.
Proof. apply str_has_no; [reflexivity | discriminate]. Qed.

Lemma str_no_slash n : has_char "/" (Py.str n) = false.
Proof. apply str_has_no; [reflexivity | discriminate]. Qed.

Lemma dotted_parts a b c d :
  Py.split_on "." (dotted a b c d) = [Py.str a; Py.str b; Py.str c; Py.str d].
Proof.
  unfold dotted.
  change ("." ++ ?x) with (String "." x).
  rewrite (split_on_app "." _ _ (str_no_dot a)).
  change ("." ++ ?x) with (String "." x).
  rewrite (split_on_app "." _ _ (str_no_dot b)).
  change ("." ++ ?x) with (String "." x).
  rewrite (split_on_app "." _ _ (str_no_dot c)).
  now rewrite (split_on_clean "." _ (str_no_dot d)).
Qed.

Lemma dotted_has_no_slash a b c d : has_char "/" (dotted a b c d) = false.
Proof.
  unfold dotted. repeat rewrite has_char_app.
  now rewrite !str_no_slash.
Qed.

Lemma parse_octet_out n : ~ octet n -> Ipaddress.parse_octet (Py.str n) = None.
Proof.
  intros Hn. unfold octet in Hn. unfold Ipaddress.parse_octet.
  destruct (negb (Py.truthy_str (Py.str n))); [reflexivity|].
  destruct (Z.lt_ge_cases n 0) as [Hneg | Hge].
  - now rewrite (str_neg n Hneg).
  - destruct (str_digits n Hge) as [Hd Hv]. rewrite Hd, Hv. cbn [negb].
    destruct (3 <? String.length (Py.str n))%nat; [reflexivity|].
    destruct (negb (String.eqb (Py.str n) "0") && String.prefix "0" (Py.str n));
      [reflexivity|].
    destruct (Z.ltb_spec 255 n); [reflexivity | lia].
Qed.

Lemma IPv4Address_out a b c d :
  ~ (octet a /\ octet b /\ octet c /\ octet d) ->
  Ipaddress.IPv4Address (dotted a b c d) = None.
Proof.
  intros Hout. unfold Ipaddress.IPv4Address.
  change "/" with (String "/" EmptyString) at 1.
  rewrite str_in_char, dotted_has_no_slash.
  unfold Ipaddress.ip_int_from_string.
  rewrite dotted_truthy, dotted_parts.
  cbn [negb List.length Nat.eqb Ipaddress.map_octets].
  destruct (Ipaddress.parse_octet (Py.str a)) as [va|] eqn:Ea; [|reflexivity].
  destruct (Ipaddress.parse_octet (Py.str b)) as [vb|] eqn:Eb; [|reflexivity].
  destruct (Ipaddress.parse_octet (Py.str c)) as [vc|] eqn:Ec; [|reflexivity].
  destruct (Ipaddress.parse_octet (Py.str d)) as [vd|] eqn:Ed; [|reflexivity].
  exfalso. apply Hout.
  assert (Hin : forall n v, Ipaddress.parse_octet (Py.str n) = Some v -> octet n).
  { intros n v E. destruct (Z_le_dec 0 n) as [H0|H0];
      [destruct (Z_le_dec n 255) as [H1|H1]; [now split|]|];
      rewrite parse_octet_out in E by (unfold octet; lia); discriminate. }
  repeat split; eapply Hin; eassumption.
Qed.

Lemma make_netmask_out p :
  ~ 0 <= p <= 32 ->
  Ipaddress.make_netmask (Ipaddress.MaskStr (Py.str p)) = None.
Proof.
  intros Hp. unfold Ipaddress.make_netmask.
  assert (H1 : Ipaddress.prefix_from_prefix_string (Py.str p) = None).
  { unfold Ipaddress.prefix_from_prefix_string.
    destruct (Z.lt_ge_cases p 0) as [Hneg | Hge].
    - now rewrite (str_neg p Hneg).
    - destruct (str_digits p Hge) as [Hd Hv]. rewrite Hd. cbn [negb].
      rewrite (int_of_digits _ Hd), Hv.
      destruct (Py.int_max_str_digits <? Z.of_nat (String.length (Py.str p)));
        [reflexivity|].
      unfold Ipaddress.max_prefixlen, Ipaddress.IPV4LENGTH.
      destruct (Z.leb_spec 0 p); [|lia].
      destruct (Z.leb_spec p 32); [lia | reflexivity]. }
  assert (H2 : Ipaddress.prefix_from_ip_string (Py.str p) = None).
  { unfold Ipaddress.prefix_from_ip_string, Ipaddress.ip_int_from_string.
    destruct (negb (Py.truthy_str (Py.str p))); [reflexivity|].
    now rewrite (split_on_clean "." _ (str_no_dot p)). }
  now rewrite H1, H2.
Qed.

(** X15. Bounds are checked: a text [a.b.c.d/p] in which an octet is
    outside 0..255 or the prefix length is outside 0..32 (negative
    numbers included) is refused; [parse_cidr] prints
    [Invalid CIDR format:] with the text and raises [SystemExit(1)]. *)
Theorem out_of_range_cidr_is_rejected :
  forall (W : Type) (HW : Host W) a b c d p (s : state W),
    ~ (octet a /\ octet b /\ octet c /\ octet d /\ 0 <= p <= 32) ->
    parse_cidr (cidr_text a b c d p) s =
    (Raise (SystemExit 1),
     mkState (world s)
       (log s ++ [EvPrint ("Invalid CIDR format: " ++ cidr_text a b c d p)])).
Proof.
  intros W HW a b c d p s Hout.
  assert (Hrej : exists e, Ipaddress.IPv4Network (cidr_text a b c d p) false = inl e).
  { unfold Ipaddress.IPv4Network, cidr_text.
    rewrite (split_addr_prefix_slash _ _ (dotted_has_no_slash a b c d)
               (str_no_slash p)).
    destruct (Ipaddress.IPv4Address (dotted a b c d)) as [packed|] eqn:Ha;
      [|now eexists].
    assert (Hp : ~ 0 <= p <= 32).
    { intros Hp. apply Hout.
      assert (Hoct : octet a /\ octet b /\ octet c /\ octet d).
      { unfold octet.
        destruct (Z_le_dec 0 a), (Z_le_dec a 255), (Z_le_dec 0 b), (Z_le_dec b 255),
          (Z_le_dec 0 c), (Z_le_dec c 255), (Z_le_dec 0 d), (Z_le_dec d 255);
          try lia;
          rewrite IPv4Address_out in Ha by (unfold octet; lia); discriminate. }
      tauto. }
    rewrite (make_netmask_out p Hp). now eexists. }
  destruct Hrej as [e He]. exact (parse_cidr_rejects s He).
Qed.

Lemma out_of_range_cidr_is_rejected_witness :
  parse_cidr "10.0.0.256/8" (start Scenario.host_without_route)
  = (Raise (SystemExit 1),
     mkState Scenario.host_without_route
       [EvPrint "Invalid CIDR format: 10.0.0.256/8"]).
Proof.
  apply (@out_of_range_cidr_is_rejected Fake.t Fake.host 10 0 0 256 8
           (start Scenario.host_without_route)).
  unfold octet. lia.
Defined.

(** ** A route command that cannot be started *)

(** X16. When the route delete command cannot be run at all (the call
    raises an [Exception], as when the program is missing), the run ends
    there with that exception uncaught, exit status 1: nothing is
    printed about the deletion and the route add is not attempted. *)
Theorem delete_that_cannot_run_ends_the_run :
  forall (W : Type) (HW : Host W) args (s0 s1 s2 s : state W) c net index gw
         cls msg w1,
    dry_run args = false ->
    status args = false ->
    resolve_cidr args s0 = (Return c, s1) ->
    Ipaddress.IPv4Network c false = inr net ->
    resolve_interface_index args s1 = (Return index, s2) ->
    resolve_gateway args index s2 = (Return gw, s) ->
    let subnet := Ipaddress.string_from_ip_int (Ipaddress.network_address net) in
    host_run (delete_cmd subnet) (world s) = (Raise (Exception cls msg), w1) ->
    main args s0 =
    (Raise (Exception cls msg), mkState w1 (log s ++ [EvRun (delete_cmd subnet)]))
    /\ exit_status (fst (main args s0)) = Some 1.
Proof.
  intros W HW args s0 s1 s2 s c net index gw cls msg w1
         Hdry Hst Hc Hnet Hi Hg subnet E1.
  assert (Hmain : main args s0 =
                  (Raise (Exception cls msg),
                   mkState w1 (log s ++ [EvRun (delete_cmd subnet)]))).
  { rewrite (main_reaches_reconcile Hst Hc Hnet Hi Hg).
    rewrite Hdry. fold subnet. unfold reconcile.
    apply try_passed; [|reflexivity].
    apply bind_Raise. exact (delete_live_raised E1). }
  rewrite Hmain. split; reflexivity.
Qed.

Lemma delete_that_cannot_run_ends_the_run_witness :
  main (Scenario.explicit_args false false) (start (Broken.mk []))
  = (Raise (Exception "FileNotFoundError"
              "[WinError 2] The system cannot find the file specified"),
     mkState (Broken.mk []) [EvRun ["route"; "delete"; "172.16.0.0"]]).
Proof.
  apply (proj1 (@delete_that_cannot_run_ends_the_run Broken.t Broken.host
                  (Scenario.explicit_args false false)
                  (start (Broken.mk [])) (start (Broken.mk []))
                  (start (Broken.mk [])) (start (Broken.mk []))
                  "172.16.0.0/12" (Ipaddress.mkNetwork 2886729728 4293918720 12)
                  7 "192.168.1.1" "FileNotFoundError"
                  "[WinError 2] The system cannot find the file specified"
                  (Broken.mk [])
                  eq_refl eq_refl eq_refl eq_refl eq_refl eq_refl eq_refl)).
Defined.

(** ** Resolution of the CIDR *)

(** X17. When [--cidr] is missing (or empty) the guest is queried first:
    an address that the query returns is always used as it is, without
    any prompt; the prompt is shown exactly when the query returned
    nothing, and then the typed line (or the exception of the prompt) is
    what the resolution gives. *)
Theorem cidr_falls_back_from_query_to_prompt :
  forall (W : Type) (HW : Host W) args (s s1 : state W) found,
    cidr args = None \/ cidr args = Some EmptyString ->
    get_wsl_ip_cidr s = (Return found, s1) ->
    (forall value, found = Some value ->
                   resolve_cidr args s = (Return value, s1))
    /\ (found = None ->
        forall r w2,
          host_input cidr_prompt (world s1) = (r, w2) ->
          resolve_cidr args s =
          (r, mkState w2 (log s1 ++ [EvInput cidr_prompt]))).
Proof.
  intros W HW args s s1 found Hno Hq.
  assert (Hfb : forall fb : M W string, unless_str (cidr args) fb = fb).
  { intros fb. unfold unless_str. destruct Hno as [-> | ->]; reflexivity. }
  unfold resolve_cidr. rewrite Hfb, (bind_Return _ Hq). split.
  - intros value ->. cbn [unless_str].
    destruct (proj2 (get_wsl_ip_cidr_outcomes s) value s1 Hq) as [_ ->].
    reflexivity.
  - intros -> r w2 Hin. cbn [unless_str].
    exact (input_eq Hin).
Qed.

Lemma cidr_falls_back_from_query_to_prompt_witness :
  resolve_cidr (mkArgs None None None false false)
    (start (Broken.mk ["10.0.0.0/8"]))
  = (Return "10.0.0.0/8",
     mkState (Broken.mk [])
       [EvRun wsl_ip_cmd;
        EvPrint ("Error retrieving WSL IP address in CIDR format: "
                   ++ "[WinError 2] The system cannot find the file specified");
        EvInput cidr_prompt]).
Proof.
  exact (proj2 (@cidr_falls_back_from_query_to_prompt Broken.t Broken.host
                  (mkArgs None None None false false)
                  (start (Broken.mk ["10.0.0.0/8"]))
                  (mkState (Broken.mk ["10.0.0.0/8"])
                     [EvRun wsl_ip_cmd;
                      EvPrint ("Error retrieving WSL IP address in CIDR format: "
                                 ++ "[WinError 2] The system cannot find the file specified")])
                  None (or_introl eq_refl) eq_refl)
           eq_refl (Return "10.0.0.0/8") (Broken.mk []) eq_refl).
Defined.

(** ** The prompts in a whole run *)

Section Prompts.

Context {W : Type} {HW : Host W}.

Lemma adds_only_log (P : event -> bool) {A} (m : M W A) (s : state W) r s' :
  adds_only (W := W) P m -> m s = (r, s') ->
  exists added, log s' = (log s ++ added)%list /\ forallb P added = true.
Proof.
  intros H E. destruct (H s) as [l [El Fl]]. rewrite E in El. now exists l.
Qed.

(** Nothing that [main] does up to the lookup of the gateway is a route
    delete or a route add. *)
Lemma no_mutation_before_gateway_prompt args (s0 s1 s2 s3 : state W) c index r1 r2 :
  resolve_cidr args s0 = (Return c, s1) ->
  resolve_interface_index args s1 = (r1, s2) ->
  get_gateway_from_nic index s2 = (r2, s3) ->
  filter is_mutation (log s3) = filter is_mutation (log s0).
Proof.
  intros Hc Hi Hg.
  destruct (adds_only_log quiet _ _ _ _ (quiet_resolve_cidr args) Hc)
    as (l1 & E1 & F1).
  destruct (adds_only_log quiet _ _ _ _
              (adds_resolve_interface_index quiet (fun _ => eq_refl) args
                 eq_refl eq_refl) Hi) as (l2 & E2 & F2).
  destruct (adds_only_log quiet _ _ _ _
              (adds_get_gateway_from_nic quiet (fun _ => eq_refl) index
                 (quiet_gateway_cmd index)) Hg) as (l3 & E3 & F3).
  rewrite E3, E2, E1. repeat rewrite filter_app.
  rewrite (filter_quiet _ F1), (filter_quiet _ F2), (filter_quiet _ F3).
  now repeat rewrite app_nil_r.
Qed.

(** Once the CIDR is parsed and the index has been typed, what is left
    of [main] is the resolution of the gateway and the reconciliation,
    with the typed index. *)
Lemma main_after_index_prompt args (s0 s1 : state W) c net cp w2 line w3 n :
  status args = false ->
  resolve_cidr args s0 = (Return c, s1) ->
  Ipaddress.IPv4Network c false = inr net ->
  interface_index args = None \/ interface_index args = Some 0 ->
  host_run adapters_cmd (world s1) = (Return cp, w2) ->
  host_input index_prompt w2 = (Return line, w3) ->
  Py.int line = inr n ->
  main args s0 =
  try_except
    (gw <- resolve_gateway args n ;;
     reconcile (Ipaddress.string_from_ip_int (Ipaddress.network_address net))
       (Ipaddress.string_from_ip_int (Ipaddress.netmask net)) gw n (dry_run args))
    is_KeyboardInterrupt cancelled
    (mkState w3
       (log s1 ++
          [EvPrint "Available network adapters:"; EvRun adapters_cmd]
          ++ (if returncode cp =? 0
              then [EvPrint "Available Network Interfaces:"; EvPrint (stdout cp)]
              else [EvPrint ("Failed to retrieve network adapters:"
                               ++ Py.nl ++ stderr cp)])
          ++ [EvInput index_prompt])).
Proof.
  intros Hst Hc Hnet Hno Ecp Ein Hint.
  pose proof (resolve_interface_index_asks args s1 cp w2 line w3 Hno Ecp Ein) as Hi.
  rewrite Hint in Hi.
  rewrite main_unfold. unfold main_body.
  rewrite (try_bind _ _ _ Hc).
  rewrite (try_bind _ _ _ (parse_cidr_accepts s1 Hnet)).
  rewrite Hst.
  rewrite (try_bind _ _ _ Hi).
  reflexivity.
Qed.

End Prompts.

(** C9. An interface index of 0 given on the command line is false for
    [if not args.interface_index], like a missing one.  The whole run is
    the same as without the option; and in a run that gets as far as
    the index (the CIDR is accepted, no [--status]), [main] prints the
    heading, lists the adapters and shows the index prompt, and the
    integer read from the answer, not the 0, is the index with which the
    gateway is looked up and the routes are reconciled. *)
Theorem zero_index_is_treated_as_absent :
  forall (W : Type) (HW : Host W) args,
    interface_index args = Some 0 ->
    (forall s : state W,
        main args s =
        main (mkArgs (cidr args) (gateway args) None (dry_run args) (status args)) s)
    /\ (forall (s0 s1 : state W) c net cp w2 line w3 n,
           status args = false ->
           resolve_cidr args s0 = (Return c, s1) ->
           Ipaddress.IPv4Network c false = inr net ->
           host_run adapters_cmd (world s1) = (Return cp, w2) ->
           host_input index_prompt w2 = (Return line, w3) ->
           Py.int line = inr n ->
           main args s0 =
           try_except
             (gw <- resolve_gateway args n ;;
              reconcile
                (Ipaddress.string_from_ip_int (Ipaddress.network_address net))
                (Ipaddress.string_from_ip_int (Ipaddress.netmask net))
                gw n (dry_run args))
             is_KeyboardInterrupt cancelled
             (mkState w3
                (log s1 ++
                   [EvPrint "Available network adapters:"; EvRun adapters_cmd]
                   ++ (if returncode cp =? 0
                       then [EvPrint "Available Network Interfaces:";
                             EvPrint (stdout cp)]
                       else [EvPrint ("Failed to retrieve network adapters:"
                                        ++ Py.nl ++ stderr cp)])
                   ++ [EvInput index_prompt]))).
Proof.
  intros W HW args Hi. split.
  - intros s. destruct args as [c g i d st]. cbn in Hi. subst i. reflexivity.
  - intros s0 s1 c net cp w2 line w3 n Hst Hc Hnet Ecp Ein Hint.
    exact (main_after_index_prompt args s0 s1 c net cp w2 line w3 n
             Hst Hc Hnet (or_intror Hi) Ecp Ein Hint).
Qed.

Lemma zero_index_is_treated_as_absent_witness :
  main (mkArgs (Some "172.16.0.0/12") (Some "192.168.1.1") (Some 0) true false)
    (start Scenario.host_with_typist)
  = (Return tt,
     mkState (Fake.mk ["0.0.0.0"] true (Fake.ok Scenario.ip_addr_output)
                (Fake.ok ("192.168.1.1" ++ Py.nl)) true [])
       [EvPrint "Available network adapters:";
        EvRun adapters_cmd;
        EvPrint "Available Network Interfaces:";
        EvPrint "InterfaceAlias InterfaceIndex";
        EvInput index_prompt;
        EvPrint "[Dry Run] Command to delete route: route delete 172.16.0.0";
        EvPrint "[Dry Run] Command to add route: route add 172.16.0.0 MASK 255.240.0.0 192.168.1.1 IF 12"]).
Proof.
  apply (proj2 (@zero_index_is_treated_as_absent Fake.t Fake.host
                  (mkArgs (Some "172.16.0.0/12") (Some "192.168.1.1") (Some 0)
                     true false) eq_refl)
           (start Scenario.host_with_typist) (start Scenario.host_with_typist)
           "172.16.0.0/12" (Ipaddress.mkNetwork 2886729728 4293918720 12)
           (mkCompleted 0 "InterfaceAlias InterfaceIndex" EmptyString)
           Scenario.host_with_typist "12"
           (Fake.mk ["0.0.0.0"] true (Fake.ok Scenario.ip_addr_output)
              (Fake.ok ("192.168.1.1" ++ Py.nl)) true [])
           12 eq_refl eq_refl eq_refl eq_refl eq_refl eq_refl).
Defined.

(** C6, amended. When no gateway is supplied and the lookup by index
    returns nothing, [main] prints a notice and asks for a gateway, and
    no route delete or add has been run when it asks.  Whatever line is
    entered, even an empty one, is handed unchecked to the
    reconciliation (route delete, then route add) as the gateway; there
    is no failure for a missing gateway.  If the prompt raises instead,
    the reconciliation is not started: an interrupt is caught by [main],
    which prints the cancellation message and exits with status 0; any
    other exception (end of input) ends the run uncaught. *)
Theorem gateway_prompt_answer_is_used_unchecked :
  forall (W : Type) (HW : Host W) args (s0 s1 s2 s3 : state W) c net index,
    status args = false ->
    resolve_cidr args s0 = (Return c, s1) ->
    Ipaddress.IPv4Network c false = inr net ->
    resolve_interface_index args s1 = (Return index, s2) ->
    gateway args = None \/ gateway args = Some EmptyString ->
    get_gateway_from_nic index s2 = (Return None, s3) ->
    let subnet := Ipaddress.string_from_ip_int (Ipaddress.network_address net) in
    let mask := Ipaddress.string_from_ip_int (Ipaddress.netmask net) in
    let asked w := mkState w (log s3 ++ [EvPrint gateway_notice; EvInput gateway_prompt]) in
    (forall w, filter is_mutation (log (asked w)) = filter is_mutation (log s0))
    /\ (forall line w4,
           host_input gateway_prompt (world s3) = (Return line, w4) ->
           main args s0 =
           try_except (reconcile subnet mask line index (dry_run args))
             is_KeyboardInterrupt cancelled (asked w4))
    /\ (forall w4,
           host_input gateway_prompt (world s3) = (Raise KeyboardInterrupt, w4) ->
           main args s0 =
           (Raise (SystemExit 0),
            mkState w4
              (log (asked w4)
                 ++ [EvPrint (Py.nl ++ "Operation cancelled by user.")])))
    /\ (forall e w4,
           host_input gateway_prompt (world s3) = (Raise e, w4) ->
           is_KeyboardInterrupt e = false ->
           main args s0 = (Raise e, asked w4))
    /\ (forall e w4,
           host_input gateway_prompt (world s3) = (Raise e, w4) ->
           filter is_mutation (log (snd (main args s0)))
           = filter is_mutation (log s0)).
Proof.
  intros W HW args s0 s1 s2 s3 c net index Hst Hc Hnet Hi Hno Hnic subnet mask asked.
  assert (Hraise : forall e w4,
             host_input gateway_prompt (world s3) = (Raise e, w4) ->
             main_body args s0 = (Raise e, asked w4)).
  { intros e w4 Hin. unfold main_body.
    rewrite (bind_Return _ Hc), (bind_Return _ (parse_cidr_accepts s1 Hnet)), Hst.
    rewrite (bind_Return _ Hi).
    apply bind_Raise.
    exact (resolve_gateway_asks args index s2 s3 (Raise e) w4 Hno Hnic Hin). }
  assert (Hasked : forall w, filter is_mutation (log (asked w))
                              = filter is_mutation (log s0)).
  { intros w. unfold asked. cbn [log]. rewrite filter_app. cbn [filter is_mutation].
    rewrite app_nil_r.
    exact (no_mutation_before_gateway_prompt args s0 s1 s2 s3 c index _ _ Hc Hi Hnic). }
  assert (Hint : forall w4,
             host_input gateway_prompt (world s3) = (Raise KeyboardInterrupt, w4) ->
             main args s0 =
             (Raise (SystemExit 0),
              mkState w4
                (log (asked w4)
                   ++ [EvPrint (Py.nl ++ "Operation cancelled by user.")]))).
  { intros w4 Hin. rewrite main_unfold.
    rewrite (try_caught _ _ (Hraise _ _ Hin) eq_refl). reflexivity. }
  assert (Hother : forall e w4,
             host_input gateway_prompt (world s3) = (Raise e, w4) ->
             is_KeyboardInterrupt e = false ->
             main args s0 = (Raise e, asked w4)).
  { intros e w4 Hin He. rewrite main_unfold.
    exact (try_passed _ _ (Hraise _ _ Hin) He). }
  split; [exact Hasked|]. split; [|split; [exact Hint|split; [exact Hother|]]].
  - intros line w4 Hin.
    exact (main_reaches_reconcile Hst Hc Hnet Hi
             (resolve_gateway_asks args index s2 s3 (Return line) w4 Hno Hnic Hin)).
  - intros e w4 Hin. destruct (is_KeyboardInterrupt e) eqn:He.
    + destruct e; try discriminate He.
      rewrite (Hint w4 Hin). cbn [snd log]. rewrite filter_app.
      cbn [filter is_mutation]. rewrite app_nil_r. apply Hasked.
    + rewrite (Hother e w4 Hin He). cbn [snd]. apply Hasked.
Qed.

Lemma gateway_prompt_answer_is_used_unchecked_witness :
  main (mkArgs (Some "172.16.0.0/12") None (Some 7) false false)
    (start Scenario.host_without_gateway)
  = (Return tt,
     mkState (Fake.mk ["0.0.0.0"; "172.16.0.0"] true
                (Fake.ok Scenario.ip_addr_output) (Fake.ok Py.nl) true [])
       [EvRun (gateway_cmd 7);
        EvPrint "No gateway found for interface index '7'.";
        EvPrint gateway_notice; EvInput gateway_prompt;
        EvRun ["route"; "delete"; "172.16.0.0"];
        EvPrint ("No existing route found for 172.16.0.0 or failed to delete:"
                   ++ Py.nl ++ "The route deletion failed: Element not found.");
        EvRun ["route"; "add"; "172.16.0.0"; "MASK"; "255.240.0.0"; EmptyString;
               "IF"; "7"];
        EvPrint ("Static route added successfully:" ++ Py.nl ++ " OK!")]).
Proof.
  apply (proj1 (proj2
           (@gateway_prompt_answer_is_used_unchecked Fake.t Fake.host
              (mkArgs (Some "172.16.0.0/12") None (Some 7) false false)
              (start Scenario.host_without_gateway)
              (start Scenario.host_without_gateway)
              (start Scenario.host_without_gateway)
              (mkState Scenario.host_without_gateway
                 [EvRun (gateway_cmd 7);
                  EvPrint "No gateway found for interface index '7'."])
              "172.16.0.0/12" (Ipaddress.mkNetwork 2886729728 4293918720 12) 7
              eq_refl eq_refl eq_refl eq_refl (or_introl eq_refl) eq_refl))
           EmptyString
           (Fake.mk ["0.0.0.0"] true (Fake.ok Scenario.ip_addr_output)
              (Fake.ok Py.nl) true [])
           eq_refl).
Defined.

(** X9. When the interface index is missing (or 0) and [int] refuses
    the answer to the index prompt (it is not an integer literal, or it
    has more digits than the interpreter's limit), the run ends with an
    uncaught [ValueError], exit status 1, right after the prompt: the
    adapters were listed, no gateway is looked up and no route command
    is run. *)
Theorem unreadable_index_aborts_before_mutation :
  forall (W : Type) (HW : Host W) args (s0 s1 : state W) c net cp w2 line w3 e,
    status args = false ->
    resolve_cidr args s0 = (Return c, s1) ->
    Ipaddress.IPv4Network c false = inr net ->
    interface_index args = None \/ interface_index args = Some 0 ->
    host_run adapters_cmd (world s1) = (Return cp, w2) ->
    host_input index_prompt w2 = (Return line, w3) ->
    Py.int line = inl e ->
    main args s0 =
    (Raise (Exception "ValueError" (Py.int_error_text line e)),
     mkState w3
       (log s1 ++
          [EvPrint "Available network adapters:"; EvRun adapters_cmd]
          ++ (if returncode cp =? 0
              then [EvPrint "Available Network Interfaces:"; EvPrint (stdout cp)]
              else [EvPrint ("Failed to retrieve network adapters:"
                               ++ Py.nl ++ stderr cp)])
          ++ [EvInput index_prompt]))
    /\ exit_status (fst (main args s0)) = Some 1.
Proof.
  intros W HW args s0 s1 c net cp w2 line w3 e Hst Hc Hnet Hno Ecp Ein Hint.
  pose proof (resolve_interface_index_asks args s1 cp w2 line w3 Hno Ecp Ein) as Hidx.
  rewrite Hint in Hidx.
  assert (Hbody : main_body args s0 =
                  (Raise (Exception "ValueError" (Py.int_error_text line e)),
                   snd (resolve_interface_index args s1))).
  { unfold main_body.
    rewrite (bind_Return _ Hc), (bind_Return _ (parse_cidr_accepts s1 Hnet)), Hst.
    rewrite Hidx. cbn [snd]. apply bind_Raise. exact Hidx. }
  rewrite main_unfold, (try_passed _ _ Hbody eq_refl), Hidx.
  split; reflexivity.
Qed.

Lemma unreadable_index_aborts_before_mutation_witness :
  main (mkArgs (Some "172.16.0.0/12") None None false false)
    (start Scenario.host_without_gateway)
  = (Raise (Exception "ValueError" "invalid literal for int() with base 10: ''"),
     mkState (Fake.mk ["0.0.0.0"] true (Fake.ok Scenario.ip_addr_output)
                (Fake.ok Py.nl) true [])
       [EvPrint "Available network adapters:"; EvRun adapters_cmd;
        EvPrint "Available Network Interfaces:";
        EvPrint "InterfaceAlias InterfaceIndex";
        EvInput index_prompt]).
Proof.
  apply (proj1 (@unreadable_index_aborts_before_mutation Fake.t Fake.host
                  (mkArgs (Some "172.16.0.0/12") None None false false)
                  (start Scenario.host_without_gateway)
                  (start Scenario.host_without_gateway)
                  "172.16.0.0/12" (Ipaddress.mkNetwork 2886729728 4293918720 12)
                  (mkCompleted 0 "InterfaceAlias InterfaceIndex" EmptyString)
                  Scenario.host_without_gateway EmptyString
                  (Fake.mk ["0.0.0.0"] true (Fake.ok Scenario.ip_addr_output)
                     (Fake.ok Py.nl) true [])
                  Py.InvalidLiteral
                  eq_refl eq_refl eq_refl (or_introl eq_refl)
                  eq_refl eq_refl eq_refl)).
Defined.

(** X11. When the interface index is missing (or 0) and the user
    answers the index prompt with the decimal text of an integer [n] of
    at most 4300 digits, as [str] writes it in the [route add ... IF n]
    command, the index that [main] resolves is [n], and [n] is the index
    with which the gateway is looked up and the routes are reconciled. *)
Theorem typed_index_is_read_back :
  forall (W : Type) (HW : Host W) args (s0 s1 : state W) c net cp w2 n w3,
    status args = false ->
    resolve_cidr args s0 = (Return c, s1) ->
    Ipaddress.IPv4Network c false = inr net ->
    interface_index args = None \/ interface_index args = Some 0 ->
    Z.abs n < 10 ^ Py.int_max_str_digits ->
    host_run adapters_cmd (world s1) = (Return cp, w2) ->
    host_input index_prompt w2 = (Return (Py.str n), w3) ->
    let asked :=
      mkState w3
        (log s1 ++
           [EvPrint "Available network adapters:"; EvRun adapters_cmd]
           ++ (if returncode cp =? 0
               then [EvPrint "Available Network Interfaces:"; EvPrint (stdout cp)]
               else [EvPrint ("Failed to retrieve network adapters:"
                                ++ Py.nl ++ stderr cp)])
           ++ [EvInput index_prompt]) in
    resolve_interface_index args s1 = (Return n, asked)
    /\ main args s0 =
       try_except
         (gw <- resolve_gateway args n ;;
          reconcile (Ipaddress.string_from_ip_int (Ipaddress.network_address net))
            (Ipaddress.string_from_ip_int (Ipaddress.netmask net))
            gw n (dry_run args))
         is_KeyboardInterrupt cancelled asked.
Proof.
  intros W HW args s0 s1 c net cp w2 n w3 Hst Hc Hnet Hno Hn Ecp Ein asked.
  pose proof (int_str n Hn) as Hint. split.
  - rewrite (resolve_interface_index_asks args s1 cp w2 (Py.str n) w3 Hno Ecp Ein).
    now rewrite Hint.
  - exact (main_after_index_prompt args s0 s1 c net cp w2 (Py.str n) w3 n
             Hst Hc Hnet Hno Ecp Ein Hint).
Qed.

Lemma typed_index_is_read_back_witness :
  resolve_interface_index (mkArgs (Some "172.16.0.0/12") None None true false)
    (start Scenario.host_with_typist)
  = (Return 12,
     mkState (Fake.mk ["0.0.0.0"] true (Fake.ok Scenario.ip_addr_output)
                (Fake.ok ("192.168.1.1" ++ Py.nl)) true [])
       [EvPrint "Available network adapters:"; EvRun adapters_cmd;
        EvPrint "Available Network Interfaces:";
        EvPrint "InterfaceAlias InterfaceIndex";
        EvInput index_prompt])
  /\ main (mkArgs (Some "172.16.0.0/12") None None true false)
       (start Scenario.host_with_typist)
     = (Return tt,
        mkState (Fake.mk ["0.0.0.0"] true (Fake.ok Scenario.ip_addr_output)
                   (Fake.ok ("192.168.1.1" ++ Py.nl)) true [])
          [EvPrint "Available network adapters:"; EvRun adapters_cmd;
           EvPrint "Available Network Interfaces:";
           EvPrint "InterfaceAlias InterfaceIndex";
           EvInput index_prompt;
           EvRun (gateway_cmd 12);
           EvPrint "[Dry Run] Command to delete route: route delete 172.16.0.0";
           EvPrint "[Dry Run] Command to add route: route add 172.16.0.0 MASK 255.240.0.0 192.168.1.1 IF 12"]).
Proof.
  assert (Hn : Z.abs 12 < 10 ^ Py.int_max_str_digits)
    by (vm_compute; reflexivity).
  exact (@typed_index_is_read_back Fake.t Fake.host
           (mkArgs (Some "172.16.0.0/12") None None true false)
           (start Scenario.host_with_typist) (start Scenario.host_with_typist)
           "172.16.0.0/12" (Ipaddress.mkNetwork 2886729728 4293918720 12)
           (mkCompleted 0 "InterfaceAlias InterfaceIndex" EmptyString)
           Scenario.host_with_typist 12
           (Fake.mk ["0.0.0.0"] true (Fake.ok Scenario.ip_addr_output)
              (Fake.ok ("192.168.1.1" ++ Py.nl)) true [])
           eq_refl eq_refl eq_refl (or_introl eq_refl) Hn eq_refl eq_refl).
Defined.
